(** * Split-learning model partitions: [sl_base.py]

    A shallow embedding of
    [secretflow/ml/nn/sl/backend/tensorflow/sl_base.py]: the TensorFlow
    partition [SLBaseTFModel] (dataset construction, base forward and
    backward around an open gradient tape, the fuse step, the callback
    life cycle) and the torch-style [ModelPartition].

    Python objects are records, [self] is threaded explicitly, and a method
    is a function from the object to an outcome (a value or a raised
    exception) paired with the mutated object, so that what a method changed
    before it raised stays visible.  TensorFlow, Keras, NumPy, SciPy and the
    injected strategies (compressor, privacy hooks, networks) are not part of
    the file; they enter through the classes [TensorLib] and [Framework],
    torch through [TorchLib] and [TorchTensors]. *)

From Stdlib Require Import ZArith List Bool Lia.
From stdpp Require Import gmap strings list fin_maps.
Import ListNotations.

Local Open Scope Z_scope.

(** ** Exceptions and outcomes *)

Inductive PyError : Type :=
  | StopIteration
  | TypeError
  | KeyError
  | IndexError
  | AttributeError
  | ValueError
  | RuntimeError
  | UnboundLocalError (name : string)
  | NotImplementedError
  | AssertionError (msg : string)
  | Exception (msg : string).

Inductive result (A : Type) : Type :=
  | Ok (a : A)
  | Raise (e : PyError).

Arguments Ok {A} a.
Arguments Raise {A} e.

Definition is_ok {A} (r : result A) : bool :=
  match r with Ok _ => true | Raise _ => false end.

Definition rbind {A B} (r : result A) (k : A -> result B) : result B :=
  match r with
  | Ok a => k a
  | Raise e => Raise e
  end.

Fixpoint rmap_list {A B} (f : A -> result B) (l : list A) : result (list B) :=
  match l with
  | [] => Ok []
  | a :: l' =>
      rbind (f a) (fun b => rbind (rmap_list f l') (fun bs => Ok (b :: bs)))
  end.

(** A method of an object of type [S]: the outcome and the object after the
    call.  An exception keeps the mutations made before it was raised. *)
Definition Py (S A : Type) : Type := S -> result A * S.

Definition ret {S A} (a : A) : Py S A := fun s => (Ok a, s).
Definition raise {S A} (e : PyError) : Py S A := fun s => (Raise e, s).
Definition bind {S A B} (c : Py S A) (k : A -> Py S B) : Py S B :=
  fun s =>
    match c s with
    | (Ok a, s') => k a s'
    | (Raise e, s') => (Raise e, s')
    end.
Definition get {S} : Py S S := fun s => (Ok s, s).
Definition gets {S A} (f : S -> A) : Py S A := fun s => (Ok (f s), s).
Definition put {S} (s' : S) : Py S unit := fun _ => (Ok tt, s').
Definition modify {S} (f : S -> S) : Py S unit := fun s => (Ok tt, f s).
Definition lift {S A} (r : result A) : Py S A := fun s => (r, s).
Definition py_assert {S} (b : bool) (msg : string) : Py S unit :=
  if b then ret tt else raise (AssertionError msg).

Notation "'let*' x := c 'in' k" := (bind c (fun x => k))
  (at level 10, x pattern, c at level 100, k at level 200, only parsing).
Notation "'do*' c 'in' k" := (bind c (fun _ => k))
  (at level 10, c at level 100, k at level 200, only parsing).

(** ** Tensors and run-time values *)

(** What the file needs from [tf.Tensor] / [np.ndarray] and from the opaque
    output of a compressor (for [SparseCompressor], a SciPy sparse matrix). *)
Class TensorLib : Type := {
  Tensor : Type;
  Encoded : Type;
  (** [len(t.shape)] *)
  ndim : Tensor -> nat;
  (** [len(t)]; a [TypeError] on a tensor of rank 0 *)
  tensor_len : Tensor -> result nat;
  (** [t[i]] *)
  tensor_getitem : Tensor -> Z -> result Tensor;
  (** [t[:stop]] *)
  tensor_slice_to : Tensor -> Z -> Tensor;
}.

Section Values.
Context `{TL : TensorLib}.

(** The Python values that flow through the partition. *)
#[warnings="-register-all"]
Inductive PyVal : Type :=
  | VNone
  | VBool (b : bool)
  | VInt (z : Z)
  | VTensor (t : Tensor)
  | VDataFrame (values : Tensor)
  | VEncoded (c : Encoded)
  | VList (items : list PyVal)
  | VTuple (items : list PyVal).

Definition is_none (v : PyVal) : bool :=
  match v with VNone => true | _ => false end.

(** [isinstance(v, List)] *)
Definition is_list (v : PyVal) : bool :=
  match v with VList _ => true | _ => false end.

(** [isinstance(v, Tuple)] *)
Definition is_tuple (v : PyVal) : bool :=
  match v with VTuple _ => true | _ => false end.

(** [len(v)] *)
Definition py_len (v : PyVal) : result nat :=
  match v with
  | VList l | VTuple l => Ok (length l)
  | VTensor t => tensor_len t
  | _ => Raise TypeError
  end.

(** [l[i]] on a sequence, with Python's negative indices. *)
Definition seq_index {A} (l : list A) (i : Z) : result A :=
  let n := Z.of_nat (length l) in
  let j := if i <? 0 then i + n else i in
  if (0 <=? j) && (j <? n) then
    match l !! Z.to_nat j with
    | Some a => Ok a
    | None => Raise IndexError
    end
  else Raise IndexError.

(** [l[:stop]] on a sequence; slices clamp and never raise. *)
Definition seq_slice_to {A} (l : list A) (stop : Z) : list A :=
  let n := Z.of_nat (length l) in
  let j := if stop <? 0 then Z.max (stop + n) 0 else Z.min stop n in
  take (Z.to_nat j) l.

(** [v[i]] *)
Definition py_getitem (v : PyVal) (i : Z) : result PyVal :=
  match v with
  | VList l | VTuple l => seq_index l i
  | VTensor t => rbind (tensor_getitem t i) (fun r => Ok (VTensor r))
  | _ => Raise TypeError
  end.

(** [v[:stop]] *)
Definition py_slice_to (v : PyVal) (stop : Z) : result PyVal :=
  match v with
  | VList l => Ok (VList (seq_slice_to l stop))
  | VTuple l => Ok (VTuple (seq_slice_to l stop))
  | VTensor t => Ok (VTensor (tensor_slice_to t stop))
  | _ => Raise TypeError
  end.

(** [v.numpy()]: eager tensors have it, other values do not. *)
Definition py_numpy (v : PyVal) : result PyVal :=
  match v with
  | VTensor t => Ok (VTensor t)
  | _ => Raise AttributeError
  end.

(** [v.shape], as the rank [len(v.shape)]; arrays and data frames have a
    shape. *)
Definition shape_rank (v : PyVal) : result nat :=
  match v with
  | VTensor t | VDataFrame t => Ok (ndim t)
  | _ => Raise AttributeError
  end.

(** Truth value of a list or tuple in an [if]. *)
Definition seq_truthy {A} (l : list A) : bool :=
  match l with [] => false | _ => true end.

End Values.

(** ** What the file takes from TensorFlow and Keras *)

Section Framework.
Context `{TL : TensorLib}.

(** A [tf.GradientTape]: the operations recorded while it was the active
    context.  [TapeCall] is a run of the base network, [TapeFuseOp] an
    application of [fuse_op] to an embedding and an external gradient. *)
Inductive TapeEntry : Type :=
  | TapeCall (inputs outputs : PyVal)
  | TapeFuseOp (x y : PyVal).

Record GradientTape : Type := {
  persistent : bool;
  recorded : list TapeEntry;
}.

Definition tape_record (e : TapeEntry) (t : GradientTape) : GradientTape :=
  {| persistent := persistent t; recorded := recorded t ++ [e] |}.

(** The injected compression strategy; [sparse] is
    [isinstance(compressor, SparseCompressor)]. *)
Record Compressor : Type := {
  sparse : bool;
  compress : PyVal -> result PyVal;
  decompress : PyVal -> result PyVal;
}.

(** The calls a [CallbackList] has received, oldest first.  Callbacks are
    observers here: they see the logs they are passed and leave them as
    they are. *)
Inductive CallbackEvent : Type :=
  | TrainBatchEnd (step : PyVal) (batch_logs : option (gmap string PyVal))
  | EpochEnd (epoch : PyVal) (final_logs : option (gmap string PyVal)).

Definition CallbackList : Type := list CallbackEvent.

Class Framework : Type := {
  (** [a * b], [a != b] and [d.multiply(m)]: on tensors and sparse matrices
      these are the element-wise operations of the libraries. *)
  py_mul : PyVal -> PyVal -> result PyVal;
  py_ne : PyVal -> PyVal -> result PyVal;
  py_multiply : PyVal -> PyVal -> result PyVal;
  (** [tf.convert_to_tensor(v)] *)
  convert_to_tensor : PyVal -> result PyVal;
  (** A compiled Keras model with its optimizer and metric state. *)
  KerasModel : Type;
  (** [model(data_x)] *)
  model_call : KerasModel -> PyVal -> result PyVal;
  (** The body of [_fuse_net_internal]: forward pass of the fuse network,
      loss, optimizer step and metric update; the gradients of the loss with
      respect to the hiddens, and the fuse network afterwards. *)
  fuse_train_step :
    KerasModel -> list PyVal -> PyVal -> PyVal ->
    result (list PyVal) * KerasModel;
  (** [(m.name, m.result().numpy())] for [m] in [model.metrics] *)
  model_metrics : KerasModel -> list (string * PyVal);
  (** [tape.gradient(targets, model.trainable_variables)] *)
  tape_gradient : GradientTape -> list PyVal -> KerasModel -> result (list PyVal);
  (** [model.optimizer.apply_gradients(zip(gradients, trainable_vars))] *)
  apply_gradients : KerasModel -> list PyVal -> result KerasModel;
  (** [tf.data.Dataset] and the iterator [iter(data_set)] gives. *)
  Dataset : Type;
  DataIter : Type;
  from_tensor_slices : PyVal -> result Dataset;
  ds_batch : Dataset -> Z -> result Dataset;
  ds_repeat : Dataset -> Z -> result Dataset;
  ds_shuffle : Dataset -> Z -> Z -> result Dataset;
  ds_steps_per_epoch : Dataset -> result PyVal;
  ds_iter : Dataset -> result DataIter;
  (** [next(it)]: a batch, or [StopIteration], and the advanced iterator. *)
  iter_next : DataIter -> result PyVal * DataIter;
}.

Context `{FW : Framework}.

(** ** The state of an [SLBaseTFModel]

    The fields of [__init__].  [dp_strategy] is kept as its two hooks;
    [valid_set] and [kwargs] are never read with a value other than the one
    [__init__] gives them and are left out.  The three logs are dicts;
    [logs_shared] is [self.training_logs is self.epoch_logs], whether the
    two attributes hold one and the same dict, so that a change of that dict
    in place shows under both names. *)
Record SLBaseTFModel : Type := {
  model_base : option KerasModel;
  model_fuse : option KerasModel;
  embedding_dp : option (PyVal -> result PyVal);
  label_dp : option (PyVal -> result PyVal);
  compressor : option Compressor;
  train_set : option DataIter;
  eval_set : option DataIter;
  tape : option GradientTape;
  h : PyVal;
  train_x : PyVal;
  train_y : PyVal;
  eval_x : PyVal;
  eval_y : PyVal;
  has_y : bool;
  has_s_w : bool;
  train_sample_weight : PyVal;
  eval_sample_weight : PyVal;
  fuse_callbacks : option CallbackList;
  logs : option (gmap string PyVal);
  epoch_logs : option (gmap string PyVal);
  training_logs : option (gmap string PyVal);
  steps_per_epoch : PyVal;
  logs_shared : bool;
}.

Definition set_model_base (v : option KerasModel) (self : SLBaseTFModel)
    : SLBaseTFModel :=
  {| model_base := v; model_fuse := model_fuse self;
     embedding_dp := embedding_dp self; label_dp := label_dp self;
     compressor := compressor self; train_set := train_set self;
     eval_set := eval_set self; tape := tape self; h := h self;
     train_x := train_x self; train_y := train_y self;
     eval_x := eval_x self; eval_y := eval_y self; has_y := has_y self;
     has_s_w := has_s_w self;
     train_sample_weight := train_sample_weight self;
     eval_sample_weight := eval_sample_weight self;
     fuse_callbacks := fuse_callbacks self; logs := logs self;
     epoch_logs := epoch_logs self; training_logs := training_logs self;
     steps_per_epoch := steps_per_epoch self;
     logs_shared := logs_shared self |}.

Definition set_model_fuse (v : option KerasModel) (self : SLBaseTFModel)
    : SLBaseTFModel :=
  {| model_base := model_base self; model_fuse := v;
     embedding_dp := embedding_dp self; label_dp := label_dp self;
     compressor := compressor self; train_set := train_set self;
     eval_set := eval_set self; tape := tape self; h := h self;
     train_x := train_x self; train_y := train_y self;
     eval_x := eval_x self; eval_y := eval_y self; has_y := has_y self;
     has_s_w := has_s_w self;
     train_sample_weight := train_sample_weight self;
     eval_sample_weight := eval_sample_weight self;
     fuse_callbacks := fuse_callbacks self; logs := logs self;
     epoch_logs := epoch_logs self; training_logs := training_logs self;
     steps_per_epoch := steps_per_epoch self;
     logs_shared := logs_shared self |}.

Definition set_train_set (v : option DataIter) (self : SLBaseTFModel)
    : SLBaseTFModel :=
  {| model_base := model_base self; model_fuse := model_fuse self;
     embedding_dp := embedding_dp self; label_dp := label_dp self;
     compressor := compressor self; train_set := v;
     eval_set := eval_set self; tape := tape self; h := h self;
     train_x := train_x self; train_y := train_y self;
     eval_x := eval_x self; eval_y := eval_y self; has_y := has_y self;
     has_s_w := has_s_w self;
     train_sample_weight := train_sample_weight self;
     eval_sample_weight := eval_sample_weight self;
     fuse_callbacks := fuse_callbacks self; logs := logs self;
     epoch_logs := epoch_logs self; training_logs := training_logs self;
     steps_per_epoch := steps_per_epoch self;
     logs_shared := logs_shared self |}.

Definition set_eval_set (v : option DataIter) (self : SLBaseTFModel)
    : SLBaseTFModel :=
  {| model_base := model_base self; model_fuse := model_fuse self;
     embedding_dp := embedding_dp self; label_dp := label_dp self;
     compressor := compressor self; train_set := train_set self;
     eval_set := v; tape := tape self; h := h self; train_x := train_x self;
     train_y := train_y self; eval_x := eval_x self; eval_y := eval_y self;
     has_y := has_y self; has_s_w := has_s_w self;
     train_sample_weight := train_sample_weight self;
     eval_sample_weight := eval_sample_weight self;
     fuse_callbacks := fuse_callbacks self; logs := logs self;
     epoch_logs := epoch_logs self; training_logs := training_logs self;
     steps_per_epoch := steps_per_epoch self;
     logs_shared := logs_shared self |}.

Definition set_tape (v : option GradientTape) (self : SLBaseTFModel)
    : SLBaseTFModel :=
  {| model_base := model_base self; model_fuse := model_fuse self;
     embedding_dp := embedding_dp self; label_dp := label_dp self;
     compressor := compressor self; train_set := train_set self;
     eval_set := eval_set self; tape := v; h := h self;
     train_x := train_x self; train_y := train_y self;
     eval_x := eval_x self; eval_y := eval_y self; has_y := has_y self;
     has_s_w := has_s_w self;
     train_sample_weight := train_sample_weight self;
     eval_sample_weight := eval_sample_weight self;
     fuse_callbacks := fuse_callbacks self; logs := logs self;
     epoch_logs := epoch_logs self; training_logs := training_logs self;
     steps_per_epoch := steps_per_epoch self;
     logs_shared := logs_shared self |}.

Definition set_h (v : PyVal) (self : SLBaseTFModel)
    : SLBaseTFModel :=
  {| model_base := model_base self; model_fuse := model_fuse self;
     embedding_dp := embedding_dp self; label_dp := label_dp self;
     compressor := compressor self; train_set := train_set self;
     eval_set := eval_set self; tape := tape self; h := v;
     train_x := train_x self; train_y := train_y self;
     eval_x := eval_x self; eval_y := eval_y self; has_y := has_y self;
     has_s_w := has_s_w self;
     train_sample_weight := train_sample_weight self;
     eval_sample_weight := eval_sample_weight self;
     fuse_callbacks := fuse_callbacks self; logs := logs self;
     epoch_logs := epoch_logs self; training_logs := training_logs self;
     steps_per_epoch := steps_per_epoch self;
     logs_shared := logs_shared self |}.

Definition set_train_x (v : PyVal) (self : SLBaseTFModel)
    : SLBaseTFModel :=
  {| model_base := model_base self; model_fuse := model_fuse self;
     embedding_dp := embedding_dp self; label_dp := label_dp self;
     compressor := compressor self; train_set := train_set self;
     eval_set := eval_set self; tape := tape self; h := h self;
     train_x := v; train_y := train_y self; eval_x := eval_x self;
     eval_y := eval_y self; has_y := has_y self; has_s_w := has_s_w self;
     train_sample_weight := train_sample_weight self;
     eval_sample_weight := eval_sample_weight self;
     fuse_callbacks := fuse_callbacks self; logs := logs self;
     epoch_logs := epoch_logs self; training_logs := training_logs self;
     steps_per_epoch := steps_per_epoch self;
     logs_shared := logs_shared self |}.

Definition set_train_y (v : PyVal) (self : SLBaseTFModel)
    : SLBaseTFModel :=
  {| model_base := model_base self; model_fuse := model_fuse self;
     embedding_dp := embedding_dp self; label_dp := label_dp self;
     compressor := compressor self; train_set := train_set self;
     eval_set := eval_set self; tape := tape self; h := h self;
     train_x := train_x self; train_y := v; eval_x := eval_x self;
     eval_y := eval_y self; has_y := has_y self; has_s_w := has_s_w self;
     train_sample_weight := train_sample_weight self;
     eval_sample_weight := eval_sample_weight self;
     fuse_callbacks := fuse_callbacks self; logs := logs self;
     epoch_logs := epoch_logs self; training_logs := training_logs self;
     steps_per_epoch := steps_per_epoch self;
     logs_shared := logs_shared self |}.

Definition set_eval_x (v : PyVal) (self : SLBaseTFModel)
    : SLBaseTFModel :=
  {| model_base := model_base self; model_fuse := model_fuse self;
     embedding_dp := embedding_dp self; label_dp := label_dp self;
     compressor := compressor self; train_set := train_set self;
     eval_set := eval_set self; tape := tape self; h := h self;
     train_x := train_x self; train_y := train_y self; eval_x := v;
     eval_y := eval_y self; has_y := has_y self; has_s_w := has_s_w self;
     train_sample_weight := train_sample_weight self;
     eval_sample_weight := eval_sample_weight self;
     fuse_callbacks := fuse_callbacks self; logs := logs self;
     epoch_logs := epoch_logs self; training_logs := training_logs self;
     steps_per_epoch := steps_per_epoch self;
     logs_shared := logs_shared self |}.

Definition set_eval_y (v : PyVal) (self : SLBaseTFModel)
    : SLBaseTFModel :=
  {| model_base := model_base self; model_fuse := model_fuse self;
     embedding_dp := embedding_dp self; label_dp := label_dp self;
     compressor := compressor self; train_set := train_set self;
     eval_set := eval_set self; tape := tape self; h := h self;
     train_x := train_x self; train_y := train_y self;
     eval_x := eval_x self; eval_y := v; has_y := has_y self;
     has_s_w := has_s_w self;
     train_sample_weight := train_sample_weight self;
     eval_sample_weight := eval_sample_weight self;
     fuse_callbacks := fuse_callbacks self; logs := logs self;
     epoch_logs := epoch_logs self; training_logs := training_logs self;
     steps_per_epoch := steps_per_epoch self;
     logs_shared := logs_shared self |}.

Definition set_has_y (v : bool) (self : SLBaseTFModel)
    : SLBaseTFModel :=
  {| model_base := model_base self; model_fuse := model_fuse self;
     embedding_dp := embedding_dp self; label_dp := label_dp self;
     compressor := compressor self; train_set := train_set self;
     eval_set := eval_set self; tape := tape self; h := h self;
     train_x := train_x self; train_y := train_y self;
     eval_x := eval_x self; eval_y := eval_y self; has_y := v;
     has_s_w := has_s_w self;
     train_sample_weight := train_sample_weight self;
     eval_sample_weight := eval_sample_weight self;
     fuse_callbacks := fuse_callbacks self; logs := logs self;
     epoch_logs := epoch_logs self; training_logs := training_logs self;
     steps_per_epoch := steps_per_epoch self;
     logs_shared := logs_shared self |}.

Definition set_has_s_w (v : bool) (self : SLBaseTFModel)
    : SLBaseTFModel :=
  {| model_base := model_base self; model_fuse := model_fuse self;
     embedding_dp := embedding_dp self; label_dp := label_dp self;
     compressor := compressor self; train_set := train_set self;
     eval_set := eval_set self; tape := tape self; h := h self;
     train_x := train_x self; train_y := train_y self;
     eval_x := eval_x self; eval_y := eval_y self; has_y := has_y self;
     has_s_w := v; train_sample_weight := train_sample_weight self;
     eval_sample_weight := eval_sample_weight self;
     fuse_callbacks := fuse_callbacks self; logs := logs self;
     epoch_logs := epoch_logs self; training_logs := training_logs self;
     steps_per_epoch := steps_per_epoch self;
     logs_shared := logs_shared self |}.

Definition set_train_sample_weight (v : PyVal) (self : SLBaseTFModel)
    : SLBaseTFModel :=
  {| model_base := model_base self; model_fuse := model_fuse self;
     embedding_dp := embedding_dp self; label_dp := label_dp self;
     compressor := compressor self; train_set := train_set self;
     eval_set := eval_set self; tape := tape self; h := h self;
     train_x := train_x self; train_y := train_y self;
     eval_x := eval_x self; eval_y := eval_y self; has_y := has_y self;
     has_s_w := has_s_w self; train_sample_weight := v;
     eval_sample_weight := eval_sample_weight self;
     fuse_callbacks := fuse_callbacks self; logs := logs self;
     epoch_logs := epoch_logs self; training_logs := training_logs self;
     steps_per_epoch := steps_per_epoch self;
     logs_shared := logs_shared self |}.

Definition set_eval_sample_weight (v : PyVal) (self : SLBaseTFModel)
    : SLBaseTFModel :=
  {| model_base := model_base self; model_fuse := model_fuse self;
     embedding_dp := embedding_dp self; label_dp := label_dp self;
     compressor := compressor self; train_set := train_set self;
     eval_set := eval_set self; tape := tape self; h := h self;
     train_x := train_x self; train_y := train_y self;
     eval_x := eval_x self; eval_y := eval_y self; has_y := has_y self;
     has_s_w := has_s_w self;
     train_sample_weight := train_sample_weight self;
     eval_sample_weight := v; fuse_callbacks := fuse_callbacks self;
     logs := logs self; epoch_logs := epoch_logs self;
     training_logs := training_logs self;
     steps_per_epoch := steps_per_epoch self;
     logs_shared := logs_shared self |}.

Definition set_fuse_callbacks (v : option CallbackList) (self : SLBaseTFModel)
    : SLBaseTFModel :=
  {| model_base := model_base self; model_fuse := model_fuse self;
     embedding_dp := embedding_dp self; label_dp := label_dp self;
     compressor := compressor self; train_set := train_set self;
     eval_set := eval_set self; tape := tape self; h := h self;
     train_x := train_x self; train_y := train_y self;
     eval_x := eval_x self; eval_y := eval_y self; has_y := has_y self;
     has_s_w := has_s_w self;
     train_sample_weight := train_sample_weight self;
     eval_sample_weight := eval_sample_weight self; fuse_callbacks := v;
     logs := logs self; epoch_logs := epoch_logs self;
     training_logs := training_logs self;
     steps_per_epoch := steps_per_epoch self;
     logs_shared := logs_shared self |}.

Definition set_logs (v : option (gmap string PyVal)) (self : SLBaseTFModel)
    : SLBaseTFModel :=
  {| model_base := model_base self; model_fuse := model_fuse self;
     embedding_dp := embedding_dp self; label_dp := label_dp self;
     compressor := compressor self; train_set := train_set self;
     eval_set := eval_set self; tape := tape self; h := h self;
     train_x := train_x self; train_y := train_y self;
     eval_x := eval_x self; eval_y := eval_y self; has_y := has_y self;
     has_s_w := has_s_w self;
     train_sample_weight := train_sample_weight self;
     eval_sample_weight := eval_sample_weight self;
     fuse_callbacks := fuse_callbacks self; logs := v;
     epoch_logs := epoch_logs self; training_logs := training_logs self;
     steps_per_epoch := steps_per_epoch self;
     logs_shared := logs_shared self |}.

Definition set_epoch_logs (v : option (gmap string PyVal)) (self : SLBaseTFModel)
    : SLBaseTFModel :=
  {| model_base := model_base self; model_fuse := model_fuse self;
     embedding_dp := embedding_dp self; label_dp := label_dp self;
     compressor := compressor self; train_set := train_set self;
     eval_set := eval_set self; tape := tape self; h := h self;
     train_x := train_x self; train_y := train_y self;
     eval_x := eval_x self; eval_y := eval_y self; has_y := has_y self;
     has_s_w := has_s_w self;
     train_sample_weight := train_sample_weight self;
     eval_sample_weight := eval_sample_weight self;
     fuse_callbacks := fuse_callbacks self; logs := logs self;
     epoch_logs := v; training_logs := training_logs self;
     steps_per_epoch := steps_per_epoch self;
     logs_shared := logs_shared self |}.

Definition set_training_logs (v : option (gmap string PyVal)) (self : SLBaseTFModel)
    : SLBaseTFModel :=
  {| model_base := model_base self; model_fuse := model_fuse self;
     embedding_dp := embedding_dp self; label_dp := label_dp self;
     compressor := compressor self; train_set := train_set self;
     eval_set := eval_set self; tape := tape self; h := h self;
     train_x := train_x self; train_y := train_y self;
     eval_x := eval_x self; eval_y := eval_y self; has_y := has_y self;
     has_s_w := has_s_w self;
     train_sample_weight := train_sample_weight self;
     eval_sample_weight := eval_sample_weight self;
     fuse_callbacks := fuse_callbacks self; logs := logs self;
     epoch_logs := epoch_logs self; training_logs := v;
     steps_per_epoch := steps_per_epoch self;
     logs_shared := logs_shared self |}.

Definition set_steps_per_epoch (v : PyVal) (self : SLBaseTFModel)
    : SLBaseTFModel :=
  {| model_base := model_base self; model_fuse := model_fuse self;
     embedding_dp := embedding_dp self; label_dp := label_dp self;
     compressor := compressor self; train_set := train_set self;
     eval_set := eval_set self; tape := tape self; h := h self;
     train_x := train_x self; train_y := train_y self;
     eval_x := eval_x self; eval_y := eval_y self; has_y := has_y self;
     has_s_w := has_s_w self;
     train_sample_weight := train_sample_weight self;
     eval_sample_weight := eval_sample_weight self;
     fuse_callbacks := fuse_callbacks self; logs := logs self;
     epoch_logs := epoch_logs self; training_logs := training_logs self;
     steps_per_epoch := v;
     logs_shared := logs_shared self |}.

Definition set_logs_shared (v : bool) (self : SLBaseTFModel)
    : SLBaseTFModel :=
  {| model_base := model_base self; model_fuse := model_fuse self;
     embedding_dp := embedding_dp self; label_dp := label_dp self;
     compressor := compressor self; train_set := train_set self;
     eval_set := eval_set self; tape := tape self; h := h self;
     train_x := train_x self; train_y := train_y self;
     eval_x := eval_x self; eval_y := eval_y self; has_y := has_y self;
     has_s_w := has_s_w self;
     train_sample_weight := train_sample_weight self;
     eval_sample_weight := eval_sample_weight self;
     fuse_callbacks := fuse_callbacks self; logs := logs self;
     epoch_logs := epoch_logs self; training_logs := training_logs self;
     steps_per_epoch := steps_per_epoch self; logs_shared := v |}.

(** [SLBaseTFModel.__init__]: the networks are built by the caller's
    factories, everything else starts empty. *)
Definition init (base fuse : option KerasModel)
    (emb_dp lab_dp : option (PyVal -> result PyVal))
    (c : option Compressor) : SLBaseTFModel :=
  {| model_base := base; model_fuse := fuse;
     embedding_dp := emb_dp; label_dp := lab_dp; compressor := c;
     train_set := None; eval_set := None; tape := None; h := VNone;
     train_x := VNone; train_y := VNone; eval_x := VNone; eval_y := VNone;
     has_y := false; has_s_w := false;
     train_sample_weight := VNone; eval_sample_weight := VNone;
     fuse_callbacks := None; logs := None; epoch_logs := None;
     training_logs := None; steps_per_epoch := VNone;
     logs_shared := false |}.

(** ** [fuse_op], [init_data] *)

(** What a function decorated with [tf.custom_gradient] returns: the forward
    value and the function that maps the upstream gradient to the gradients
    with respect to the operands, here the two operands [x] and [y]. *)
Record CustomGradient : Type := {
  value : PyVal;
  grad : PyVal -> result (PyVal * PyVal);
}.

Definition fuse_op (x y : PyVal) : CustomGradient :=
  {| value := x;
     grad := fun upstream =>
       rbind (py_mul upstream y) (fun gx =>
       rbind (py_mul upstream y) (fun gy => Ok (gx, gy))) |}.

Definition init_data : Py SLBaseTFModel unit :=
  do* modify (set_train_x VNone) in
  do* modify (set_train_y VNone) in
  do* modify (set_eval_x VNone) in
  do* modify (set_eval_y VNone) in
  do* modify (set_train_sample_weight VNone) in
  modify (set_eval_sample_weight VNone).

(** ** [build_dataset] *)

(** The keyword arguments of [build_dataset]. *)
Record BuildArgs : Type := {
  arg_y : PyVal;
  arg_s_w : PyVal;
  batch_size : Z;
  buffer_size : Z;
  shuffle : bool;
  repeat_count : Z;
  stage : string;
  random_seed : Z;
  dataset_builder : option (list PyVal -> result Dataset);
}.

Definition default_args : BuildArgs :=
  {| arg_y := VNone; arg_s_w := VNone; batch_size := 32; buffer_size := 128;
     shuffle := false; repeat_count := 1; stage := "train";
     random_seed := 1234; dataset_builder := None |}.

(** [v is not None and len(v.shape) > 0] *)
Definition present (v : PyVal) : result bool :=
  if is_none v then Ok false
  else rbind (shape_rank v) (fun r => Ok (0 <? r)%nat).

(** [t.values if isinstance(t, pd.DataFrame) else t] *)
Definition frame_values (t : PyVal) : PyVal :=
  match t with
  | VDataFrame a => VTensor a
  | _ => t
  end.

Definition build_dataset (x : list PyVal) (a : BuildArgs)
    : Py SLBaseTFModel PyVal :=
  (* assert len(x) > 0 or x[0] is not None *)
  let* cond :=
    if (0 <? length x)%nat then ret true
    else let* x0 := lift (seq_index x 0) in ret (negb (is_none x0)) in
  do* py_assert cond "X can not be None, please check" in
  do* modify (set_has_y false) in
  do* modify (set_has_s_w false) in
  let* with_y := lift (present (arg_y a)) in
  let* x :=
    if with_y then
      do* modify (set_has_y true) in
      let x := x ++ [arg_y a] in
      let* with_w := lift (present (arg_s_w a)) in
      if with_w then
        do* modify (set_has_s_w true) in
        ret (x ++ [arg_s_w a])
      else ret x
    else ret x in
  let* built :=
    match dataset_builder a with
    | None =>
        let x := map frame_values x in
        let x := match x with [x0] => x0 | _ => VTuple x end in
        let* d := lift (from_tensor_slices x) in
        let* d := lift (ds_batch d (batch_size a)) in
        let* d := lift (ds_repeat d (repeat_count a)) in
        let* d :=
          if shuffle a then lift (ds_shuffle d (buffer_size a) (random_seed a))
          else ret d in
        ret (d, VNone)
    | Some builder =>
        let* d := lift (builder x) in
        let* n := lift (ds_steps_per_epoch d) in
        do* modify (set_steps_per_epoch n) in
        ret (d, n)
    end in
  let '(data_set, steps) := built in
  let* it := lift (ds_iter data_set) in
  if String.eqb (stage a) "train" then
    do* modify (set_train_set (Some it)) in ret steps
  else if String.eqb (stage a) "eval" then
    do* modify (set_eval_set (Some it)) in ret steps
  else raise (Exception (String.append "Illegal argument stage=" (stage a))).

(** ** [base_forward] *)

Definition _base_forward_internal (self : SLBaseTFModel) (data_x : PyVal)
    : result PyVal :=
  match model_base self with
  | None => Raise TypeError
  | Some m =>
      rbind (model_call m data_x) (fun hid =>
      match embedding_dp self with
      | Some dp =>
          match hid with
          | VList his => rbind (rmap_list dp his) (fun r => Ok (VList r))
          | _ => dp hid
          end
      | None => Ok hid
      end)
  end.

(** [next(self.train_set)] and [next(self.eval_set)]; the iterator object is
    advanced in place. *)
Definition next_train : Py SLBaseTFModel PyVal := fun self =>
  match train_set self with
  | None => (Raise TypeError, self)
  | Some it =>
      let '(r, it') := iter_next it in (r, set_train_set (Some it') self)
  end.

Definition next_eval : Py SLBaseTFModel PyVal := fun self =>
  match eval_set self with
  | None => (Raise TypeError, self)
  | Some it =>
      let '(r, it') := iter_next it in (r, set_eval_set (Some it') self)
  end.

(** The label as it is stored: perturbed when a label hook is configured. *)
Definition stored_label (dp : option (PyVal -> result PyVal)) (y : PyVal)
    : result PyVal :=
  match dp with
  | Some dp =>
      rbind (py_numpy y) (fun a =>
      rbind (dp a) (fun dp_y => convert_to_tensor dp_y))
  | None => Ok y
  end.

(** [data_x[0] if isinstance(data_x, Tuple) and len(data_x) == 1 else data_x] *)
Definition strip_singleton (data_x : PyVal) : PyVal :=
  match data_x with
  | VTuple [x0] => x0
  | _ => data_x
  end.

Definition new_tape : GradientTape :=
  {| persistent := true; recorded := [] |}.

(** The statement [if stage == "train": ... elif stage == "eval": ... else:
    raise] of [base_forward]: the next batch of the stage is taken, its label
    and sample weight are stored, and its features are [data_x]. *)
Definition next_batch (stage : string) : Py SLBaseTFModel PyVal :=
  if String.eqb stage "train" then
    let* train_data := next_train in
    let* with_y := gets has_y in
    if with_y then
      let* with_w := gets has_s_w in
      let* parts :=
        if with_w then
          let* data_x := lift (py_slice_to train_data (-2)) in
          let* train_y := lift (py_getitem train_data (-2)) in
          let* w := lift (py_getitem train_data (-1)) in
          do* modify (set_train_sample_weight w) in
          ret (data_x, train_y)
        else
          let* data_x := lift (py_slice_to train_data (-1)) in
          let* train_y := lift (py_getitem train_data (-1)) in
          ret (data_x, train_y) in
      (* Label differential privacy *)
      let* dp := gets label_dp in
      let* y := lift (stored_label dp parts.2) in
      do* modify (set_train_y y) in
      ret parts.1
    else ret train_data
  else if String.eqb stage "eval" then
    let* eval_data := next_eval in
    let* with_y := gets has_y in
    if with_y then
      let* with_w := gets has_s_w in
      let* parts :=
        if with_w then
          let* data_x := lift (py_slice_to eval_data (-2)) in
          let* eval_y := lift (py_getitem eval_data (-2)) in
          let* w := lift (py_getitem eval_data (-1)) in
          do* modify (set_eval_sample_weight w) in
          ret (data_x, eval_y)
        else
          let* data_x := lift (py_slice_to eval_data (-1)) in
          let* eval_y := lift (py_getitem eval_data (-1)) in
          ret (data_x, eval_y) in
      (* Label differential privacy *)
      let* dp := gets label_dp in
      let* y := lift (stored_label dp parts.2) in
      do* modify (set_eval_y y) in
      ret parts.1
    else ret eval_data
  else raise (Exception "invalid stage").

(** The rest of [base_forward]: a new tape is opened over whatever
    [self.tape] held, the base network runs under it, and the embedding is
    stored and returned. *)
Definition embed_batch (data_x : PyVal) (compress_out : bool)
    : Py SLBaseTFModel PyVal :=
  (* self.tape = tf.GradientTape(persistent=True) *)
  do* modify (set_tape (Some new_tape)) in
  let* self := get in
  let* hid := lift (_base_forward_internal self data_x) in
  do* modify (set_tape (Some (tape_record (TapeCall data_x hid) new_tape))) in
  do* modify (set_h hid) in
  if compress_out then
    match compressor self with
    | Some c => let* a := lift (py_numpy hid) in lift (compress c a)
    | None =>
        raise (Exception
          "can not find compressor when compress data in base_forward")
    end
  else ret hid.

Definition base_forward (stage : string) (compress_out : bool)
    : Py SLBaseTFModel PyVal :=
  let* base := gets model_base in
  do* py_assert (bool_decide (is_Some base))
    "Base model cannot be none, please give model define or load a trained model" in
  do* init_data in
  let* data_x := next_batch stage in
  (* Strip tuple of length one, e.g: (x,) -> x *)
  embed_batch (strip_singleton data_x) compress_out.

(** ** [base_backward] *)

(** [self.fuse_op(x, y)] under [with self.tape]: the application is recorded
    on the open tape. *)
Definition apply_fuse_op (x y : PyVal) : Py SLBaseTFModel CustomGradient :=
  fun self =>
    (Ok (fuse_op x y),
     set_tape (tape_record (TapeFuseOp x y) <$> tape self) self).

(** [for i in range(len(gradient)):
       return_hiddens.append(self.fuse_op(self.h[i], gradient[i]))],
    over the indices [idx]. *)
Fixpoint pair_positionally (gradient : PyVal) (idx : list nat)
    : Py SLBaseTFModel (list CustomGradient) :=
  match idx with
  | [] => ret []
  | i :: idx' =>
      let* self := get in
      let* x := lift (py_getitem (h self) (Z.of_nat i)) in
      let* y := lift (py_getitem gradient (Z.of_nat i)) in
      let* r := apply_fuse_op x y in
      let* rest := pair_positionally gradient idx' in
      ret (r :: rest)
  end.

(** The body of [with self.tape:] in [base_backward]: the [fuse_op]
    applications appended to [return_hiddens]. *)
Definition reattach (gradient : PyVal)
    : Py SLBaseTFModel (list CustomGradient) :=
  let* self := get in
  let* n_g := lift (py_len gradient) in
  let* n_h := lift (py_len (h self)) in
  if (n_g =? n_h)%nat then
    pair_positionally gradient (seq 0 n_g)
  else
    let* g0 := lift (py_getitem gradient 0) in
    let* r := apply_fuse_op (h self) g0 in
    ret [r].

Definition base_backward (gradient : PyVal) (compressed : bool)
    : Py SLBaseTFModel unit :=
  let* self := get in
  let* gradient :=
    if compressed then
      match compressor self with
      | Some c => lift (decompress c gradient)
      | None =>
          raise (Exception
            "can not find compressor when decompress data in base_backward")
      end
    else ret gradient in
  (* with self.tape: *)
  do* (if bool_decide (is_Some (tape self)) then ret tt
       else raise AttributeError) in
  let* return_hiddens := reattach gradient in
  let* self := get in
  let* m := lift (match model_base self with
                  | Some m => Ok m
                  | None => Raise AttributeError
                  end) in
  let* t := lift (match tape self with
                  | Some t => Ok t
                  | None => Raise AttributeError
                  end) in
  let* gradients := lift (tape_gradient t (map value return_hiddens) m) in
  let* m' := lift (apply_gradients m gradients) in
  do* modify (set_model_base (Some m')) in
  (* clear intermediate results *)
  do* modify (set_tape None) in
  modify (set_h VNone).

(** ** The callback life cycle *)

Definition init_training (is_callback_list : bool)
    : Py SLBaseTFModel unit :=
  if is_callback_list then raise NotImplementedError
  else modify (set_fuse_callbacks (Some [])).

(** A call [self.fuse_callbacks.<hook>(...)]. *)
Definition notify (e : CallbackEvent) : Py SLBaseTFModel unit :=
  fun self =>
    match fuse_callbacks self with
    | Some cbs => (Ok tt, set_fuse_callbacks (Some (cbs ++ [e])) self)
    | None => (Raise AttributeError, self)
    end.

Definition on_train_batch_end (step : PyVal) : Py SLBaseTFModel unit :=
  do* py_assert (negb (is_none step)) "Step cannot be none" in
  (* self.epoch_logs = copy.deepcopy(self.logs): a dict of its own *)
  let* self := get in
  do* modify (set_epoch_logs (logs self)) in
  do* modify (set_logs_shared false) in
  notify (TrainBatchEnd step (logs self)).

(** [{'val_' + name: val for name, val in val_logs.items()}] *)
Definition val_prefixed (val_logs : gmap string PyVal) : gmap string PyVal :=
  kmap (String.append "val_") val_logs.

(** [self.epoch_logs.update(d)]: the dict is changed in place, the entries
    of [d] win; [training_logs] shows the change when it is that dict. *)
Definition update_epoch_logs (d : gmap string PyVal)
    : Py SLBaseTFModel unit :=
  let* self := get in
  match epoch_logs self with
  | Some e =>
      do* modify (set_epoch_logs (Some (d ∪ e))) in
      if logs_shared self then modify (set_training_logs (Some (d ∪ e)))
      else ret tt
  | None => raise AttributeError
  end.

Definition on_validation (val_logs : gmap string PyVal)
    : Py SLBaseTFModel unit :=
  let val_logs := val_prefixed val_logs in
  update_epoch_logs val_logs.

(** The log returned is the dict that both attributes hold from here on. *)
Definition on_epoch_end (epoch : PyVal)
    : Py SLBaseTFModel (option (gmap string PyVal)) :=
  let* self := get in
  do* notify (EpochEnd epoch (epoch_logs self)) in
  (* self.training_logs = self.epoch_logs: one dict under two names *)
  do* modify (set_training_logs (epoch_logs self)) in
  do* modify (set_logs_shared true) in
  ret (epoch_logs self).

(** ** [fuse_net] *)

(** [for v in ...]: the elements an iteration over [v] visits. *)
Definition py_iter (v : PyVal) : result (list PyVal) :=
  match v with
  | VList l | VTuple l => Ok l
  | VTensor t =>
      rbind (tensor_len t) (fun n =>
      rmap_list (fun i => py_getitem v (Z.of_nat i)) (seq 0 n))
  | _ => Raise TypeError
  end.

(** [(d != 0) * 1] *)
Definition nonzero_mask (d : PyVal) : result PyVal :=
  rbind (py_ne d (VInt 0)) (fun b => py_mul b (VInt 1)).

(** The loop that fills [hiddens]: a party whose embedding is a list
    contributes each element. *)
Fixpoint flatten_hiddens (hidden_features : list PyVal)
    : result (list PyVal) :=
  match hidden_features with
  | [] => Ok []
  | hf :: rest =>
      rbind (match hf with
             | VList his => rmap_list convert_to_tensor his
             | _ => rbind (convert_to_tensor hf) (fun t => Ok [t])
             end) (fun ts =>
      rbind (flatten_hiddens rest) (fun ts' => Ok (ts ++ ts')))
  end.

(** [logs['train_' + m.name] = m.result().numpy()] for each metric. *)
Definition train_logs (metrics : list (string * PyVal))
    : gmap string PyVal :=
  foldl (fun acc m => <[String.append "train_" m.1 := m.2]> acc) ∅ metrics.

(** [self._fuse_net_internal(hiddens, self.train_y, self.train_sample_weight)] *)
Definition _fuse_net_internal (hiddens : list PyVal)
    : Py SLBaseTFModel (list PyVal) := fun self =>
  match model_fuse self with
  | None => (Raise TypeError, self)
  | Some m =>
      let '(r, m') :=
        fuse_train_step m hiddens (train_y self) (train_sample_weight self) in
      (r, set_model_fuse (Some m') self)
  end.

(** The local [fuse_sparse_masks] is [None] here while the name is unbound. *)
Definition fuse_net (hidden_features : list PyVal) (compressed : bool)
    : Py SLBaseTFModel PyVal :=
  let* self := get in
  do* py_assert (bool_decide (is_Some (model_fuse self)))
    "Fuse model cannot be none, please give model define" in
  let* opened :=
    if compressed then
      match compressor self with
      | Some c =>
          (* save fuse_sparse_masks to apply on gradients *)
          let* fuse_sparse_masks :=
            if sparse c then
              let* ms := lift (rmap_list nonzero_mask hidden_features) in
              ret (Some ms)
            else ret None in
          let* d := lift (decompress c (VTuple hidden_features)) in
          ret (fuse_sparse_masks, d)
      | None =>
          raise (Exception
            "can not find compressor when decompress data in fuse_net")
      end
    else ret (None, VTuple hidden_features) in
  let '(fuse_sparse_masks, hidden_features) := opened in
  let* hidden_features := lift (py_iter hidden_features) in
  let* hiddens := lift (flatten_hiddens hidden_features) in
  let* gradient := _fuse_net_internal hiddens in
  let* self := get in
  let metrics :=
    match model_fuse self with Some m => model_metrics m | None => [] end in
  do* modify (set_logs (Some (train_logs metrics))) in
  if compressed then
    let* gradient := lift (rmap_list py_numpy gradient) in
    let* gradient :=
      lift (match compressor self with
            | Some c => compress c (VList gradient)
            | None => Raise AttributeError
            end) in
    (* apply fuse_sparse_masks on gradients *)
    match fuse_sparse_masks with
    | None => raise (UnboundLocalError "fuse_sparse_masks")
    | Some masks =>
        if seq_truthy masks then
          let* n := lift (py_len gradient) in
          do* py_assert (length masks =? n)%nat
            "length of fuse_sparse_masks and gradient mismatch" in
          let* ds := lift (py_iter gradient) in
          let* masked :=
            lift (rmap_list (fun dm => py_multiply dm.1 dm.2) (zip ds masks)) in
          ret (VList masked)
        else ret gradient
    end
  else ret (VList gradient).

End Framework.

(** ** The torch-style [ModelPartition] *)

Section Torch.
Context `{TL : TensorLib}.

(** A batch [(x, y)] of a [DataLoader]. *)
Definition Batch : Type := (PyVal * PyVal)%type.

(** A [DataLoader] is the sequence of batches an iteration over it yields;
    an iterator over it is the batches still to come. *)
Definition DataLoader : Type := list Batch.
Definition BatchIter : Type := list Batch.

(** The field [_dataiter]: [__init__] binds it to a dictionary of iterators,
    the handler of [get_one_batch] rebinds it to one iterator. *)
Inductive DataIterField : Type :=
  | IterDict (iters : gmap string BatchIter)
  | IterObject (it : BatchIter).

Class TorchLib : Type := {
  TorchModule : Type;
  (** [model(x, **external_input)] *)
  module_call : TorchModule -> PyVal -> gmap string PyVal -> result PyVal;
}.

Context `{TO : TorchLib}.

Record ModelPartition : Type := {
  model : TorchModule;
  _dataloader : gmap string DataLoader;
  _dataiter : DataIterField;
}.

Definition set__dataiter (v : DataIterField) (self : ModelPartition)
    : ModelPartition :=
  {| model := model self; _dataloader := _dataloader self; _dataiter := v |}.

(** [ModelPartition.__init__], from the loaders [dataloader_fn] builds. *)
Definition partition_init (m : TorchModule) (loaders : gmap string DataLoader)
    : ModelPartition :=
  {| model := m; _dataloader := loaders; _dataiter := IterDict loaders |}.

(** [next(self._dataiter[name])] *)
Definition next_named (name : string) : Py ModelPartition Batch := fun self =>
  match _dataiter self with
  | IterDict iters =>
      match iters !! name with
      | None => (Raise KeyError, self)
      | Some [] => (Raise StopIteration, self)
      | Some (b :: it) =>
          (Ok b, set__dataiter (IterDict (<[name := it]> iters)) self)
      end
  | IterObject _ => (Raise TypeError, self)
  end.

(** The [except StopIteration] handler:
    [self._dataiter = iter(self._dataloader[name]); next(self._dataiter)] *)
Definition restart (name : string) : Py ModelPartition Batch := fun self =>
  match _dataloader self !! name with
  | None => (Raise KeyError, self)
  | Some dl =>
      let self := set__dataiter (IterObject dl) self in
      match dl with
      | [] => (Raise StopIteration, self)
      | b :: it => (Ok b, set__dataiter (IterObject it) self)
      end
  end.

Definition get_one_batch (name : string) : Py ModelPartition Batch :=
  fun self =>
    match next_named name self with
    | (Raise StopIteration, self') => restart name self'
    | r => r
    end.

Definition forward (used_name : string)
    (external_input : option (gmap string PyVal))
    : Py ModelPartition (PyVal * PyVal) :=
  let external_input := default ∅ external_input in
  let* b := get_one_batch used_name in
  let* self := get in
  let* y_pred := lift (module_call (model self) b.1 external_input) in
  ret (y_pred, b.2).

(** A run of [get_one_batch] over a sequence of stage names: the outcomes,
    in order, and the partition afterwards. *)
Fixpoint get_batches (names : list string) (self : ModelPartition)
    : list (result Batch) * ModelPartition :=
  match names with
  | [] => ([], self)
  | n :: names' =>
      let '(r, self') := get_one_batch n self in
      let '(rs, self'') := get_batches names' self' in
      (r :: rs, self'')
  end.

End Torch.

(** ** The other methods of [SLBaseTFModel] *)

Section Evaluation.
Context `{FW : Framework}.

Definition set_sample_weight (sample_weight : PyVal) (stage : string)
    : Py SLBaseTFModel unit :=
  if String.eqb stage "train" then
    modify (set_train_sample_weight sample_weight)
  else if String.eqb stage "eval" then
    modify (set_eval_sample_weight sample_weight)
  else raise (Exception "Illegal Argument").

(** What [evaluate] and [predict] take from Keras. *)
Class Inference : Type := {
  (** The body of [_evaluate_internal] up to the metric update: forward
      pass of the fuse network with [training=False], loss and metric
      accumulators updated; the fuse network afterwards. *)
  evaluate_step :
    KerasModel -> list PyVal -> PyVal -> PyVal -> result unit * KerasModel;
  (** [_predict_internal]: [self.model_fuse(hiddens)] *)
  predict_step : KerasModel -> list PyVal -> result PyVal;
}.

Context `{INF : Inference}.

(** [result[m.name] = ...] for each metric, in order. *)
Definition metric_dict (metrics : list (string * PyVal))
    : gmap string PyVal :=
  foldl (fun acc m => <[m.1 := m.2]> acc) ∅ metrics.

(** [self._evaluate_internal(hiddens=hiddens, eval_y=self.eval_y,
    eval_sample_weight=self.eval_sample_weight)], with the [.numpy()] that
    [evaluate] applies to each value. *)
Definition _evaluate_internal (hiddens : list PyVal)
    : Py SLBaseTFModel (gmap string PyVal) := fun self =>
  match model_fuse self with
  | None => (Raise TypeError, self)
  | Some m =>
      let '(r, m') :=
        evaluate_step m hiddens (eval_y self) (eval_sample_weight self) in
      (rbind r (fun _ => Ok (metric_dict (model_metrics m'))),
       set_model_fuse (Some m') self)
  end.

(** The hidden features as [evaluate] and [predict] take them: decompressed
    when [compress] is set. *)
Definition received (hidden_features : list PyVal) (compressed : bool)
    (where_ : string) : Py SLBaseTFModel PyVal :=
  let* self := get in
  if compressed then
    match compressor self with
    | Some c => lift (decompress c (VTuple hidden_features))
    | None =>
        raise (Exception
          (String.append "can not find compressor when decompress data in "
             where_))
    end
  else ret (VTuple hidden_features).

Definition evaluate (hidden_features : list PyVal) (compressed : bool)
    : Py SLBaseTFModel (gmap string PyVal) :=
  let* self := get in
  do* py_assert (bool_decide (is_Some (model_fuse self)))
    "model cannot be none, please give model define" in
  let* hidden_features := received hidden_features compressed "evaluate" in
  let* hidden_features := lift (py_iter hidden_features) in
  let* hiddens := lift (flatten_hiddens hidden_features) in
  _evaluate_internal hiddens.

Definition predict (hidden_features : list PyVal) (compressed : bool)
    : Py SLBaseTFModel PyVal :=
  let* self := get in
  do* py_assert (bool_decide (is_Some (model_fuse self)))
    "Fuse model cannot be none, please give model define" in
  let* hidden_features := received hidden_features compressed "predict" in
  let* hidden_features := lift (py_iter hidden_features) in
  let* hiddens := lift (flatten_hiddens hidden_features) in
  match model_fuse self with
  | Some m => lift (predict_step m hiddens)
  | None => raise TypeError
  end.

End Evaluation.

(** ** Gradients of an [SLBaseModule] *)

(** What torch compares when a tensor is assigned as the gradient of a
    parameter: the element type and the size. *)
Class TorchTensors `{TL : TensorLib} : Type := {
  DType : Type;
  #[global] dtype_eq_dec :: EqDecision DType;
  (** [t.dtype] *)
  dtype : Tensor -> DType;
  (** [t.shape] *)
  shape : Tensor -> list nat;
}.

Section Gradients.
Context `{TT : TorchTensors}.

(** [g] has the element type and the size of [d]. *)
Definition fits (d g : Tensor) : bool :=
  bool_decide (dtype g = dtype d /\ shape g = shape d).

Definition grad_fits (d : Tensor) (g : option Tensor) : bool :=
  match g with
  | Some g => fits d g
  | None => true
  end.

(** A parameter of a torch module: its value and its [grad], which is
    [None] until a backward pass or [set_gradients] fills it.  torch refuses
    a gradient of another element type or size than the parameter, so a
    gradient that is there fits; [p_grad_fits] is that invariant. *)
Record TorchParam : Type := {
  data : Tensor;
  p_grad : option Tensor;
  p_grad_fits : Is_true (grad_fits data p_grad);
}.

(** [None if p.grad is None else p.grad.data.cpu().numpy()] for each
    parameter. *)
Definition get_gradients (parameters : list TorchParam) : list PyVal :=
  map (fun p => match p_grad p with
                | None => VNone
                | Some g => VTensor g
                end) parameters.

(** [torch.from_numpy(g.copy())]: defined on arrays; the tensor has the
    element type and the size of the array. *)
Definition from_numpy_copy (g : PyVal) : result Tensor :=
  match g with
  | VTensor t => Ok t
  | VList _ | VDataFrame _ | VEncoded _ => Raise TypeError
  | _ => Raise AttributeError
  end.

(** [p.grad = t]: a [RuntimeError] when [t] has another element type or
    another size than [p]. *)
Definition assign_grad (p : TorchParam) (t : Tensor) : result TorchParam :=
  match decide (Is_true (grad_fits (data p) (Some t))) with
  | left ok => Ok {| data := data p; p_grad := Some t; p_grad_fits := ok |}
  | right _ => Raise RuntimeError
  end.

(** [for g, p in zip(gradients, parameters): if g is not None: p.grad = ...]
    The parameters are updated in place: those assigned before an exception
    keep their new gradient. *)
Fixpoint set_gradients (gradients : list PyVal)
    (parameters : list TorchParam) : result unit * list TorchParam :=
  match gradients, parameters with
  | g :: gradients', p :: parameters' =>
      if is_none g then
        let '(r, ps) := set_gradients gradients' parameters' in (r, p :: ps)
      else
        match rbind (from_numpy_copy g) (assign_grad p) with
        | Ok p' =>
            let '(r, ps) := set_gradients gradients' parameters' in
            (r, p' :: ps)
        | Raise e => (Raise e, p :: parameters')
        end
  | _, _ => (Ok tt, parameters)
  end.

End Gradients.

(** ** A concrete framework over integer arrays

    An instance of the interfaces on which the methods can be run: arrays
    are nested sequences of integers, a network is one integer weight that
    scales its input, a data set is the sequence of its batches. *)

Module IntArrays.

#[warnings="-register-all"]
Inductive NDArray : Type :=
  | Scalar (z : Z)
  | Stack (rows : list NDArray).

Fixpoint nd_ndim (a : NDArray) : nat :=
  match a with
  | Scalar _ => 0
  | Stack [] => 1
  | Stack (r :: _) => S (nd_ndim r)
  end.

Definition nd_len (a : NDArray) : result nat :=
  match a with
  | Scalar _ => Raise TypeError
  | Stack rows => Ok (length rows)
  end.

Definition nd_getitem (a : NDArray) (i : Z) : result NDArray :=
  match a with
  | Scalar _ => Raise IndexError
  | Stack rows => seq_index rows i
  end.

Definition nd_slice_to (a : NDArray) (stop : Z) : NDArray :=
  match a with
  | Scalar z => Scalar z
  | Stack rows => Stack (seq_slice_to rows stop)
  end.

Fixpoint nd_map (f : Z -> Z) (a : NDArray) : NDArray :=
  match a with
  | Scalar z => Scalar (f z)
  | Stack rows => Stack (map (nd_map f) rows)
  end.

(** Element-wise product of arrays of one shape. *)
Fixpoint nd_mul (a b : NDArray) : result NDArray :=
  match a, b with
  | Scalar x, Scalar y => Ok (Scalar (x * y))
  | Stack ra, Stack rb =>
      rbind ((fix rows (ra rb : list NDArray) : result (list NDArray) :=
                match ra, rb with
                | [], [] => Ok []
                | x :: ra', y :: rb' =>
                    rbind (nd_mul x y) (fun r =>
                    rbind (rows ra' rb') (fun rs => Ok (r :: rs)))
                | _, _ => Raise ValueError
                end) ra rb) (fun rs => Ok (Stack rs))
  | _, _ => Raise ValueError
  end.

#[export] Instance int_tensors : TensorLib :=
  {| Tensor := NDArray; Encoded := NDArray;
     ndim := nd_ndim; tensor_len := nd_len;
     tensor_getitem := nd_getitem; tensor_slice_to := nd_slice_to |}.

Definition int_mul (a b : PyVal) : result PyVal :=
  match a, b with
  | VInt x, VInt y => Ok (VInt (x * y))
  | VBool x, VInt y => Ok (VInt (if x then y else 0))
  | VTensor x, VTensor y => rbind (nd_mul x y) (fun r => Ok (VTensor r))
  | VTensor x, VInt y => Ok (VTensor (nd_map (fun z => z * y) x))
  | VEncoded x, VInt y => Ok (VEncoded (nd_map (fun z => z * y) x))
  | _, _ => Raise TypeError
  end.

Definition int_ne (a b : PyVal) : result PyVal :=
  match a, b with
  | VInt x, VInt y => Ok (VBool (negb (x =? y)))
  | VTensor x, VInt y => Ok (VTensor (nd_map (fun z => if z =? y then 0 else 1) x))
  | VEncoded x, VInt y => Ok (VEncoded (nd_map (fun z => if z =? y then 0 else 1) x))
  | _, _ => Ok (VBool true)
  end.

Definition int_multiply (d m : PyVal) : result PyVal :=
  match d, m with
  | VEncoded x, VEncoded y
  | VEncoded x, VTensor y => rbind (nd_mul x y) (fun r => Ok (VEncoded r))
  | VEncoded x, VInt y => Ok (VEncoded (nd_map (fun z => z * y) x))
  | _, _ => Raise AttributeError
  end.

Definition int_convert (v : PyVal) : result PyVal :=
  match v with
  | VTensor t => Ok (VTensor t)
  | VInt z => Ok (VTensor (Scalar z))
  | _ => Raise ValueError
  end.

(** A network with one weight [w]: it scales its input by [w]. *)
Fixpoint scale (w : Z) (v : PyVal) : result PyVal :=
  match v with
  | VTensor t => Ok (VTensor (nd_map (Z.mul w) t))
  | VTuple vs => rbind (rmap_list (scale w) vs) (fun r => Ok (VList r))
  | _ => Raise ValueError
  end.

(** The rows of an array argument of [from_tensor_slices]. *)
Definition slices (v : PyVal) : result (list PyVal) :=
  match v with
  | VTensor (Stack rows) => Ok (map VTensor rows)
  | _ => Raise ValueError
  end.

(** Element [i] of the slices of a tuple of arrays. *)
Definition tuple_slices (cols : list (list PyVal)) : list PyVal :=
  match cols with
  | [] => []
  | c :: _ =>
      map (fun i => VTuple (omap (fun col => col !! i) cols))
          (seq 0 (length c))
  end.

Definition int_from_tensor_slices (v : PyVal) : result (list PyVal) :=
  match v with
  | VTuple vs => rbind (rmap_list slices vs) (fun cols => Ok (tuple_slices cols))
  | _ => slices v
  end.

Fixpoint chunks {A} (fuel n : nat) (l : list A) : list (list A) :=
  match fuel, l with
  | S fuel', _ :: _ => take n l :: chunks fuel' n (drop n l)
  | _, _ => []
  end.

Definition tensors_of (vs : list PyVal) : list NDArray :=
  omap (fun v => match v with VTensor t => Some t | _ => None end) vs.

(** One batch: the elements stacked, component by component for tuples. *)
Definition stack_batch (elems : list PyVal) : PyVal :=
  match elems with
  | VTuple cs :: _ =>
      VTuple (map (fun i =>
                VTensor (Stack (tensors_of
                  (omap (fun e => match e with
                                  | VTuple es => es !! i
                                  | _ => None
                                  end) elems))))
              (seq 0 (length cs)))
  | _ => VTensor (Stack (tensors_of elems))
  end.

Definition int_batch (d : list PyVal) (n : Z) : result (list PyVal) :=
  if n <=? 0 then Raise ValueError
  else Ok (map stack_batch (chunks (length d) (Z.to_nat n) d)).

Definition int_repeat (d : list PyVal) (n : Z) : result (list PyVal) :=
  if n <? 0 then Raise NotImplementedError
  else Ok (concat (replicate (Z.to_nat n) d)).

Definition int_next (it : list PyVal) : result PyVal * list PyVal :=
  match it with
  | [] => (Raise StopIteration, [])
  | b :: it' => (Ok b, it')
  end.

(** [tape.gradient] reaches a recorded [fuse_op] through its backward
    function, called with one upstream gradient per tensor of the result;
    [grad] takes one. *)
Definition one_upstream (e : TapeEntry) : bool :=
  match e with
  | TapeFuseOp (VList xs) _ => negb (2 <=? length xs)%nat
  | _ => true
  end.

Definition int_tape_gradient (t : GradientTape) (targets : list PyVal)
    (w : Z) : result (list PyVal) :=
  if forallb one_upstream (recorded t) then Ok targets else Raise TypeError.

#[export] Instance int_framework : Framework :=
  {| py_mul := int_mul; py_ne := int_ne; py_multiply := int_multiply;
     convert_to_tensor := int_convert;
     KerasModel := Z;
     model_call := scale;
     fuse_train_step := fun w hiddens _ _ => (Ok hiddens, w + 1);
     model_metrics := fun w => [("loss"%string, VInt w)];
     tape_gradient := int_tape_gradient;
     apply_gradients := fun w _ => Ok (w - 1);
     Dataset := list PyVal;
     DataIter := list PyVal;
     from_tensor_slices := int_from_tensor_slices;
     ds_batch := int_batch;
     ds_repeat := int_repeat;
     ds_shuffle := fun d _ _ => Ok (rev d);
     ds_steps_per_epoch := fun d => Ok (VInt (Z.of_nat (length d)));
     ds_iter := fun d => Ok d;
     iter_next := int_next |}.

#[export] Instance int_torch : TorchLib :=
  {| TorchModule := Z;
     module_call := fun w x _ => scale w x |}.

(** Some arrays: a 2-by-2 feature matrix, labels and weights for two
    samples. *)
Definition vec (zs : list Z) : NDArray := Stack (map Scalar zs).
Definition features : PyVal := VTensor (Stack [vec [1; 2]; vec [3; 4]]).
Definition labels : PyVal := VTensor (vec [0; 1]).
Definition weights : PyVal := VTensor (vec [5; 7]).

(** A partition with a base network of weight 2 and a fuse network of
    weight 10, without privacy hooks and without compressor. *)
Definition fresh : SLBaseTFModel := init (Some 2) (Some 10) None None None.

(** [build_dataset(features, y=labels, s_w=weights, batch_size=1, stage=st)] *)
Definition labelled (st : string) : BuildArgs :=
  {| arg_y := labels; arg_s_w := weights; batch_size := 1; buffer_size := 128;
     shuffle := false; repeat_count := 1; stage := st;
     random_seed := 1234; dataset_builder := None |}.

(** [build_dataset(features, s_w=weights, batch_size=1)]: a sample weight
    and no label. *)
Definition unlabelled : BuildArgs :=
  {| arg_y := VNone; arg_s_w := weights; batch_size := 1; buffer_size := 128;
     shuffle := false; repeat_count := 1; stage := "train";
     random_seed := 1234; dataset_builder := None |}.

(** The partition with a [train] and an [eval] data set built. *)
Definition ready : SLBaseTFModel :=
  (build_dataset [features] (labelled "eval")
     (build_dataset [features] (labelled "train") fresh).2).2.

(** ... after [base_forward("train")]: a tape is open. *)
Definition opened : SLBaseTFModel := (base_forward "train" false ready).2.

(** ... after [base_forward("eval")]: the [eval] label and weight are stored. *)
Definition evaluated : SLBaseTFModel := (base_forward "eval" false ready).2.

(** A partition whose base network has two outputs, after [base_forward]. *)
Definition two_outputs : SLBaseTFModel :=
  (base_forward "train" false
     (build_dataset [features; features] default_args fresh).2).2.

(** A partition whose base network has one output, after [base_forward] on a
    batch of two samples. *)
Definition one_output : SLBaseTFModel :=
  (base_forward "train" false
     (build_dataset [features] default_args fresh).2).2.

(** A partition with callbacks, after one [fuse_net] step. *)
Definition trained : SLBaseTFModel :=
  (fuse_net [features] false (init_training false fresh).2).2.

(** A compressor that is not sparsity-aware and leaves its data as it is. *)
Definition plain_compressor : Compressor :=
  {| sparse := false; compress := Ok; decompress := Ok |}.

Definition compressing : SLBaseTFModel :=
  init (Some 2) (Some 10) None None (Some plain_compressor).

(** ... after two [base_forward("train")]: the [train] iterator is
    exhausted. *)
Definition spent : SLBaseTFModel := (base_forward "train" false opened).2.

(** A [ModelPartition] with one loader of one batch. *)
Definition one_batch : ModelPartition :=
  partition_init 1 {[ "train"%string := [(features, labels)] ]}.

#[export] Instance int_inference : Inference :=
  {| evaluate_step := fun w _ _ _ => (Ok tt, w + 100);
     predict_step := fun w hiddens =>
       rbind (rmap_list (scale w) hiddens) (fun r => Ok (VList r)) |}.

(** [build_dataset(features, y=labels, batch_size=1)]: a label and no
    sample weight. *)
Definition weightless : BuildArgs :=
  {| arg_y := labels; arg_s_w := VNone; batch_size := 1; buffer_size := 128;
     shuffle := false; repeat_count := 1; stage := "train";
     random_seed := 1234; dataset_builder := None |}.

(** A partition with a compressor that packs arrays into the opaque form
    and unpacks them again, list by list. *)
Definition pack (v : PyVal) : PyVal :=
  match v with
  | VTensor t => VEncoded t
  | _ => v
  end.

Definition unpack (v : PyVal) : PyVal :=
  match v with
  | VEncoded t => VTensor t
  | _ => v
  end.

Definition packing_compressor : Compressor :=
  {| sparse := false;
     compress := fun v =>
       match v with
       | VList l => Ok (VList (map pack l))
       | VTuple l => Ok (VTuple (map pack l))
       | _ => Ok (pack v)
       end;
     decompress := fun v =>
       match v with
       | VList l => Ok (VList (map unpack l))
       | VTuple l => Ok (VTuple (map unpack l))
       | _ => Ok (unpack v)
       end |}.

Definition packing : SLBaseTFModel :=
  init (Some 2) (Some 10) None None (Some packing_compressor).

(** Two loaders of a [ModelPartition]. *)
Definition batch_a : Batch := (VTensor (vec [1]), VTensor (vec [0])).
Definition batch_b : Batch := (VTensor (vec [2]), VTensor (vec [1])).
Definition batch_c : Batch := (VTensor (vec [3]), VTensor (vec [1])).

Definition two_loaders : ModelPartition :=
  partition_init 1
    {[ "train"%string := [batch_a; batch_b]; "eval"%string := [batch_c] ]}.

Definition no_batches : ModelPartition :=
  partition_init 1 {[ "train"%string := @nil Batch ]}.

(** The size of an array, read along its first rows. *)
Fixpoint nd_shape (a : NDArray) : list nat :=
  match a with
  | Scalar _ => []
  | Stack [] => [0%nat]
  | Stack ((r :: _) as rows) => length rows :: nd_shape r
  end.

(** Every array holds integers: one element type. *)
#[export] Instance int_torch_tensors : TorchTensors :=
  {| DType := unit; dtype := fun _ => tt; shape := nd_shape |}.

(** Three parameters of one element each, the second with a gradient. *)
Definition three_params : list TorchParam :=
  [ {| data := vec [1]; p_grad := None; p_grad_fits := I |};
    {| data := vec [2]; p_grad := Some (vec [9]); p_grad_fits := I |};
    {| data := vec [3]; p_grad := None; p_grad_fits := I |} ].

End IntArrays.

(** ** Predicates on methods *)

(** [stable P c]: a call of [c] from a state in [P] ends in [P], whether it
    returns or raises. *)
Definition stable {S A} (P : S -> Prop) (c : Py S A) : Prop :=
  forall s, P s -> P (c s).2.

(** [fails c]: a call of [c] never returns. *)
Definition fails {S A} (c : Py S A) : Prop :=
  forall s, is_ok (c s).1 = false.

(** [kept_on_failure P c]: a call of [c] that raises from a state in [P]
    ends in [P]. *)
Definition kept_on_failure {S A} (P : S -> Prop) (c : Py S A) : Prop :=
  forall s, P s -> is_ok (c s).1 = false -> P (c s).2.

Section Predicates.
Context `{FW : Framework}.

(** [tape_blind c]: [c] neither reads nor writes the tape. *)
Definition tape_blind {A} (c : Py SLBaseTFModel A) : Prop :=
  forall t self, c (set_tape t self) = ((c self).1, set_tape t (c self).2).

(** The tape after the applications [fuse_op x y], for [(x, y)] in [pairs],
    were recorded on it in order. *)
Definition record_fuse_ops (pairs : list (PyVal * PyVal)) (t : GradientTape)
    : GradientTape :=
  foldl (fun t p => tape_record (TapeFuseOp p.1 p.2) t) t pairs.

(** The run of the life cycle that C4 is about:
    [on_train_batch_end(step)], then [on_validation(v)] for each [v] of
    [vals], then [on_epoch_end(epoch)]. *)
Fixpoint validations (vals : list (gmap string PyVal))
    : Py SLBaseTFModel unit :=
  match vals with
  | [] => ret tt
  | v :: vals' => do* on_validation v in validations vals'
  end.

Definition epoch_tail (step : PyVal) (vals : list (gmap string PyVal))
    (epoch : PyVal) : Py SLBaseTFModel (option (gmap string PyVal)) :=
  do* on_train_batch_end step in
  do* validations vals in
  on_epoch_end epoch.

(** The arguments [a] with [s_w] left at its default [None]. *)
Definition without_s_w (a : BuildArgs) : BuildArgs :=
  {| arg_y := arg_y a; arg_s_w := VNone; batch_size := batch_size a;
     buffer_size := buffer_size a; shuffle := shuffle a;
     repeat_count := repeat_count a; stage := stage a;
     random_seed := random_seed a; dataset_builder := dataset_builder a |}.

(** A partition with the fields that [base_backward] assigns blanked: two
    partitions with the same image agree on every other field. *)
Definition beside_base (self : SLBaseTFModel) : SLBaseTFModel :=
  set_model_base None (set_tape None (set_h VNone self)).

(** The same for the fields that [fuse_net] and [evaluate] assign. *)
Definition beside_fuse (self : SLBaseTFModel) : SLBaseTFModel :=
  set_model_fuse None (set_logs None self).

(** The number of tensors a party contributes to [hiddens]. *)
Definition width (hidden : PyVal) : nat :=
  match hidden with
  | VList his => length his
  | _ => 1
  end.

(** [base_backward] from the end of its [with] block, on a partition whose
    tape [t] holds the applications of [fuse_op] and whose base network is
    [m]: the gradients of [targets] are taken from the tape and applied, and
    the tape and the embedding are cleared; when one of the two calls
    raises, the tape stays as it is. *)
Definition backward_pass (t : GradientTape) (targets : list PyVal)
    (m : KerasModel) : Py SLBaseTFModel unit := fun self =>
  match rbind (tape_gradient t targets m) (apply_gradients m) with
  | Ok m' =>
      (Ok tt,
       set_h VNone
         (set_tape None (set_model_base (Some m') (set_tape (Some t) self))))
  | Raise e => (Raise e, set_tape (Some t) self)
  end.

(** The convention of [tf.custom_gradient] on the way back: the backward
    function of a differentiated [fuse_op] is called with one upstream
    gradient per tensor of its result.  The [grad] of
    [fuse_op] takes one, so [tape.gradient] raises [TypeError] when the
    result of a [fuse_op] among its targets is a list of two tensors or
    more. *)
Definition one_upstream_per_output : Prop :=
  forall t targets m x y,
    TapeFuseOp x y ∈ recorded t -> x ∈ targets -> (2 <= width x)%nat ->
    tape_gradient t targets m = Raise TypeError.

(** [k.startswith('val_')] *)
Definition val_key (k : string) : Prop :=
  exists name, k = String.append "val_" name.

End Predicates.

(** * Properties *)

(** ** Reasoning about methods *)

Section Methods.
Context {S : Type}.
Implicit Types P : S -> Prop.

Lemma bind_ok_inv {A B} (c : Py S A) (k : A -> Py S B) s b s' :
  bind c k s = (Ok b, s') ->
  exists a s1, c s = (Ok a, s1) /\ k a s1 = (Ok b, s').
Proof.
  unfold bind. destruct (c s) as [[a|e] s1]; [eauto | discriminate].
Qed.

Lemma stable_ret {A} P (a : A) : stable P (ret a).
Proof. intros s Hs. exact Hs. Qed.

Lemma stable_raise {A} P e : stable P (@raise S A e).
Proof. intros s Hs. exact Hs. Qed.

Lemma stable_lift {A} P (r : result A) : stable P (lift r).
Proof. intros s Hs. exact Hs. Qed.

Lemma stable_get P : stable P get.
Proof. intros s Hs. exact Hs. Qed.

Lemma stable_gets {A} P (f : S -> A) : stable P (gets f).
Proof. intros s Hs. exact Hs. Qed.

Lemma stable_assert P b msg : stable P (py_assert b msg).
Proof. intros s Hs. destruct b; exact Hs. Qed.

Lemma stable_modify P (f : S -> S) :
  (forall s, P s -> P (f s)) -> stable P (modify f).
Proof. intros Hf s Hs. apply Hf, Hs. Qed.

Lemma stable_bind {A B} P (c : Py S A) (k : A -> Py S B) :
  stable P c -> (forall a, stable P (k a)) -> stable P (bind c k).
Proof.
  intros Hc Hk s Hs. unfold bind. specialize (Hc s Hs).
  destruct (c s) as [[a|e] s1]; simpl in *; [apply Hk, Hc | exact Hc].
Qed.

End Methods.

Create HintDb stable.
#[local] Hint Resolve stable_ret stable_raise stable_lift stable_get
  stable_gets stable_assert : stable.

Ltac stable_step :=
  match goal with
  | |- stable _ (bind _ _) => apply stable_bind; [| intros ?]
  | |- stable _ (modify _) =>
      apply stable_modify; intros ? ?; simpl in *; assumption
  | |- stable _ next_train =>
      let s := fresh "s" in
      intros s ?; unfold next_train; destruct (train_set s);
      [destruct (iter_next _) |]; simpl in *; assumption
  | |- stable _ next_eval =>
      let s := fresh "s" in
      intros s ?; unfold next_eval; destruct (eval_set s);
      [destruct (iter_next _) |]; simpl in *; assumption
  | |- stable _ (if ?b then _ else _) => destruct b
  | |- stable _ (match ?x with _ => _ end) => destruct x
  | |- stable _ _ => solve [auto with stable]
  end.

Section Properties.
Context `{FW : Framework}.

(** ** The custom gradient operator *)

(** C1. [fuse_op] is the identity in the forward direction and scales in the
    backward direction: [fuse_op x y] has the value [x], and its gradient
    function maps an upstream gradient [u] to the pair [(u * y, u * y)], the
    gradients with respect to the embedding and to the external gradient (it
    raises when the product [u * y] does). *)
Theorem fuse_op_identity_forward_scaled_backward (x y : PyVal) :
  value (fuse_op x y) = x /\
  forall upstream,
    grad (fuse_op x y) upstream =
    rbind (py_mul upstream y) (fun g => Ok (g, g)).
Proof.
  split; [reflexivity |].
  intros upstream. simpl. destruct (py_mul upstream y); reflexivity.
Qed.

(** ** The tape across [base_forward] and [base_backward] *)

Lemma tape_blind_ret {A} (a : A) : tape_blind (ret a).
Proof. intros t self. reflexivity. Qed.

Lemma tape_blind_raise {A} e : tape_blind (@raise _ A e).
Proof. intros t self. reflexivity. Qed.

Lemma tape_blind_lift {A} (r : result A) : tape_blind (lift r).
Proof. intros t self. reflexivity. Qed.

Lemma tape_blind_assert b msg : tape_blind (py_assert b msg).
Proof. intros t self. destruct b; reflexivity. Qed.

Lemma tape_blind_bind {A B} (c : Py SLBaseTFModel A)
    (k : A -> Py SLBaseTFModel B) :
  tape_blind c -> (forall a, tape_blind (k a)) -> tape_blind (bind c k).
Proof.
  intros Hc Hk t self. unfold bind. rewrite Hc.
  destruct (c self) as [[a|e] s1]; simpl; [apply Hk | reflexivity].
Qed.

Lemma tape_blind_next_train : tape_blind next_train.
Proof.
  intros t self. unfold next_train. simpl.
  destruct (train_set self) as [it|]; [| reflexivity].
  destruct (iter_next it); reflexivity.
Qed.

Lemma tape_blind_next_eval : tape_blind next_eval.
Proof.
  intros t self. unfold next_eval. simpl.
  destruct (eval_set self) as [it|]; [| reflexivity].
  destruct (iter_next it); reflexivity.
Qed.

Ltac blind_step :=
  match goal with
  | |- tape_blind (bind _ _) => apply tape_blind_bind; [| intros ?]
  | |- tape_blind (if ?b then _ else _) => destruct b
  | |- tape_blind next_train => apply tape_blind_next_train
  | |- tape_blind next_eval => apply tape_blind_next_eval
  | |- tape_blind (ret _) => apply tape_blind_ret
  | |- tape_blind (raise _) => apply tape_blind_raise
  | |- tape_blind (lift _) => apply tape_blind_lift
  | |- tape_blind (py_assert _ _) => apply tape_blind_assert
  | |- tape_blind (modify _) => intros ? ?; reflexivity
  | |- tape_blind (gets _) => intros ? ?; reflexivity
  end.

Lemma tape_blind_init_data : tape_blind init_data.
Proof. intros t self. reflexivity. Qed.

Lemma tape_blind_next_batch stage : tape_blind (next_batch stage).
Proof. unfold next_batch. repeat blind_step. Qed.

Lemma embed_batch_tape_free data_x c t (self : SLBaseTFModel) :
  embed_batch data_x c (set_tape t self) = embed_batch data_x c self.
Proof. reflexivity. Qed.

Lemma embed_batch_fresh_tape data_x c (self : SLBaseTFModel) v s' :
  embed_batch data_x c self = (Ok v, s') ->
  tape s' = Some {| persistent := true;
                    recorded := [TapeCall data_x (h s')] |}.
Proof.
  unfold embed_batch. intros H.
  apply bind_ok_inv in H as ([] & s1 & _ & H).
  apply bind_ok_inv in H as (s2 & ? & Hget & H).
  injection Hget as <- <-.
  apply bind_ok_inv in H as (hid & ? & Hhid & H).
  injection Hhid as _ <-.
  apply bind_ok_inv in H as ([] & ? & Hmod & H). injection Hmod as <-.
  apply bind_ok_inv in H as ([] & ? & Hmod & H). injection Hmod as <-.
  assert (s' = set_h hid (set_tape
            (Some (tape_record (TapeCall data_x hid) new_tape)) s1)) as ->;
    [| reflexivity].
  destruct c; [| injection H as _ <-; reflexivity].
  destruct (compressor s1); [| discriminate].
  apply bind_ok_inv in H as (a & ? & Hnp & H).
  injection Hnp as _ <-. injection H as _ <-. reflexivity.
Qed.

(** [base_forward], step by step. *)
Lemma base_forward_eq stage c (self : SLBaseTFModel) :
  base_forward stage c self =
  if bool_decide (is_Some (model_base self)) then
    match next_batch stage (init_data self).2 with
    | (Ok data_x, s1) => embed_batch (strip_singleton data_x) c s1
    | (Raise e, s1) => (Raise e, s1)
    end
  else
    (Raise (AssertionError
       "Base model cannot be none, please give model define or load a trained model"),
     self).
Proof.
  unfold base_forward, bind, gets, py_assert.
  destruct (bool_decide (is_Some (model_base self))); reflexivity.
Qed.

(** The outcome of [base_forward], a value or an exception, is the same
    whatever tape is open at the call. *)
Lemma base_forward_outcome_ignores_tape (self : SLBaseTFModel) t stage c :
  (base_forward stage c (set_tape t self)).1 = (base_forward stage c self).1.
Proof.
  rewrite !base_forward_eq. simpl model_base.
  destruct (bool_decide (is_Some (model_base self))); [| reflexivity].
  rewrite tape_blind_init_data. cbn [snd]. rewrite tape_blind_next_batch.
  destruct (next_batch stage _) as [[dx|e] s1]; simpl; [| reflexivity].
  rewrite embed_batch_tape_free. reflexivity.
Qed.

(** C2 (as amended). [base_forward] has no tape guard: a call that succeeds
    from a state succeeds with the same result and the same final state from
    that state with any tape [t] open (or none), and the tape it leaves is a
    fresh one that holds only the new run of the base network. *)
Theorem base_forward_overwrites_open_tape
    (self : SLBaseTFModel) t stage c v s' :
  base_forward stage c self = (Ok v, s') ->
  base_forward stage c (set_tape t self) = (Ok v, s') /\
  exists data_x,
    tape s' = Some {| persistent := true;
                      recorded := [TapeCall data_x (h s')] |}.
Proof.
  rewrite !base_forward_eq. simpl model_base.
  destruct (bool_decide (is_Some (model_base self))); [| discriminate].
  rewrite tape_blind_init_data. cbn [snd]. rewrite tape_blind_next_batch.
  destruct (next_batch stage _) as [[dx|e] s1]; simpl; [| discriminate].
  rewrite embed_batch_tape_free. intros H. split; [exact H |].
  exists (strip_singleton dx). eapply embed_batch_fresh_tape, H.
Qed.

(** C6. After every successful return of [base_backward] the tape and the
    stored embedding are cleared: no open tape remains. *)
Theorem base_backward_releases_tape
    (self : SLBaseTFModel) gradient c s' :
  base_backward gradient c self = (Ok tt, s') ->
  tape s' = None /\ h s' = VNone.
Proof.
  unfold base_backward. intros H.
  do 10 (apply bind_ok_inv in H as (? & ? & _ & H)).
  apply bind_ok_inv in H as ([] & s1 & Hclear & H).
  injection Hclear as <-. injection H as <-. split; reflexivity.
Qed.

(** ** Pairing gradients with embeddings *)

Lemma seq_index_lookup {A} (l : list A) (k : nat) x :
  l !! k = Some x -> seq_index l (Z.of_nat k) = Ok x.
Proof.
  intros Hk. pose proof (lookup_lt_Some _ _ _ Hk) as Hlt.
  unfold seq_index.
  replace (Z.of_nat k <? 0) with false by (symmetry; apply Z.ltb_ge; lia).
  replace (0 <=? Z.of_nat k) with true by (symmetry; apply Z.leb_le; lia).
  replace (Z.of_nat k <? Z.of_nat (length l)) with true
    by (symmetry; apply Z.ltb_lt; lia).
  simpl. rewrite Nat2Z.id, Hk. reflexivity.
Qed.

Lemma pair_positionally_spec (hs gs : list PyVal) m :
  forall k (self : SLBaseTFModel),
    h self = VList hs ->
    (k + m <= length hs)%nat -> (k + m <= length gs)%nat ->
    pair_positionally (VList gs) (seq k m) self =
    (Ok (zip_with fuse_op (take m (drop k hs)) (take m (drop k gs))),
     set_tape
       (record_fuse_ops (zip (take m (drop k hs)) (take m (drop k gs)))
          <$> tape self) self).
Proof.
  induction m as [|m IH]; intros k self Hh Hhs Hgs.
  - simpl. unfold ret. f_equal. destruct self as []; simpl.
    destruct tape0; reflexivity.
  - destruct (lookup_lt_is_Some_2 hs k) as [x Hx]; [lia |].
    destruct (lookup_lt_is_Some_2 gs k) as [y Hy]; [lia |].
    rewrite (drop_S _ _ _ Hx), (drop_S _ _ _ Hy).
    cbn [seq pair_positionally take zip_with]. unfold zip, bind at 1, get.
    unfold bind at 1, lift. rewrite Hh. simpl py_getitem.
    rewrite (seq_index_lookup _ _ _ Hx).
    unfold bind at 1. rewrite (seq_index_lookup _ _ _ Hy).
    unfold bind at 1, apply_fuse_op. unfold bind at 1.
    rewrite IH by (simpl; auto with lia). unfold ret. f_equal.
    simpl. destruct (tape self); reflexivity.
Qed.

(** Whatever the embedding and the gradient are, every element that the
    [with self.tape:] block of [base_backward] appends to [return_hiddens] is
    an application of [fuse_op]. *)
Lemma pair_positionally_fuse_ops gradient idx :
  forall (self : SLBaseTFModel) rs s',
    pair_positionally gradient idx self = (Ok rs, s') ->
    Forall (fun r => exists x y, r = fuse_op x y) rs.
Proof.
  induction idx as [|i idx IH]; intros self rs s' Hrun.
  - injection Hrun as <- _. constructor.
  - cbn [pair_positionally] in Hrun.
    apply bind_ok_inv in Hrun as (self0 & sa & _ & Hrun).
    apply bind_ok_inv in Hrun as (ex & sb & _ & Hrun).
    apply bind_ok_inv in Hrun as (ey & sc & _ & Hrun).
    apply bind_ok_inv in Hrun as (r & s1 & Hr & Hrun).
    apply bind_ok_inv in Hrun as (rest & s2 & Hrest & Hrun).
    injection Hr as <- _. injection Hrun as <- _.
    constructor; [eauto | eapply IH, Hrest].
Qed.

Lemma reattach_fuse_ops gradient (self : SLBaseTFModel) rs s' :
  reattach gradient self = (Ok rs, s') ->
  Forall (fun r => exists x y, r = fuse_op x y) rs.
Proof.
  unfold reattach. intros Hrun.
  apply bind_ok_inv in Hrun as (self0 & sa & _ & Hrun).
  apply bind_ok_inv in Hrun as (n_g & sb & _ & Hrun).
  apply bind_ok_inv in Hrun as (n_h & sc & _ & Hrun).
  destruct (n_g =? n_h)%nat.
  - eapply pair_positionally_fuse_ops, Hrun.
  - apply bind_ok_inv in Hrun as (g0 & sd & _ & Hrun).
    apply bind_ok_inv in Hrun as (r & se & Hr & Hrun).
    injection Hr as <- _. injection Hrun as <- _.
    constructor; [eauto | constructor].
Qed.

Lemma reattach_positional (self : SLBaseTFModel) (hs gs : list PyVal) :
  h self = VList hs -> length gs = length hs ->
  reattach (VList gs) self =
  (Ok (zip_with fuse_op hs gs),
   set_tape (record_fuse_ops (zip hs gs) <$> tape self) self).
Proof.
  intros Hh Hlen. unfold reattach, bind, get, lift. rewrite Hh. simpl py_len.
  rewrite Hlen, Nat.eqb_refl.
  rewrite (pair_positionally_spec hs gs) by (simpl; auto with lia).
  rewrite !drop_0, !firstn_all2 by lia. reflexivity.
Qed.

Lemma reattach_first (self : SLBaseTFModel) g gs n :
  py_len (h self) = Ok n -> length (g :: gs) <> n ->
  reattach (VList (g :: gs)) self =
  (Ok [fuse_op (h self) g],
   set_tape (record_fuse_ops [(h self, g)] <$> tape self) self).
Proof.
  intros Hn Hlen. unfold reattach, bind, get, lift. rewrite Hn.
  cbn [py_len].
  destruct (Nat.eqb_spec (length (g :: gs)) n) as [Heq|_]; [contradiction |].
  reflexivity.
Qed.

Lemma zip_with_fuse_op_values (hs gs : list PyVal) :
  length gs = length hs -> map value (zip_with fuse_op hs gs) = hs.
Proof.
  revert gs. induction hs as [|x hs IH]; intros [|y gs] Hlen;
    try discriminate; [reflexivity |].
  simpl. f_equal. apply IH. simpl in Hlen. lia.
Qed.

(** [base_backward] once the [with] block has run: the tape with the
    applications on it and the values of [return_hiddens] go to
    [tape.gradient]. *)
Lemma base_backward_after_reattach
    (self : SLBaseTFModel) gradient rs t t' m :
  tape self = Some t -> model_base self = Some m ->
  reattach gradient self = (Ok rs, set_tape (Some t') self) ->
  base_backward gradient false self = backward_pass t' (map value rs) m self.
Proof.
  intros Htape Hm Hre. unfold base_backward, bind at 1, get.
  unfold bind at 1, ret. unfold bind at 1.
  rewrite bool_decide_true by (rewrite Htape; eauto).
  unfold bind at 1. rewrite Hre.
  unfold bind, get, lift, modify, backward_pass. simpl. rewrite Hm.
  destruct (tape_gradient t' (map value rs) m) as [grads|e]; [| reflexivity].
  simpl. destruct (apply_gradients m grads); reflexivity.
Qed.

Lemma base_backward_positional
    (self : SLBaseTFModel) (hs gs : list PyVal) t m :
  tape self = Some t -> model_base self = Some m ->
  h self = VList hs -> length gs = length hs ->
  base_backward (VList gs) false self =
  backward_pass (record_fuse_ops (zip hs gs) t) hs m self.
Proof.
  intros Htape Hm Hh Hlen.
  rewrite <- (zip_with_fuse_op_values hs gs Hlen) at 2.
  apply (base_backward_after_reattach self _ _ t); [exact Htape | exact Hm |].
  rewrite (reattach_positional self hs gs Hh Hlen), Htape. reflexivity.
Qed.

Lemma base_backward_first_gradient (self : SLBaseTFModel) g gs t m n :
  tape self = Some t -> model_base self = Some m ->
  py_len (h self) = Ok n -> length (g :: gs) <> n ->
  base_backward (VList (g :: gs)) false self =
  backward_pass (record_fuse_ops [(h self, g)] t) [h self] m self.
Proof.
  intros Htape Hm Hn Hlen.
  change [h self] with (map value [fuse_op (h self) g]).
  apply (base_backward_after_reattach self _ _ t); [exact Htape | exact Hm |].
  rewrite (reattach_first self g gs n Hn Hlen), Htape. reflexivity.
Qed.

(** One application of [fuse_op] to a list of two embeddings or more:
    [tape.gradient] raises, and the tape stays open with the application on
    it. *)
Lemma base_backward_wide_raises (self : SLBaseTFModel) hs g gs t m :
  tape self = Some t -> model_base self = Some m ->
  h self = VList hs -> (2 <= length hs)%nat ->
  length (g :: gs) <> length hs -> one_upstream_per_output ->
  base_backward (VList (g :: gs)) false self =
  (Raise TypeError,
   set_tape (Some (record_fuse_ops [(VList hs, g)] t)) self).
Proof.
  intros Htape Hm Hh Hwide Hlen Hconv.
  rewrite (base_backward_first_gradient self g gs t m (length hs));
    [| exact Htape | exact Hm | rewrite Hh; reflexivity | exact Hlen].
  unfold backward_pass. rewrite Hh.
  rewrite (Hconv _ [VList hs] m (VList hs) g); [reflexivity | | |].
  - simpl. set_solver.
  - set_solver.
  - exact Hwide.
Qed.

(** C3. In [base_backward], when the stored embedding is a list of N tensors
    and the incoming gradient is a list of the same length, the gradients
    are paired with the embeddings position by position: the applications
    [fuse_op(h[i], gradient[i])] are recorded on the tape in order and their
    results, the embeddings, are what [tape.gradient] differentiates.  When
    the incoming gradient is a list of one element and the length of the
    embedding is not 1, that element is attached to the stored embedding as
    a whole in one application of [fuse_op]; this is the path of an
    embedding that is a single tensor.  On a list of two embeddings or more
    it is no broadcast: the backward function of [fuse_op] takes one
    upstream gradient and receives one per embedding, so [base_backward]
    raises [TypeError] and leaves the tape open. *)
Theorem base_backward_pairs_gradients
    (self : SLBaseTFModel) (hs gs : list PyVal) (g : PyVal) t m n :
  tape self = Some t -> model_base self = Some m ->
  (h self = VList hs -> length gs = length hs ->
   base_backward (VList gs) false self =
   backward_pass (record_fuse_ops (zip hs gs) t) hs m self) /\
  (py_len (h self) = Ok n -> n <> 1%nat ->
   base_backward (VList [g]) false self =
   backward_pass (record_fuse_ops [(h self, g)] t) [h self] m self) /\
  (h self = VList hs -> (2 <= length hs)%nat -> one_upstream_per_output ->
   base_backward (VList [g]) false self =
   (Raise TypeError,
    set_tape (Some (record_fuse_ops [(VList hs, g)] t)) self)).
Proof.
  intros Htape Hm. split; [| split].
  - intros Hh Hlen. exact (base_backward_positional self hs gs t m
                             Htape Hm Hh Hlen).
  - intros Hn Hne. apply (base_backward_first_gradient self g [] t m n);
      [exact Htape | exact Hm | exact Hn |].
    simpl. congruence.
  - intros Hh Hwide Hconv.
    apply (base_backward_wide_raises self hs g [] t m); try assumption.
    simpl. lia.
Qed.

(** ** What [base_forward] stores for each stage *)

Lemma stable_embed_batch (P : SLBaseTFModel -> Prop) data_x c :
  (forall s v, P s -> P (set_tape v s)) ->
  (forall s v, P s -> P (set_h v s)) ->
  stable P (embed_batch data_x c).
Proof.
  intros Htape Hh. unfold embed_batch.
  apply stable_bind; [apply stable_modify; auto | intros _].
  apply stable_bind; [apply stable_get | intros self].
  apply stable_bind; [apply stable_lift | intros hid].
  apply stable_bind; [apply stable_modify; auto | intros _].
  apply stable_bind; [apply stable_modify; auto | intros _].
  repeat stable_step.
Qed.

(** A property that holds once [init_data] has run, and that the batch
    statement, the tape and the embedding do not disturb, holds after
    [base_forward]. *)
Lemma base_forward_stable (P : SLBaseTFModel -> Prop) stage c self :
  is_Some (model_base self) ->
  stable P (next_batch stage) ->
  (forall s v, P s -> P (set_tape v s)) ->
  (forall s v, P s -> P (set_h v s)) ->
  P (init_data self).2 ->
  P (base_forward stage c self).2.
Proof.
  intros Hm Hnext Htape Hh H0.
  rewrite base_forward_eq, bool_decide_true by done.
  specialize (Hnext _ H0).
  destruct (next_batch stage _) as [[dx|e] s1]; simpl in *; [| exact Hnext].
  apply stable_embed_batch; assumption.
Qed.

(** C9 (as amended). The stored batch is not kept per stage: every
    [base_forward] that finds its base network first clears the stored
    features, label and sample weight of both stages, then stores the label
    and the sample weight of the requested stage only.  After a [train]
    call the [eval] label and sample weight are [None], and after an [eval]
    call the [train] ones are. *)
Theorem base_forward_clears_both_stages (self : SLBaseTFModel) c :
  is_Some (model_base self) ->
  (train_x (base_forward "train" c self).2 = VNone /\
   eval_x (base_forward "train" c self).2 = VNone /\
   eval_y (base_forward "train" c self).2 = VNone /\
   eval_sample_weight (base_forward "train" c self).2 = VNone) /\
  (train_x (base_forward "eval" c self).2 = VNone /\
   eval_x (base_forward "eval" c self).2 = VNone /\
   train_y (base_forward "eval" c self).2 = VNone /\
   train_sample_weight (base_forward "eval" c self).2 = VNone).
Proof.
  intros Hm. split.
  - apply (base_forward_stable
             (fun s => train_x s = VNone /\ eval_x s = VNone /\
                       eval_y s = VNone /\ eval_sample_weight s = VNone));
      [exact Hm | | auto | auto | simpl; auto].
    unfold next_batch. cbn [String.eqb Ascii.eqb Bool.eqb].
    repeat stable_step.
  - apply (base_forward_stable
             (fun s => train_x s = VNone /\ eval_x s = VNone /\
                       train_y s = VNone /\ train_sample_weight s = VNone));
      [exact Hm | | auto | auto | simpl; auto].
    unfold next_batch. cbn [String.eqb Ascii.eqb Bool.eqb].
    repeat stable_step.
Qed.

(** ** Sample weights without labels *)

Lemma present_absent (y : PyVal) :
  y = VNone \/ shape_rank y = Ok 0%nat -> present y = Ok false.
Proof.
  unfold present. intros [-> | Hy]; [reflexivity |].
  destruct (is_none y); [reflexivity |]. rewrite Hy. reflexivity.
Qed.

Lemma build_dataset_without_label (self : SLBaseTFModel) x a :
  x <> [] -> present (arg_y a) = Ok false ->
  has_y (build_dataset x a self).2 = false /\
  has_s_w (build_dataset x a self).2 = false /\
  model_base (build_dataset x a self).2 = model_base self.
Proof.
  intros Hx Hy. destruct x as [|x0 xs]; [done |].
  unfold build_dataset. rewrite Hy.
  unfold bind, ret, lift, modify, py_assert, raise; simpl.
  repeat case_match; simplify_eq/=; auto.
Qed.

Lemma build_dataset_drops_s_w (self : SLBaseTFModel) x a :
  present (arg_y a) = Ok false ->
  build_dataset x a self = build_dataset x (without_s_w a) self.
Proof.
  intros Hy. unfold build_dataset. simpl. rewrite Hy. reflexivity.
Qed.

Lemma next_batch_without_label stage (self : SLBaseTFModel) :
  has_y self = false ->
  train_sample_weight self = VNone -> eval_sample_weight self = VNone ->
  train_sample_weight (next_batch stage self).2 = VNone /\
  eval_sample_weight (next_batch stage self).2 = VNone.
Proof.
  intros Hy Ht He. unfold next_batch, bind, gets, next_train, next_eval.
  destruct (String.eqb stage "train").
  - destruct (train_set self) as [it|]; [| simpl; auto].
    destruct (iter_next it) as [[b|e] it']; simpl; rewrite ?Hy; simpl; auto.
  - destruct (String.eqb stage "eval"); [| simpl; auto].
    destruct (eval_set self) as [it|]; [| simpl; auto].
    destruct (iter_next it) as [[b|e] it']; simpl; rewrite ?Hy; simpl; auto.
Qed.

Lemma base_forward_without_label stage c (self : SLBaseTFModel) :
  is_Some (model_base self) -> has_y self = false ->
  train_sample_weight (base_forward stage c self).2 = VNone /\
  eval_sample_weight (base_forward stage c self).2 = VNone.
Proof.
  intros Hm Hy. rewrite base_forward_eq, bool_decide_true by done.
  pose proof (next_batch_without_label stage (init_data self).2 Hy
                eq_refl eq_refl) as Hnext.
  destruct (next_batch stage _) as [[dx|e] s1]; simpl in *; [| exact Hnext].
  apply (stable_embed_batch
           (fun s => train_sample_weight s = VNone /\
                     eval_sample_weight s = VNone)); auto.
Qed.

(** C10. In [build_dataset] a sample weight is recorded only together with a
    label: when features are given and [y] is [None] or has an empty shape,
    [has_s_w] is false after the call whatever [s_w] is, the call does
    exactly what it does with [s_w] left out, so that the iterator it builds
    carries no sample weight, and every later [base_forward] stores no
    sample weight. *)
Theorem sample_weight_needs_label (self : SLBaseTFModel) x a :
  x <> [] ->
  arg_y a = VNone \/ shape_rank (arg_y a) = Ok 0%nat ->
  has_s_w (build_dataset x a self).2 = false /\
  build_dataset x a self = build_dataset x (without_s_w a) self /\
  (is_Some (model_base self) ->
   forall stage c,
     let stepped := base_forward stage c (build_dataset x a self).2 in
     train_sample_weight stepped.2 = VNone /\
     eval_sample_weight stepped.2 = VNone).
Proof.
  intros Hx Hy. apply present_absent in Hy.
  destruct (build_dataset_without_label self x a Hx Hy) as (Hhy & Hw & Hm).
  split; [exact Hw |]. split; [apply build_dataset_drops_s_w, Hy |].
  intros Hbase stage c. apply base_forward_without_label.
  - rewrite Hm. exact Hbase.
  - exact Hhy.
Qed.


(** ** The epoch log *)

#[local] Instance val_prefix_inj : Inj (=) (=) (String.append "val_").
Proof. intros a b Hab. by simplify_eq/=. Qed.

Lemma val_prefixed_lookup (vl : gmap string PyVal) name :
  val_prefixed vl !! String.append "val_" name = vl !! name.
Proof. unfold val_prefixed. apply (lookup_kmap (String.append "val_")). Qed.

Lemma val_prefixed_other (vl : gmap string PyVal) k :
  ~ val_key k -> val_prefixed vl !! k = None.
Proof.
  intros Hk. unfold val_prefixed.
  apply (lookup_kmap_None (String.append "val_")).
  intros name ->. destruct Hk. exists name. reflexivity.
Qed.

Lemma train_logs_keys (metrics : list (string * PyVal)) k :
  is_Some (train_logs metrics !! k) ->
  exists name, k = String.append "train_" name.
Proof.
  unfold train_logs.
  assert (forall acc : gmap string PyVal,
            is_Some (foldl (fun acc m =>
                       <[String.append "train_" m.1 := m.2]> acc) acc metrics
                     !! k) ->
            is_Some (acc !! k) \/ exists name, k = String.append "train_" name)
    as Hgen.
  { induction metrics as [|[n v] ms IH]; intros acc Hk; [left; exact Hk |].
    simpl in Hk. apply IH in Hk as [Hk | Hk]; [| right; exact Hk].
    destruct (decide (String.append "train_" n = k)) as [<- | Hne].
    - right. exists n. reflexivity.
    - left. rewrite lookup_insert_ne in Hk by exact Hne. exact Hk. }
  intros Hk. apply Hgen in Hk as [Hk | Hk]; [| exact Hk].
  rewrite lookup_empty in Hk. destruct Hk as [? ?]. discriminate.
Qed.

Lemma train_key_not_val name : ~ val_key (String.append "train_" name).
Proof. intros [n Hn]. simpl in Hn. discriminate. Qed.

Lemma update_epoch_logs_own (self : SLBaseTFModel) d e :
  epoch_logs self = Some e -> logs_shared self = false ->
  update_epoch_logs d self = (Ok tt, set_epoch_logs (Some (d ∪ e)) self).
Proof.
  intros He Hown. unfold update_epoch_logs, bind, get, modify.
  rewrite He, Hown. reflexivity.
Qed.

Lemma update_epoch_logs_shared (self : SLBaseTFModel) d e :
  epoch_logs self = Some e -> logs_shared self = true ->
  update_epoch_logs d self =
  (Ok tt,
   set_training_logs (Some (d ∪ e)) (set_epoch_logs (Some (d ∪ e)) self)).
Proof.
  intros He Hshared. unfold update_epoch_logs, bind, get, modify.
  rewrite He, Hshared. reflexivity.
Qed.

Lemma validations_spec (vals : list (gmap string PyVal)) :
  forall (self : SLBaseTFModel) e,
    epoch_logs self = Some e -> logs_shared self = false ->
    exists e',
      validations vals self = (Ok tt, set_epoch_logs (Some e') self) /\
      (forall k, ~ val_key k -> e' !! k = e !! k) /\
      (forall k, is_Some (e !! k) -> is_Some (e' !! k)) /\
      (forall vl name, vl ∈ vals -> is_Some (vl !! name) ->
         is_Some (e' !! String.append "val_" name)).
Proof.
  induction vals as [|v vals IH]; intros self e He Hown.
  - exists e. split; [| split; [auto | split; [auto |]]].
    + simpl. unfold ret. f_equal. rewrite <- He. destruct self; reflexivity.
    + intros vl name Hin. inversion Hin.
  - destruct (IH (set_epoch_logs (Some (val_prefixed v ∪ e)) self)
                (val_prefixed v ∪ e) eq_refl Hown)
      as (e' & Hrun & Hkeep & Hdom & Hval).
    exists e'. split; [| split; [| split]].
    + cbn [validations]. unfold bind at 1, on_validation.
      rewrite (update_epoch_logs_own self _ e He Hown), Hrun. reflexivity.
    + intros k Hk. rewrite (Hkeep k Hk).
      apply lookup_union_r, val_prefixed_other, Hk.
    + intros k Hk. apply Hdom, lookup_union_is_Some. right. exact Hk.
    + intros vl name Hin Hname. apply elem_of_cons in Hin as [-> | Hin].
      * apply Hdom, lookup_union_is_Some. left.
        rewrite val_prefixed_lookup. exact Hname.
      * eapply Hval; eassumption.
Qed.

Lemma on_train_batch_end_ok (self : SLBaseTFModel) step cbs :
  is_none step = false -> fuse_callbacks self = Some cbs ->
  on_train_batch_end step self =
  (Ok tt,
   set_fuse_callbacks (Some (cbs ++ [TrainBatchEnd step (logs self)]))
     (set_logs_shared false (set_epoch_logs (logs self) self))).
Proof.
  intros Hstep Hcbs. unfold on_train_batch_end, bind, get, modify, notify.
  rewrite Hstep. simpl. rewrite Hcbs. reflexivity.
Qed.

Lemma on_epoch_end_ok (self : SLBaseTFModel) epoch cbs :
  fuse_callbacks self = Some cbs ->
  on_epoch_end epoch self =
  (Ok (epoch_logs self),
   set_logs_shared true
     (set_training_logs (epoch_logs self)
        (set_fuse_callbacks (Some (cbs ++ [EpochEnd epoch (epoch_logs self)]))
           self))).
Proof.
  intros Hcbs. unfold on_epoch_end, bind, get, modify, notify, ret.
  rewrite Hcbs. reflexivity.
Qed.

(** C4. After [on_train_batch_end(step)], any number of
    [on_validation(v)] calls and [on_epoch_end(epoch)], made on a partition
    whose callbacks are initialised and whose step log was written by
    [fuse_net], the log [on_epoch_end] returns holds every key-value pair
    of the step log that [on_train_batch_end] copied, holds the key
    ['val_' + name] for every key [name] of every validation log, and agrees
    with the copied step log on every key that does not carry the prefix
    ['val_']: a validation key never overwrites such a key. *)
Theorem epoch_log_contents
    (self : SLBaseTFModel) step vals epoch metrics cbs :
  is_none step = false ->
  fuse_callbacks self = Some cbs ->
  logs self = Some (train_logs metrics) ->
  exists final s',
    epoch_tail step vals epoch self = (Ok (Some final), s') /\
    (forall k v, train_logs metrics !! k = Some v -> final !! k = Some v) /\
    (forall vl name, vl ∈ vals -> is_Some (vl !! name) ->
       is_Some (final !! String.append "val_" name)) /\
    (forall k, ~ val_key k -> final !! k = train_logs metrics !! k).
Proof.
  intros Hstep Hcbs Hlogs.
  set (s1 := set_fuse_callbacks
               (Some (cbs ++ [TrainBatchEnd step (logs self)]))
               (set_logs_shared false (set_epoch_logs (logs self) self))).
  destruct (validations_spec vals s1 (train_logs metrics))
    as (final & Hrun & Hkeep & _ & Hval).
  { simpl. exact Hlogs. }
  { reflexivity. }
  exists final. eexists. split; [| split; [| split; [exact Hval | exact Hkeep]]].
  - unfold epoch_tail, bind.
    rewrite (on_train_batch_end_ok self step cbs Hstep Hcbs). fold s1.
    rewrite Hrun. erewrite on_epoch_end_ok by reflexivity. reflexivity.
  - intros k v Hk. rewrite Hkeep, Hk; [reflexivity |].
    destruct (train_logs_keys metrics k) as [name ->]; [eauto |].
    apply train_key_not_val.
Qed.

(** ** Compression in [fuse_net] *)

(** With [compress] set and a compressor that is not a [SparseCompressor],
    [fuse_net] never returns: the name [fuse_sparse_masks] is read unbound. *)
Lemma fuse_net_dense_compressor_raises
    (self : SLBaseTFModel) hidden_features c v :
  compressor self = Some c -> sparse c = false ->
  (fuse_net hidden_features true self).1 <> Ok v.
Proof.
  intros Hc Hsparse Hok.
  destruct (fuse_net hidden_features true self) as [r s'] eqn:E.
  simpl in Hok. subst r. unfold fuse_net in E.
  apply bind_ok_inv in E as (self0 & ? & Hget & E). injection Hget as <- <-.
  apply bind_ok_inv in E as ([] & s1 & Hassert & E).
  assert (s1 = self) as ->.
  { unfold py_assert in Hassert. destruct (bool_decide _); [| discriminate].
    injection Hassert as <-. reflexivity. }
  rewrite Hc, Hsparse in E.
  apply bind_ok_inv in E as (opened & s2 & Hopen & E).
  apply bind_ok_inv in Hopen as (masks & s3 & Hmasks & Hopen).
  injection Hmasks as <- <-.
  apply bind_ok_inv in Hopen as (d & s4 & _ & Hopen).
  injection Hopen as <- <-.
  apply bind_ok_inv in E as (hf & ? & _ & E).
  apply bind_ok_inv in E as (hiddens & ? & _ & E).
  apply bind_ok_inv in E as (gradient & ? & _ & E).
  apply bind_ok_inv in E as (self1 & ? & Hget & E). injection Hget as <- <-.
  apply bind_ok_inv in E as ([] & ? & _ & E).
  apply bind_ok_inv in E as (arrays & ? & _ & E).
  apply bind_ok_inv in E as (packed & ? & _ & E).
  discriminate.
Qed.

(** With a sparsity-aware compressor the masks are taken from the inputs as
    they arrive, before [decompress]; when some were taken, the compressed
    gradients are multiplied by them one by one, after the assertion that
    there are as many masks as gradients. *)
Lemma fuse_net_sparse_remasks
    (self : SLBaseTFModel) hidden_features c m m' masks d items hiddens
    grads arrays packed n :
  model_fuse self = Some m ->
  compressor self = Some c -> sparse c = true ->
  rmap_list nonzero_mask hidden_features = Ok masks -> masks <> [] ->
  decompress c (VTuple hidden_features) = Ok d ->
  py_iter d = Ok items -> flatten_hiddens items = Ok hiddens ->
  fuse_train_step m hiddens (train_y self) (train_sample_weight self) =
    (Ok grads, m') ->
  rmap_list py_numpy grads = Ok arrays ->
  compress c (VList arrays) = Ok packed ->
  py_len packed = Ok n ->
  (fuse_net hidden_features true self).1 =
  if (length masks =? n)%nat then
    rbind (py_iter packed) (fun ds =>
    rbind (rmap_list (fun dm => py_multiply dm.1 dm.2) (zip ds masks))
      (fun masked => Ok (VList masked)))
  else
    Raise (AssertionError "length of fuse_sparse_masks and gradient mismatch").
Proof.
  intros Hm Hc Hsparse Hmasks Hsome Hd Hitems Hflat Hstep Harrays Hpacked Hn.
  unfold fuse_net, bind, get, _fuse_net_internal.
  rewrite Hm. rewrite bool_decide_true by eauto. simpl py_assert. unfold ret at 1.
  rewrite Hc, Hsparse. unfold lift at 1. rewrite Hmasks.
  unfold ret at 1, lift at 1. rewrite Hd. unfold ret at 1, lift at 1.
  rewrite Hitems. unfold lift at 1. rewrite Hflat, Hm, Hstep.
  unfold modify, lift. simpl model_fuse. simpl compressor. rewrite Harrays, Hc, Hpacked.
  destruct masks as [|m0 masks]; [done |]. simpl seq_truthy. cbv iota.
  rewrite Hn. unfold py_assert, ret, raise.
  destruct (length (m0 :: masks) =? n)%nat; [| reflexivity].
  destruct (py_iter packed) as [ds|e]; [| reflexivity]. simpl.
  destruct (rmap_list _ (zip _ _)); reflexivity.
Qed.

(** ** [build_dataset] without features *)

(** C8 (the run that fails). With no feature argument, [build_dataset] does
    not reach the message of its assertion: the second operand of the [or],
    [x[0]], raises [IndexError], and the partition is left as it was. *)
Theorem build_dataset_without_features (self : SLBaseTFModel) a :
  build_dataset [] a self = (Raise IndexError, self).
Proof. reflexivity. Qed.

(** With the single feature [None] the first operand of the [or] is true and
    the assertion passes: the call goes on to [from_tensor_slices(None)],
    and fails with whatever that raises. *)
Lemma build_dataset_none_feature (self : SLBaseTFModel) e :
  from_tensor_slices VNone = Raise e ->
  build_dataset [VNone] default_args self =
  (Raise e, set_has_s_w false (set_has_y false self)).
Proof.
  intros Hnone. unfold build_dataset, bind, lift, modify. simpl.
  rewrite Hnone. reflexivity.
Qed.

End Properties.

(** ** Restarting the iterator of a [ModelPartition] *)

Section TorchProperties.
Context `{TO : TorchLib}.

Lemma get_one_batch_restarts (self : ModelPartition) name iters b rest :
  _dataiter self = IterDict iters -> iters !! name = Some [] ->
  _dataloader self !! name = Some (b :: rest) ->
  get_one_batch name self = (Ok b, set__dataiter (IterObject rest) self).
Proof.
  intros Hit Hname Hdl. unfold get_one_batch, next_named, restart.
  unfold DataLoader, BatchIter in *.
  rewrite Hit, Hname. cbv beta iota. rewrite Hdl. reflexivity.
Qed.

Lemma get_one_batch_after_restart (self : ModelPartition) name it :
  _dataiter self = IterObject it ->
  get_one_batch name self = (Raise TypeError, self).
Proof.
  intros Hit. unfold get_one_batch, next_named. rewrite Hit. reflexivity.
Qed.

End TorchProperties.

(** * Further properties *)

(** ** More reasoning about methods *)

Section MoreMethods.
Context {S : Type}.
Implicit Types P : S -> Prop.

Lemma fails_raise {A} e : fails (@raise S A e).
Proof. intros s. reflexivity. Qed.

Lemma fails_bind {A B} (c : Py S A) (k : A -> Py S B) :
  (forall a, fails (k a)) -> fails (bind c k).
Proof.
  intros Hk s. unfold bind. destruct (c s) as [[a|e] s1]; [apply Hk | reflexivity].
Qed.

Lemma kept_of_stable {A} P (c : Py S A) : stable P c -> kept_on_failure P c.
Proof. intros Hc s Hs _. apply Hc, Hs. Qed.

Lemma kept_of_ok {A} P (c : Py S A) :
  (forall s, is_ok (c s).1 = true) -> kept_on_failure P c.
Proof. intros Hc s _ Hfail. rewrite Hc in Hfail. discriminate. Qed.

Lemma kept_bind {A B} P (c : Py S A) (k : A -> Py S B) :
  stable P c -> (forall a, kept_on_failure P (k a)) ->
  kept_on_failure P (bind c k).
Proof.
  intros Hc Hk s Hs. unfold bind. specialize (Hc s Hs).
  destruct (c s) as [[a|e] s1]; simpl in *; [apply Hk, Hc | intros _; exact Hc].
Qed.

(** The state a call of [bind c k] ends in, by cases on the outcome of
    [c]. *)
Lemma bind_ends {A B} P (c : Py S A) (k : A -> Py S B) s :
  (forall e s1, c s = (Raise e, s1) -> P s1) ->
  (forall a s1, c s = (Ok a, s1) -> P (k a s1).2) ->
  P (bind c k s).2.
Proof.
  intros Hraise Hok. unfold bind.
  destruct (c s) as [[a|e] s1]; [eapply Hok | eapply Hraise]; reflexivity.
Qed.

Lemma bind_assoc {A B C} (c : Py S A) (k : A -> Py S B)
    (k' : B -> Py S C) s :
  bind (bind c k) k' s = bind c (fun a => bind (k a) k') s.
Proof. unfold bind. destruct (c s) as [[a|e] s1]; reflexivity. Qed.

End MoreMethods.

Ltac fails_step :=
  match goal with
  | |- fails (bind _ _) => apply fails_bind; intros ?
  | |- fails (raise _) => apply fails_raise
  | |- fails (let '(_, _) := ?x in _) => destruct x
  end.

Ltac kept_step :=
  lazymatch goal with
  | |- kept_on_failure _ (bind (modify _) (fun _ => ret _)) =>
      apply kept_of_ok; reflexivity
  | |- kept_on_failure _ (bind _ _) =>
      apply kept_bind; [repeat stable_step | intros ?]
  | |- kept_on_failure _ (let '(_, _) := ?x in _) => destruct x
  | |- kept_on_failure _ (if ?b then _ else _) => destruct b
  | |- kept_on_failure _ (raise _) => apply kept_of_stable, stable_raise
  end.

Section BuildDataset.
Context `{FW : Framework}.

(** X1. [build_dataset] with a stage other than [train] and [eval] never
    returns, and neither stage iterator is replaced: the data set is built
    first and then dropped. *)
Theorem build_dataset_illegal_stage (self : SLBaseTFModel) x a :
  stage a <> "train"%string -> stage a <> "eval"%string ->
  is_ok (build_dataset x a self).1 = false /\
  train_set (build_dataset x a self).2 = train_set self /\
  eval_set (build_dataset x a self).2 = eval_set self.
Proof.
  intros Htrain Heval.
  apply String.eqb_neq in Htrain, Heval.
  split.
  - revert self. change (fails (build_dataset x a)).
    unfold build_dataset. rewrite Htrain, Heval. repeat fails_step.
  - enough (Hst : stable (fun s => train_set s = train_set self /\
                                   eval_set s = eval_set self)
                    (build_dataset x a))
      by exact (Hst self (conj eq_refl eq_refl)).
    unfold build_dataset. rewrite Htrain, Heval. repeat stable_step.
Qed.

(** X2. [build_dataset] replaces a stage iterator only as its last step:
    when it raises, both iterators are the ones of before; for the stage
    [train] the [eval] iterator is never touched, and conversely. *)
Theorem build_dataset_installs_on_success (self : SLBaseTFModel) x a :
  (is_ok (build_dataset x a self).1 = false ->
   train_set (build_dataset x a self).2 = train_set self /\
   eval_set (build_dataset x a self).2 = eval_set self) /\
  (stage a = "train"%string ->
   eval_set (build_dataset x a self).2 = eval_set self) /\
  (stage a = "eval"%string ->
   train_set (build_dataset x a self).2 = train_set self).
Proof.
  split; [| split].
  - enough (Hkept : kept_on_failure
                      (fun s => train_set s = train_set self /\
                                eval_set s = eval_set self)
                      (build_dataset x a))
      by exact (Hkept self (conj eq_refl eq_refl)).
    unfold build_dataset. repeat kept_step.
  - intros Hstage.
    enough (Hst : stable (fun s => eval_set s = eval_set self)
                    (build_dataset x a)) by exact (Hst self eq_refl).
    unfold build_dataset. rewrite Hstage. cbn [String.eqb Ascii.eqb Bool.eqb].
    repeat stable_step.
  - intros Hstage.
    enough (Hst : stable (fun s => train_set s = train_set self)
                    (build_dataset x a)) by exact (Hst self eq_refl).
    unfold build_dataset. rewrite Hstage. cbn [String.eqb Ascii.eqb Bool.eqb].
    repeat stable_step.
Qed.

(** X3. [build_dataset] keeps the flags consistent: if [has_s_w] implies
    [has_y] before the call, it does after it, whatever the arguments and
    whether the call returns or raises. *)
Theorem build_dataset_weight_flag_needs_label_flag
    (self : SLBaseTFModel) x a :
  (has_s_w self = true -> has_y self = true) ->
  has_s_w (build_dataset x a self).2 = true ->
  has_y (build_dataset x a self).2 = true.
Proof.
  intros Hinv. unfold build_dataset.
  apply bind_ends.
  { intros e s1 Hcond.
    assert (s1 = self) as ->; [| exact Hinv].
    destruct (0 <? length x)%nat; [discriminate |].
    unfold bind, lift, ret in Hcond.
    destruct (seq_index x 0); simpl in Hcond; congruence. }
  intros cond s1 Hcond.
  assert (s1 = self) as ->.
  { destruct (0 <? length x)%nat; [injection Hcond as _ <-; reflexivity |].
    unfold bind, lift, ret in Hcond.
    destruct (seq_index x 0); simpl in Hcond; congruence. }
  apply bind_ends.
  { intros e s1 Hassert. destruct cond; [discriminate |].
    injection Hassert as _ <-. exact Hinv. }
  intros [] s1 Hassert.
  assert (s1 = self) as ->.
  { destruct cond; [| discriminate]. injection Hassert as <-. reflexivity. }
  apply bind_ends; [discriminate |]. intros [] s1 Hs1. injection Hs1 as <-.
  apply bind_ends; [discriminate |]. intros [] s2 Hs2. injection Hs2 as <-.
  apply bind_ends.
  { intros e s3 Hs3. unfold lift in Hs3. injection Hs3 as _ <-.
    discriminate. }
  intros with_y s3 Hs3. unfold lift in Hs3. injection Hs3 as _ <-.
  destruct with_y.
  - intros _. rewrite bind_assoc.
    apply bind_ends; [discriminate |]. intros [] s4 Hs4. injection Hs4 as <-.
    match goal with |- has_y (?c ?st).2 = true =>
      enough (Hst : stable (fun s0 => has_y s0 = true) c)
        by exact (Hst st eq_refl)
    end.
    repeat stable_step.
  - intros Hflag. exfalso. revert Hflag.
    match goal with |- has_s_w (?c ?st).2 = true -> False =>
      enough (Hst : stable (fun s0 => has_s_w s0 = false) c)
        by (rewrite (Hst st eq_refl); discriminate)
    end.
    repeat stable_step.
Qed.

End BuildDataset.

(** ** [base_forward]: failures and the batch *)

Section BaseForward.
Context `{FW : Framework}.

Lemma seq_index_last_but_one {A} (xs : list A) y w :
  seq_slice_to (xs ++ [y; w]) (-2) = xs /\
  seq_index (xs ++ [y; w]) (-2) = Ok y /\
  seq_index (xs ++ [y; w]) (-1) = Ok w.
Proof.
  unfold seq_slice_to, seq_index. rewrite length_app. cbn [length].
  replace (-2 <? 0) with true by reflexivity.
  replace (-1 <? 0) with true by reflexivity.
  replace (-2 + Z.of_nat (length xs + 2)) with (Z.of_nat (length xs)) by lia.
  replace (-1 + Z.of_nat (length xs + 2)) with (Z.of_nat (S (length xs)))
    by lia.
  rewrite Z.max_l by lia. rewrite !Nat2Z.id.
  replace (0 <=? Z.of_nat (length xs)) with true
    by (symmetry; apply Z.leb_le; lia).
  replace (0 <=? Z.of_nat (S (length xs))) with true
    by (symmetry; apply Z.leb_le; lia).
  replace (Z.of_nat (length xs) <? Z.of_nat (length xs + 2)) with true
    by (symmetry; apply Z.ltb_lt; lia).
  replace (Z.of_nat (S (length xs)) <? Z.of_nat (length xs + 2)) with true
    by (symmetry; apply Z.ltb_lt; lia).
  cbn [andb]. split; [| split].
  - rewrite take_app_length. reflexivity.
  - rewrite lookup_app_r by lia. rewrite Nat.sub_diag. reflexivity.
  - rewrite lookup_app_r by lia.
    replace (S (length xs) - length xs)%nat with 1%nat by lia. reflexivity.
Qed.

Lemma seq_index_last {A} (xs : list A) y :
  seq_slice_to (xs ++ [y]) (-1) = xs /\
  seq_index (xs ++ [y]) (-1) = Ok y.
Proof.
  unfold seq_slice_to, seq_index. rewrite length_app. cbn [length].
  replace (-1 <? 0) with true by reflexivity.
  replace (-1 + Z.of_nat (length xs + 1)) with (Z.of_nat (length xs)) by lia.
  rewrite Z.max_l by lia. rewrite !Nat2Z.id.
  replace (0 <=? Z.of_nat (length xs)) with true
    by (symmetry; apply Z.leb_le; lia).
  replace (Z.of_nat (length xs) <? Z.of_nat (length xs + 1)) with true
    by (symmetry; apply Z.ltb_lt; lia).
  cbn [andb]. split.
  - rewrite take_app_length. reflexivity.
  - rewrite lookup_app_r by lia. rewrite Nat.sub_diag. reflexivity.
Qed.

(** X4. [base_forward] on a stage other than [train] and [eval] raises
    [Exception("invalid stage")] after [init_data] has cleared the stored
    batch: no batch is taken from either iterator, and the tape and the
    embedding are as before. *)
Theorem base_forward_invalid_stage (self : SLBaseTFModel) stage c :
  is_Some (model_base self) ->
  stage <> "train"%string -> stage <> "eval"%string ->
  base_forward stage c self =
    (Raise (Exception "invalid stage"), (init_data self).2) /\
  tape (base_forward stage c self).2 = tape self /\
  h (base_forward stage c self).2 = h self /\
  train_set (base_forward stage c self).2 = train_set self /\
  eval_set (base_forward stage c self).2 = eval_set self.
Proof.
  intros Hm Htrain Heval. apply String.eqb_neq in Htrain, Heval.
  assert (Hrun : base_forward stage c self =
                 (Raise (Exception "invalid stage"), (init_data self).2)).
  { rewrite base_forward_eq, bool_decide_true by done.
    unfold next_batch. rewrite Htrain, Heval. reflexivity. }
  rewrite Hrun. repeat split; reflexivity.
Qed.

(** X5. When the [train] iterator raises (it is exhausted),
    [base_forward] passes the exception on: no tape is opened, the embedding
    and the base network are as before, and only the stored batch has been
    cleared. *)
Theorem base_forward_exhausted (self : SLBaseTFModel) c it e it' :
  is_Some (model_base self) ->
  train_set self = Some it -> iter_next it = (Raise e, it') ->
  base_forward "train" c self =
    (Raise e, set_train_set (Some it') (init_data self).2) /\
  tape (base_forward "train" c self).2 = tape self /\
  h (base_forward "train" c self).2 = h self /\
  model_base (base_forward "train" c self).2 = model_base self.
Proof.
  intros Hm Hset Hnext.
  assert (Hrun : base_forward "train" c self =
                 (Raise e, set_train_set (Some it') (init_data self).2)).
  { rewrite base_forward_eq, bool_decide_true by done.
    unfold next_batch. cbn [String.eqb Ascii.eqb Bool.eqb].
    unfold bind at 1, next_train. simpl train_set. rewrite Hset, Hnext.
    reflexivity. }
  rewrite Hrun. repeat split; reflexivity.
Qed.

(** X6. [base_forward] splits a batch tuple from the right: with labels
    and sample weights the last element is stored as the sample weight, the
    last but one as the label, and the base network is given the elements
    before them (alone, not in a tuple, when there is one); without sample
    weights the last element is the label. *)
Theorem base_forward_splits_batch
    (self : SLBaseTFModel) c it it' xs y w :
  is_Some (model_base self) ->
  train_set self = Some it -> has_y self = true -> label_dp self = None ->
  (has_s_w self = true ->
   iter_next it = (Ok (VTuple (xs ++ [y; w])), it') ->
   base_forward "train" c self =
   embed_batch (strip_singleton (VTuple xs)) c
     (set_train_y y (set_train_sample_weight w
        (set_train_set (Some it') (init_data self).2)))) /\
  (has_s_w self = false ->
   iter_next it = (Ok (VTuple (xs ++ [y])), it') ->
   base_forward "train" c self =
   embed_batch (strip_singleton (VTuple xs)) c
     (set_train_y y (set_train_set (Some it') (init_data self).2))).
Proof.
  intros Hm Hset Hy Hdp. split; intros Hw Hnext.
  - destruct (seq_index_last_but_one xs y w) as (Hslice & Hlabel & Hweight).
    rewrite base_forward_eq, bool_decide_true by done.
    change (train_set (init_data self).2 = Some it) in Hset.
    change (has_y (init_data self).2 = true) in Hy.
    change (has_s_w (init_data self).2 = true) in Hw.
    change (label_dp (init_data self).2 = None) in Hdp.
    revert Hset Hy Hw Hdp. generalize (init_data self).2.
    intros s0 Hset Hy Hw Hdp.
    unfold next_batch. cbn [String.eqb Ascii.eqb Bool.eqb].
    unfold bind, next_train, gets, lift, modify, ret.
    rewrite Hset, Hnext. simpl. rewrite Hy. simpl. rewrite Hw. simpl.
    rewrite Hslice, Hlabel, Hweight. simpl. rewrite Hdp. reflexivity.
  - destruct (seq_index_last xs y) as (Hslice & Hlabel).
    rewrite base_forward_eq, bool_decide_true by done.
    change (train_set (init_data self).2 = Some it) in Hset.
    change (has_y (init_data self).2 = true) in Hy.
    change (has_s_w (init_data self).2 = false) in Hw.
    change (label_dp (init_data self).2 = None) in Hdp.
    revert Hset Hy Hw Hdp. generalize (init_data self).2.
    intros s0 Hset Hy Hw Hdp.
    unfold next_batch. cbn [String.eqb Ascii.eqb Bool.eqb].
    unfold bind, next_train, gets, lift, modify, ret.
    rewrite Hset, Hnext. simpl. rewrite Hy. simpl. rewrite Hw. simpl.
    rewrite Hslice, Hlabel. simpl. rewrite Hdp. reflexivity.
Qed.

Lemma embed_batch_missing_compressor data_x (self : SLBaseTFModel) v s' :
  compressor self = None ->
  embed_batch data_x false self = (Ok v, s') ->
  embed_batch data_x true self =
  (Raise (Exception
     "can not find compressor when compress data in base_forward"), s').
Proof.
  intros Hc. unfold embed_batch, bind, modify, get, lift, ret, raise.
  simpl. rewrite Hc.
  destruct (_base_forward_internal _ data_x) as [hid|e]; [| discriminate].
  intros Hrun. injection Hrun as _ <-. reflexivity.
Qed.

(** X7. [base_forward] with [compress] set and no compressor fails late:
    whenever the call without [compress] succeeds, the call with it raises
    the missing-compressor exception from the same final state, with the
    batch taken, the embedding stored and the tape open. *)
Theorem base_forward_missing_compressor_fails_late
    (self : SLBaseTFModel) stage v s' :
  compressor self = None ->
  base_forward stage false self = (Ok v, s') ->
  base_forward stage true self =
    (Raise (Exception
       "can not find compressor when compress data in base_forward"), s') /\
  h s' = v /\ is_Some (tape s').
Proof.
  intros Hc. rewrite !base_forward_eq.
  destruct (bool_decide (is_Some (model_base self))); [| discriminate].
  assert (Hkeep : compressor (next_batch stage (init_data self).2).2 = None).
  { enough (Hst : stable (fun s => compressor s = None) (next_batch stage))
      by (apply Hst; exact Hc).
    unfold next_batch. repeat stable_step. }
  destruct (next_batch stage _) as [[dx|e] s1]; [| discriminate].
  simpl in Hkeep. intros Hrun. split.
  - eapply embed_batch_missing_compressor; eassumption.
  - unfold embed_batch, bind, modify, get, lift, ret in Hrun.
    destruct (_base_forward_internal _ _) as [hid|e]; [| discriminate].
    injection Hrun as <- <-. split; [reflexivity | eexists; reflexivity].
Qed.

(** X8. A [base_forward] for [train] that returns has taken exactly one
    batch from the [train] iterator, which did yield one, and has left the
    [eval] iterator alone. *)
Theorem base_forward_takes_one_batch (self : SLBaseTFModel) c it v s' :
  train_set self = Some it ->
  base_forward "train" c self = (Ok v, s') ->
  train_set s' = Some (iter_next it).2 /\
  is_ok (iter_next it).1 = true /\
  eval_set s' = eval_set self.
Proof.
  intros Hset Hrun.
  assert (Heval : eval_set s' = eval_set self).
  { change s' with (Ok v, s').2. rewrite <- Hrun.
    enough (Hst : stable (fun s => eval_set s = eval_set self)
                    (base_forward "train" c)) by exact (Hst self eq_refl).
    unfold base_forward, init_data, next_batch, embed_batch.
    cbn [String.eqb Ascii.eqb Bool.eqb]. repeat stable_step. }
  rewrite base_forward_eq in Hrun.
  destruct (bool_decide (is_Some (model_base self))); [| discriminate].
  change (train_set (init_data self).2 = Some it) in Hset.
  revert Hset Hrun. generalize (init_data self).2. intros s0 Hset Hrun.
  destruct (next_batch "train" s0) as [[dx|e] s1] eqn:Hnext; [| discriminate].
  unfold next_batch in Hnext. cbn [String.eqb Ascii.eqb Bool.eqb] in Hnext.
  apply bind_ok_inv in Hnext as (b & s2 & Hb & Hrest).
  unfold next_train in Hb. rewrite Hset in Hb.
  destruct (iter_next it) as [[b'|e] it']; [| discriminate].
  injection Hb as <- <-.
  assert (Ht1 : train_set s1 = Some it').
  { change s1 with (Ok dx, s1).2. rewrite <- Hrest.
    match goal with |- train_set (?k ?st).2 = _ =>
      enough (Hst : stable (fun s => train_set s = Some it') k)
        by exact (Hst st eq_refl)
    end.
    repeat stable_step. }
  assert (Ht : train_set s' = Some it').
  { change s' with (Ok v, s').2. rewrite <- Hrun.
    apply (stable_embed_batch (fun s => train_set s = Some it'));
      [auto | auto | exact Ht1]. }
  split; [exact Ht | split; [reflexivity | exact Heval]].
Qed.

End BaseForward.

(** ** [base_backward]: the tape is used once *)

Section BaseBackward.
Context `{FW : Framework}.

Lemma base_backward_without_tape (self : SLBaseTFModel) gradient :
  tape self = None ->
  base_backward gradient false self = (Raise AttributeError, self).
Proof.
  intros Htape. unfold base_backward, bind, get, ret. simpl.
  rewrite Htape. reflexivity.
Qed.

Lemma base_backward_ok_state (self : SLBaseTFModel) gradient c s' :
  base_backward gradient c self = (Ok tt, s') -> tape s' = None.
Proof.
  unfold base_backward. intros Hrun.
  do 10 (apply bind_ok_inv in Hrun as (? & ? & _ & Hrun)).
  apply bind_ok_inv in Hrun as ([] & s1 & Hclear & Hrun).
  injection Hclear as <-. injection Hrun as <-. reflexivity.
Qed.

(** X9. The tape is used once: after a [base_backward] that returned, a
    second [base_backward] raises [AttributeError] at [with self.tape] and
    leaves the partition as it is. *)
Theorem base_backward_tape_single_use
    (self : SLBaseTFModel) gradient c gradient' s' :
  base_backward gradient c self = (Ok tt, s') ->
  base_backward gradient' false s' = (Raise AttributeError, s').
Proof.
  intros Hrun. apply base_backward_without_tape.
  eapply base_backward_ok_state, Hrun.
Qed.

Lemma stable_apply_fuse_op (P : SLBaseTFModel -> Prop) x y :
  (forall s v, P s -> P (set_tape v s)) -> stable P (apply_fuse_op x y).
Proof. intros Htape s Hs. apply Htape, Hs. Qed.

Lemma stable_pair_positionally (P : SLBaseTFModel -> Prop) gradient idx :
  (forall s v, P s -> P (set_tape v s)) ->
  stable P (pair_positionally gradient idx).
Proof.
  intros Htape. induction idx as [|i idx IH]; cbn [pair_positionally].
  - apply stable_ret.
  - apply stable_bind; [apply stable_get | intros self].
    apply stable_bind; [apply stable_lift | intros x].
    apply stable_bind; [apply stable_lift | intros y].
    apply stable_bind; [apply stable_apply_fuse_op, Htape | intros r].
    apply stable_bind; [exact IH | intros rest]. apply stable_ret.
Qed.

Lemma stable_base_backward (P : SLBaseTFModel -> Prop) gradient c :
  (forall s v, P s -> P (set_tape v s)) ->
  (forall s v, P s -> P (set_h v s)) ->
  (forall s v, P s -> P (set_model_base v s)) ->
  stable P (base_backward gradient c).
Proof.
  intros Htape Hh Hbase. unfold base_backward.
  apply stable_bind; [apply stable_get | intros self].
  apply stable_bind; [repeat stable_step | intros g].
  apply stable_bind; [repeat stable_step | intros _].
  apply stable_bind.
  { unfold reattach.
    apply stable_bind; [apply stable_get | intros self'].
    apply stable_bind; [apply stable_lift | intros n_g].
    apply stable_bind; [apply stable_lift | intros n_h].
    destruct (n_g =? n_h)%nat.
    - apply stable_pair_positionally, Htape.
    - apply stable_bind; [apply stable_lift | intros g0].
      apply stable_bind; [apply stable_apply_fuse_op, Htape | intros r].
      apply stable_ret. }
  intros return_hiddens.
  apply stable_bind; [apply stable_get | intros self'].
  apply stable_bind; [apply stable_lift | intros m].
  apply stable_bind; [apply stable_lift | intros t].
  apply stable_bind; [apply stable_lift | intros gradients].
  apply stable_bind; [apply stable_lift | intros m'].
  apply stable_bind; [apply stable_modify; auto | intros _].
  apply stable_bind; [apply stable_modify; auto | intros _].
  apply stable_modify; auto.
Qed.

(** X10. [base_backward] assigns only the base network, the tape and the
    embedding: every other field (stored labels and sample weights, both
    iterators, the flags, the logs, the fuse network) is as before, whether
    it returns or raises. *)
Theorem base_backward_frame (self : SLBaseTFModel) gradient c :
  beside_base (base_backward gradient c self).2 = beside_base self.
Proof.
  apply (stable_base_backward (fun s => beside_base s = beside_base self));
    [| | | reflexivity]; intros s v Hs; exact Hs.
Qed.

(** X11. When the length of the gradient list is not the length of the
    stored embedding, [base_backward] reads the first gradient only: it is
    attached to the whole embedding in one application of [fuse_op], whose
    result is the one target of [tape.gradient], and the other gradients
    have no part in the call.  When the embedding is a list of two tensors
    or more, [tape.gradient] then raises [TypeError], as in C3, with the
    application recorded on the open tape.  For an empty gradient list the
    index [gradient[0]] raises [IndexError] and the partition, with its open
    tape, is unchanged. *)
Theorem base_backward_length_mismatch (self : SLBaseTFModel) n :
  py_len (h self) = Ok n ->
  (forall g gs t m,
     tape self = Some t -> model_base self = Some m ->
     length (g :: gs) <> n ->
     base_backward (VList (g :: gs)) false self =
     backward_pass (record_fuse_ops [(h self, g)] t) [h self] m self) /\
  (forall hs g gs t m,
     tape self = Some t -> model_base self = Some m ->
     h self = VList hs -> (2 <= length hs)%nat ->
     length (g :: gs) <> length hs -> one_upstream_per_output ->
     base_backward (VList (g :: gs)) false self =
     (Raise TypeError,
      set_tape (Some (record_fuse_ops [(VList hs, g)] t)) self)) /\
  (n <> 0%nat -> is_Some (tape self) ->
   base_backward (VList []) false self = (Raise IndexError, self)).
Proof.
  intros Hn. split; [| split].
  - intros g gs t m Htape Hm Hlen.
    exact (base_backward_first_gradient self g gs t m n Htape Hm Hn Hlen).
  - intros hs g gs t m Htape Hm Hh Hwide Hlen Hconv.
    exact (base_backward_wide_raises self hs g gs t m
             Htape Hm Hh Hwide Hlen Hconv).
  - intros Hne Htape.
    assert (Hre : reattach (VList []) self = (Raise IndexError, self)).
    { unfold reattach, bind, get, lift. rewrite Hn. cbn [py_len length].
      destruct (Nat.eqb_spec 0 n) as [Heq|_]; [congruence |]. reflexivity. }
    unfold base_backward, bind at 1, get.
    unfold bind at 1, ret. unfold bind at 1.
    rewrite bool_decide_true by exact Htape.
    unfold bind at 1. rewrite Hre. reflexivity.
Qed.

End BaseBackward.

(** ** [fuse_net]: what it changes and what it returns *)

Section FuseNet.
Context `{FW : Framework}.

Lemma rmap_list_length {A B} (f : A -> result B) l r :
  rmap_list f l = Ok r -> length r = length l.
Proof.
  revert r. induction l as [|a l IH]; intros r Hr; simpl in Hr.
  - injection Hr as <-. reflexivity.
  - destruct (f a) as [b|e]; [| discriminate]. simpl in Hr.
    destruct (rmap_list f l) as [bs|e]; [| discriminate].
    injection Hr as <-. simpl. rewrite (IH bs eq_refl). reflexivity.
Qed.

(** X12. The hiddens that [fuse_net], [evaluate] and [predict] give to
    the fuse network: a party whose embedding is a list of n tensors
    contributes n entries, any other party one, in order. *)
Theorem flatten_hiddens_length (hidden_features ts : list PyVal) :
  flatten_hiddens hidden_features = Ok ts ->
  length ts = sum_list (map width hidden_features).
Proof.
  revert ts. induction hidden_features as [|hf rest IH]; intros ts Hts.
  - injection Hts as <-. reflexivity.
  - cbn [flatten_hiddens] in Hts.
    destruct (match hf with
              | VList his => rmap_list convert_to_tensor his
              | _ => rbind (convert_to_tensor hf) (fun t => Ok [t])
              end) as [here|e] eqn:Hhere; [| discriminate].
    simpl in Hts.
    destruct (flatten_hiddens rest) as [there|e]; [| discriminate].
    injection Hts as <-. rewrite length_app, (IH there eq_refl).
    cbn [map sum_list sum_list_with]. f_equal.
    destruct hf; simpl in Hhere |- *;
      try (destruct (convert_to_tensor _); [| discriminate];
           injection Hhere as <-; reflexivity).
    apply rmap_list_length in Hhere. exact Hhere.
Qed.

Lemma train_logs_snoc (metrics : list (string * PyVal)) n v :
  train_logs (metrics ++ [(n, v)]) =
  <[String.append "train_" n := v]> (train_logs metrics).
Proof. unfold train_logs. rewrite foldl_snoc. reflexivity. Qed.

(** X13. The keys of the step log that [fuse_net] writes are exactly the
    names of the metrics with the prefix ['train_']. *)
Theorem train_logs_domain (metrics : list (string * PyVal)) k :
  is_Some (train_logs metrics !! k) <->
  exists n, n ∈ metrics.*1 /\ k = String.append "train_" n.
Proof.
  induction metrics as [|[n v] metrics IH] using rev_ind.
  - unfold train_logs. simpl. rewrite lookup_empty. split.
    + intros [? ?]. discriminate.
    + intros (n & Hn & _). inversion Hn.
  - rewrite train_logs_snoc, fmap_app. simpl.
    destruct (decide (String.append "train_" n = k)) as [<- | Hne].
    + rewrite lookup_insert_eq. split; [| eauto].
      intros _. exists n. split; [| reflexivity].
      apply elem_of_app. right. apply list_elem_of_here.
    + rewrite lookup_insert_ne by exact Hne. rewrite IH. split.
      * intros (n' & Hn' & ->). exists n'. split; [| reflexivity].
        apply elem_of_app. left. exact Hn'.
      * intros (n' & Hn' & ->). exists n'. split; [| reflexivity].
        apply elem_of_app in Hn' as [Hn' | Hn']; [exact Hn' |].
        apply list_elem_of_singleton in Hn' as ->. contradiction.
Qed.

(** X14. When two metrics have the same name, the step log holds the
    value of the last one. *)
Theorem train_logs_last_wins (before after : list (string * PyVal)) n v :
  n ∉ after.*1 ->
  train_logs (before ++ (n, v) :: after) !! String.append "train_" n = Some v.
Proof.
  induction after as [|[n' v'] after IH] using rev_ind; intros Hn.
  - rewrite train_logs_snoc. apply lookup_insert_eq.
  - rewrite fmap_app in Hn. simpl in Hn.
    replace (before ++ (n, v) :: after ++ [(n', v')])
      with ((before ++ (n, v) :: after) ++ [(n', v')])
      by (rewrite <- app_assoc; reflexivity).
    rewrite train_logs_snoc.
    assert (n' <> n) as Hne.
    { intros ->. apply Hn, elem_of_app. right. apply list_elem_of_here. }
    rewrite lookup_insert_ne.
    + apply IH. intros Hin. apply Hn, elem_of_app. left. exact Hin.
    + intros Heq. apply Hne. by simplify_eq/=.
Qed.

Lemma stable__fuse_net_internal (P : SLBaseTFModel -> Prop) hiddens :
  (forall s v, P s -> P (set_model_fuse v s)) ->
  stable P (_fuse_net_internal hiddens).
Proof.
  intros Hfuse s Hs. unfold _fuse_net_internal.
  destruct (model_fuse s) as [m|]; [| exact Hs].
  destruct (fuse_train_step m hiddens _ _) as [r m']. apply Hfuse, Hs.
Qed.

Lemma stable_fuse_net (P : SLBaseTFModel -> Prop) hidden_features c :
  (forall s v, P s -> P (set_model_fuse v s)) ->
  (forall s v, P s -> P (set_logs v s)) ->
  stable P (fuse_net hidden_features c).
Proof.
  intros Hfuse Hlogs. unfold fuse_net.
  apply stable_bind; [apply stable_get | intros self].
  apply stable_bind; [apply stable_assert | intros _].
  apply stable_bind; [repeat stable_step | intros [masks d]].
  apply stable_bind; [apply stable_lift | intros items].
  apply stable_bind; [apply stable_lift | intros hiddens].
  apply stable_bind; [apply stable__fuse_net_internal, Hfuse | intros g].
  apply stable_bind; [apply stable_get | intros self'].
  apply stable_bind; [apply stable_modify; auto | intros _].
  repeat stable_step.
Qed.

(** X15. [fuse_net] assigns only the fuse network and the step log: the
    epoch log, the training log, the tape, the embedding, the stored labels
    and everything else are as before, whether it returns or raises. *)
Theorem fuse_net_frame (self : SLBaseTFModel) hidden_features c :
  beside_fuse (fuse_net hidden_features c self).2 = beside_fuse self.
Proof.
  apply (stable_fuse_net (fun s => beside_fuse s = beside_fuse self));
    [| | reflexivity]; intros s v Hs; exact Hs.
Qed.

(** X16. Without [compress], [fuse_net] runs one step of the fuse
    network on the flattened hiddens with the stored [train] label and
    sample weight, returns the gradients of that step as they are, and
    replaces the step log by the metrics of the network after the step. *)
Theorem fuse_net_returns_gradients
    (self : SLBaseTFModel) hidden_features m hiddens grads m' :
  model_fuse self = Some m ->
  flatten_hiddens hidden_features = Ok hiddens ->
  fuse_train_step m hiddens (train_y self) (train_sample_weight self) =
    (Ok grads, m') ->
  fuse_net hidden_features false self =
  (Ok (VList grads),
   set_logs (Some (train_logs (model_metrics m')))
     (set_model_fuse (Some m') self)).
Proof.
  intros Hm Hflat Hstep.
  unfold fuse_net, bind, get, _fuse_net_internal, lift, ret, modify.
  rewrite Hm. rewrite bool_decide_true by eauto. simpl.
  rewrite Hflat, Hm, Hstep. reflexivity.
Qed.

(** X17. With [compress] set and a compressor that is not sparsity-aware,
    [fuse_net] raises [UnboundLocalError] only after the work is done: the
    fuse network has taken its optimizer step and the step log has been
    replaced. *)
Theorem fuse_net_crashes_after_training
    (self : SLBaseTFModel) hidden_features c m d items hiddens grads m'
    arrays packed :
  model_fuse self = Some m ->
  compressor self = Some c -> sparse c = false ->
  decompress c (VTuple hidden_features) = Ok d ->
  py_iter d = Ok items -> flatten_hiddens items = Ok hiddens ->
  fuse_train_step m hiddens (train_y self) (train_sample_weight self) =
    (Ok grads, m') ->
  rmap_list py_numpy grads = Ok arrays ->
  compress c (VList arrays) = Ok packed ->
  fuse_net hidden_features true self =
  (Raise (UnboundLocalError "fuse_sparse_masks"),
   set_logs (Some (train_logs (model_metrics m')))
     (set_model_fuse (Some m') self)).
Proof.
  intros Hm Hc Hsparse Hd Hitems Hflat Hstep Harrays Hpacked.
  unfold fuse_net, bind, get, _fuse_net_internal.
  rewrite Hm. rewrite bool_decide_true by eauto. simpl py_assert.
  unfold ret at 1. rewrite Hc, Hsparse.
  unfold ret at 1, lift at 1. rewrite Hd. unfold ret at 1, lift at 1.
  rewrite Hitems. unfold lift at 1. rewrite Hflat, Hm, Hstep.
  unfold modify, lift. simpl model_fuse. simpl compressor.
  rewrite Harrays, Hc, Hpacked. reflexivity.
Qed.

End FuseNet.

(** ** The life cycle: validation values and the next epoch *)

Section LifeCycle.
Context `{FW : Framework}.

(** X18. [on_validation] changes the dict of the epoch log in place: every
    value of the validation log is stored under ['val_' + name], over a
    value that an earlier validation stored there; the other ['val_'] keys
    and all keys without the prefix keep their values.  The training log
    shows the same change when it is that dict and is left alone otherwise.
    It is that dict after [on_epoch_end], which also returned it: an
    [on_validation] that follows [on_epoch_end] changes the training log
    too. *)
Theorem on_validation_overwrites (self : SLBaseTFModel) e val_logs :
  epoch_logs self = Some e ->
  exists e',
    on_validation val_logs self =
      (Ok tt,
       if logs_shared self
       then set_training_logs (Some e') (set_epoch_logs (Some e') self)
       else set_epoch_logs (Some e') self) /\
    (forall epoch cbs,
       fuse_callbacks self = Some cbs ->
       exists s1 s2,
         on_epoch_end epoch self = (Ok (Some e), s1) /\
         training_logs s1 = Some e /\
         on_validation val_logs s1 = (Ok tt, s2) /\
         epoch_logs s2 = Some e' /\ training_logs s2 = Some e') /\
    (forall name x, val_logs !! name = Some x ->
       e' !! String.append "val_" name = Some x) /\
    (forall name, val_logs !! name = None ->
       e' !! String.append "val_" name = e !! String.append "val_" name) /\
    (forall k, ~ val_key k -> e' !! k = e !! k).
Proof.
  intros He. exists (val_prefixed val_logs ∪ e).
  split; [| split; [| split; [| split]]].
  - unfold on_validation.
    destruct (logs_shared self) eqn:Hs.
    + apply update_epoch_logs_shared; assumption.
    + apply update_epoch_logs_own; assumption.
  - intros epoch cbs Hcbs. eexists _, _.
    rewrite (on_epoch_end_ok self epoch cbs Hcbs), He.
    split; [reflexivity |]. split; [reflexivity |].
    unfold on_validation.
    erewrite update_epoch_logs_shared; [| simpl; exact He | reflexivity].
    split; [reflexivity |]. split; reflexivity.
  - intros name x Hx. apply lookup_union_Some_l.
    rewrite val_prefixed_lookup. exact Hx.
  - intros name Hname. apply lookup_union_r.
    rewrite val_prefixed_lookup. exact Hname.
  - intros k Hk. apply lookup_union_r, val_prefixed_other, Hk.
Qed.

(** X19. [on_validation] is idempotent: the same validation log merged
    twice leaves the partition as merging it once. *)
Theorem on_validation_idempotent (self : SLBaseTFModel) e val_logs :
  epoch_logs self = Some e ->
  (do* on_validation val_logs in on_validation val_logs) self =
  on_validation val_logs self.
Proof.
  intros He. unfold on_validation, bind at 1.
  destruct (logs_shared self) eqn:Hs.
  - rewrite (update_epoch_logs_shared self _ e He Hs).
    erewrite update_epoch_logs_shared; [| reflexivity | exact Hs].
    rewrite (assoc_L (∪)), (idemp_L (∪)). reflexivity.
  - rewrite (update_epoch_logs_own self _ e He Hs).
    erewrite update_epoch_logs_own; [| reflexivity | exact Hs].
    rewrite (assoc_L (∪)), (idemp_L (∪)). reflexivity.
Qed.

(** X20. Failures of the life cycle: [on_train_batch_end] without a step
    raises before any change; without initialised callbacks it raises after
    the epoch log has been replaced by a copy of the step log;
    [on_validation] without an epoch log and [on_epoch_end] without
    callbacks raise and change nothing. *)
Theorem life_cycle_failures (self : SLBaseTFModel) step epoch val_logs :
  on_train_batch_end VNone self =
    (Raise (AssertionError "Step cannot be none"), self) /\
  (fuse_callbacks self = None -> is_none step = false ->
   on_train_batch_end step self =
     (Raise AttributeError,
      set_logs_shared false (set_epoch_logs (logs self) self))) /\
  (epoch_logs self = None ->
   on_validation val_logs self = (Raise AttributeError, self)) /\
  (fuse_callbacks self = None ->
   on_epoch_end epoch self = (Raise AttributeError, self)).
Proof.
  split; [reflexivity |]. split; [| split].
  - intros Hcbs Hstep.
    unfold on_train_batch_end, bind, get, modify, notify.
    rewrite Hstep. simpl. rewrite Hcbs. reflexivity.
  - intros He. unfold on_validation, update_epoch_logs, bind, get.
    rewrite He. reflexivity.
  - intros Hcbs. unfold on_epoch_end, bind, get, notify.
    rewrite Hcbs. reflexivity.
Qed.

(** X21. The epoch log does not carry over: after an epoch has ended,
    the next [on_train_batch_end] makes the epoch log a copy of the step log
    again, without the validation entries, while the training log still
    holds the log that [on_epoch_end] returned. *)
Theorem next_epoch_starts_from_step_log
    (self : SLBaseTFModel) step vals epoch step' l cbs :
  is_none step = false -> is_none step' = false ->
  fuse_callbacks self = Some cbs -> logs self = Some l ->
  exists final s1 s2,
    epoch_tail step vals epoch self = (Ok (Some final), s1) /\
    on_train_batch_end step' s1 = (Ok tt, s2) /\
    epoch_logs s2 = Some l /\ training_logs s2 = Some final.
Proof.
  intros Hstep Hstep' Hcbs Hlogs.
  set (s0 := set_fuse_callbacks
               (Some (cbs ++ [TrainBatchEnd step (logs self)]))
               (set_logs_shared false (set_epoch_logs (logs self) self))).
  destruct (validations_spec vals s0 l) as (final & Hrun & _);
    [exact Hlogs | reflexivity |].
  exists final.
  assert (Htail : epoch_tail step vals epoch self =
    (Ok (Some final),
     set_logs_shared true
       (set_training_logs (Some final)
          (set_fuse_callbacks
             (Some ((cbs ++ [TrainBatchEnd step (logs self)]) ++
                    [EpochEnd epoch (Some final)]))
             (set_epoch_logs (Some final) s0))))).
  { unfold epoch_tail, bind.
    rewrite (on_train_batch_end_ok self step cbs Hstep Hcbs). fold s0.
    rewrite Hrun. erewrite on_epoch_end_ok by reflexivity. reflexivity. }
  eexists _, _. split; [exact Htail |]. split.
  - erewrite on_train_batch_end_ok; [reflexivity | exact Hstep' |].
    reflexivity.
  - split; [exact Hlogs | reflexivity].
Qed.

End LifeCycle.

(** ** Sample weights, [evaluate] and [predict] *)

Section Evaluate.
Context `{INF : Inference}.

Lemma next_batch_without_weights stage (self : SLBaseTFModel) :
  has_s_w self = false ->
  train_sample_weight self = VNone -> eval_sample_weight self = VNone ->
  train_sample_weight (next_batch stage self).2 = VNone /\
  eval_sample_weight (next_batch stage self).2 = VNone.
Proof.
  intros Hw Ht He.
  unfold next_batch, bind, gets, next_train, next_eval, lift, modify, ret.
  destruct (String.eqb stage "train").
  - destruct (train_set self) as [it|]; [| simpl; auto].
    destruct (iter_next it) as [[b|e] it']; simpl; [| auto].
    destruct (has_y self); simpl; [| auto]. rewrite Hw.
    destruct (py_slice_to b (-1)); simpl; [| auto].
    destruct (py_getitem b (-1)); simpl; [| auto].
    destruct (stored_label _ _); simpl; auto.
  - destruct (String.eqb stage "eval"); [| simpl; auto].
    destruct (eval_set self) as [it|]; [| simpl; auto].
    destruct (iter_next it) as [[b|e] it']; simpl; [| auto].
    destruct (has_y self); simpl; [| auto]. rewrite Hw.
    destruct (py_slice_to b (-1)); simpl; [| auto].
    destruct (py_getitem b (-1)); simpl; [| auto].
    destruct (stored_label _ _); simpl; auto.
Qed.

Lemma base_forward_without_weights stage c (self : SLBaseTFModel) :
  is_Some (model_base self) -> has_s_w self = false ->
  train_sample_weight (base_forward stage c self).2 = VNone /\
  eval_sample_weight (base_forward stage c self).2 = VNone.
Proof.
  intros Hm Hw. rewrite base_forward_eq, bool_decide_true by done.
  pose proof (next_batch_without_weights stage (init_data self).2 Hw
                eq_refl eq_refl) as Hnext.
  destruct (next_batch stage _) as [[dx|e] s1]; simpl in *; [| exact Hnext].
  apply (stable_embed_batch
           (fun s => train_sample_weight s = VNone /\
                     eval_sample_weight s = VNone)); auto.
Qed.

(** X22. A sample weight given with [set_sample_weight] does not survive
    a [base_forward]: on a partition whose data sets carry no sample weight,
    both stored sample weights are [None] after [base_forward], whatever the
    stage. *)
Theorem set_sample_weight_erased_by_base_forward
    (self : SLBaseTFModel) w stage stage' c :
  is_Some (model_base self) -> has_s_w self = false ->
  stage = "train"%string \/ stage = "eval"%string ->
  exists s1,
    set_sample_weight w stage self = (Ok tt, s1) /\
    (stage = "train"%string -> train_sample_weight s1 = w) /\
    (stage = "eval"%string -> eval_sample_weight s1 = w) /\
    train_sample_weight (base_forward stage' c s1).2 = VNone /\
    eval_sample_weight (base_forward stage' c s1).2 = VNone.
Proof.
  intros Hm Hw [-> | ->].
  - eexists. split; [reflexivity |]. split; [reflexivity |].
    split; [discriminate |]. apply base_forward_without_weights; assumption.
  - eexists. split; [reflexivity |]. split; [discriminate |].
    split; [reflexivity |]. apply base_forward_without_weights; assumption.
Qed.

(** X23. Compression is transparent to [evaluate] and [predict]: with
    [compress] set they do what they do without it on the decompressed
    hidden features. *)
Theorem evaluate_compression_transparent
    (self : SLBaseTFModel) hidden_features c plain :
  compressor self = Some c ->
  decompress c (VTuple hidden_features) = Ok (VTuple plain) ->
  evaluate hidden_features true self = evaluate plain false self /\
  predict hidden_features true self = predict plain false self.
Proof.
  intros Hc Hd.
  unfold evaluate, predict, received, bind, get, lift, ret, py_assert.
  destruct (bool_decide (is_Some (model_fuse self))); [| split; reflexivity].
  simpl. rewrite Hc, Hd. split; reflexivity.
Qed.

Lemma stable_evaluate (P : SLBaseTFModel -> Prop) hidden_features c :
  (forall s v, P s -> P (set_model_fuse v s)) ->
  stable P (evaluate hidden_features c).
Proof.
  intros Hfuse. unfold evaluate, received.
  apply stable_bind; [apply stable_get | intros self].
  apply stable_bind; [apply stable_assert | intros _].
  apply stable_bind; [repeat stable_step | intros d].
  apply stable_bind; [apply stable_lift | intros items].
  apply stable_bind; [apply stable_lift | intros hiddens].
  intros s Hs. unfold _evaluate_internal.
  destruct (model_fuse s) as [m|]; [| exact Hs].
  destruct (evaluate_step m hiddens _ _) as [r m']. apply Hfuse, Hs.
Qed.

(** X24. [evaluate] changes nothing but the fuse network (its metric
    state): the step log, the epoch log and the stored labels are as
    before, whether it returns or raises. *)
Theorem evaluate_frame (self : SLBaseTFModel) hidden_features c :
  set_model_fuse None (evaluate hidden_features c self).2 =
  set_model_fuse None self.
Proof.
  apply (stable_evaluate
           (fun s => set_model_fuse None s = set_model_fuse None self));
    [intros s v Hs; exact Hs | reflexivity].
Qed.

End Evaluate.

(** ** [ModelPartition]: batches in order *)

Section TorchBatches.
Context `{TO : TorchLib}.

Lemma get_batches_in_order (name : string) (m : TorchModule)
    (loaders : gmap string DataLoader) (bs : list Batch) :
  forall (iters : gmap string BatchIter),
    iters !! name = Some bs ->
    get_batches (replicate (length bs) name)
      {| model := m; _dataloader := loaders; _dataiter := IterDict iters |} =
    (map Ok bs,
     {| model := m; _dataloader := loaders;
        _dataiter := IterDict (if bs is [] then iters
                               else <[name := []]> iters) |}).
Proof.
  unfold DataLoader, BatchIter in *.
  induction bs as [|b bs IH]; intros iters Hname; [reflexivity |].
  cbn [length replicate get_batches].
  unfold get_one_batch, next_named. cbn [_dataiter].
  unfold DataLoader, BatchIter in *. rewrite Hname.
  unfold set__dataiter. cbn [model _dataloader].
  rewrite (IH (<[name := bs]> iters)) by apply lookup_insert_eq.
  cbn [map]. f_equal. f_equal. f_equal.
  destruct bs; [reflexivity |]. apply insert_insert_eq.
Qed.

(** X25. On a fresh [ModelPartition], the first calls of
    [get_one_batch] for a stage return the batches of its loader in order,
    and the call after the last batch returns the first batch again. *)
Theorem get_one_batch_in_order_then_restart
    (m : TorchModule) (loaders : gmap string DataLoader) name b bs :
  loaders !! name = Some (b :: bs) ->
  (get_batches (replicate (S (length (b :: bs))) name)
     (partition_init m loaders)).1 =
  map Ok (b :: bs) ++ [Ok b].
Proof.
  intros Hname. unfold partition_init.
  replace (S (length (b :: bs))) with (length (b :: bs) + 1)%nat by lia.
  rewrite replicate_add. cbn [replicate].
  assert (Happ : forall names names' (self : ModelPartition),
            (get_batches (names ++ names') self).1 =
            (get_batches names self).1 ++
            (get_batches names' (get_batches names self).2).1).
  { induction names as [|n names IH]; intros names' self; [reflexivity |].
    cbn [app get_batches].
    destruct (get_one_batch n self) as [r s1].
    specialize (IH names' s1).
    destruct (get_batches (names ++ names') s1) as [rs s2].
    destruct (get_batches names s1) as [rs' s2']. simpl in *.
    rewrite IH. reflexivity. }
  rewrite Happ, (get_batches_in_order name m loaders (b :: bs) loaders Hname).
  cbn [fst snd]. f_equal.
  cbn [get_batches]. unfold get_one_batch, next_named, restart.
  cbn [_dataiter]. unfold DataLoader, BatchIter in *.
  rewrite lookup_insert_eq. cbn [_dataloader]. rewrite Hname. reflexivity.
Qed.

(** X26. Before any restart, taking a batch for one stage does not move
    the iterator of another: two calls for different stages give the same
    batches and the same final partition in either order. *)
Theorem get_one_batch_stages_commute
    (self : ModelPartition) iters n1 n2 b1 r1 b2 r2 :
  _dataiter self = IterDict iters -> n1 <> n2 ->
  iters !! n1 = Some (b1 :: r1) -> iters !! n2 = Some (b2 :: r2) ->
  exists s',
    get_batches [n1; n2] self = ([Ok b1; Ok b2], s') /\
    get_batches [n2; n1] self = ([Ok b2; Ok b1], s').
Proof.
  unfold DataLoader, BatchIter in *.
  intros Hit Hne H1 H2. eexists. split.
  - cbn [get_batches]. unfold get_one_batch, next_named.
    unfold DataLoader, BatchIter in *. rewrite Hit, H1. cbn [_dataiter set__dataiter].
    rewrite lookup_insert_ne by exact Hne. rewrite H2. reflexivity.
  - cbn [get_batches]. unfold get_one_batch, next_named.
    unfold DataLoader, BatchIter in *. rewrite Hit, H2. cbn [_dataiter set__dataiter].
    rewrite lookup_insert_ne by (intros Heq; apply Hne; symmetry; exact Heq).
    rewrite H1. cbn [model _dataloader].
    rewrite (insert_insert_ne iters n1 n2) by exact Hne. reflexivity.
Qed.

(** X27. On a fresh [ModelPartition], [get_one_batch] for a stage
    without loader raises [KeyError] and changes nothing; for a loader
    without batches the exhaustion is passed on as [StopIteration], and the
    next call, for any stage, raises [TypeError]. *)
Theorem get_one_batch_missing_or_empty
    (m : TorchModule) (loaders : gmap string DataLoader) name name' :
  (loaders !! name = None ->
   get_one_batch name (partition_init m loaders) =
   (Raise KeyError, partition_init m loaders)) /\
  (loaders !! name = Some [] ->
   (get_batches [name; name'] (partition_init m loaders)).1 =
   [Raise StopIteration; Raise TypeError]).
Proof.
  unfold DataLoader, BatchIter in *. split; intros Hname.
  - unfold get_one_batch, next_named, partition_init. cbn [_dataiter].
    unfold DataLoader, BatchIter in *. rewrite Hname. reflexivity.
  - cbn [get_batches]. unfold get_one_batch, next_named, restart, partition_init.
    cbn [_dataiter]. unfold DataLoader, BatchIter in *.
    rewrite Hname. cbn [_dataloader]. rewrite Hname. reflexivity.
Qed.

End TorchBatches.

(** ** Gradients of a module *)

Section ModuleGradients.
Context `{TT : TorchTensors}.

(** Two parameters with the same value and the same gradient are equal. *)
Lemma torch_param_eq (p q : TorchParam) :
  data p = data q -> p_grad p = p_grad q -> p = q.
Proof.
  destruct p as [d g ok], q as [d' g' ok']. simpl. intros Hd Hg.
  subst d' g'. rewrite (proof_irrel ok ok'). reflexivity.
Qed.

Lemma assign_grad_fitting (p : TorchParam) (t : Tensor) :
  fits (data p) t = true ->
  exists p', assign_grad p t = Ok p' /\ data p' = data p /\ p_grad p' = Some t.
Proof.
  intros Hfit. unfold assign_grad.
  destruct (decide _) as [ok | bad].
  - eexists. split; [reflexivity |]. split; reflexivity.
  - destruct bad. simpl. rewrite Hfit. exact I.
Qed.

Lemma assign_grad_other (p : TorchParam) (t : Tensor) :
  fits (data p) t = false -> assign_grad p t = Raise RuntimeError.
Proof.
  intros Hfit. unfold assign_grad.
  destruct (decide _) as [ok | bad]; [| reflexivity].
  exfalso. simpl in ok. rewrite Hfit in ok. exact ok.
Qed.

(** Assigning a parameter the gradient it has leaves it as it is. *)
Lemma assign_grad_own (p : TorchParam) (g : Tensor) :
  p_grad p = Some g -> assign_grad p g = Ok p.
Proof.
  intros Hg. unfold assign_grad.
  destruct (decide _) as [ok | bad].
  - f_equal. apply torch_param_eq; simpl; congruence.
  - destruct bad. rewrite <- Hg. apply p_grad_fits.
Qed.

Lemma set_gradients_length (gradients : list PyVal) :
  forall parameters : list TorchParam,
    length (set_gradients gradients parameters).2 = length parameters /\
    map data (set_gradients gradients parameters).2 = map data parameters.
Proof.
  induction gradients as [|g gs IH]; intros [|p ps]; try (split; reflexivity).
  cbn [set_gradients]. specialize (IH ps).
  destruct (is_none g).
  - destruct (set_gradients gs ps) as [r ps']. simpl in *.
    destruct IH as [-> ->]. split; reflexivity.
  - destruct (from_numpy_copy g) as [t|e]; [| split; reflexivity]. simpl.
    unfold assign_grad. destruct (decide _); [| split; reflexivity].
    destruct (set_gradients gs ps) as [r ps']. simpl in *.
    destruct IH as [-> ->]. split; reflexivity.
Qed.



(** X30. [set_gradients] pairs gradients and parameters by position:
    parameters beyond the last gradient are left as they are, and a
    gradient [None] leaves its parameter's gradient in place instead of
    clearing it. *)
Theorem set_gradients_short_or_none
    (gradients : list PyVal) (parameters rest : list TorchParam) :
  length gradients = length parameters ->
  (set_gradients gradients (parameters ++ rest)).2 =
    (set_gradients gradients parameters).2 ++ rest /\
  (set_gradients (map (fun _ => VNone) parameters) parameters) =
    (Ok tt, parameters).
Proof.
  intros Hlen. split.
  - revert parameters Hlen.
    induction gradients as [|g gs IH]; intros [|p ps] Hlen; try discriminate;
      [reflexivity |].
    injection Hlen as Hlen. specialize (IH ps Hlen).
    cbn [app set_gradients]. destruct (is_none g).
    + destruct (set_gradients gs (ps ++ rest)) as [r l].
      destruct (set_gradients gs ps) as [r' l']. simpl in *. congruence.
    + destruct (rbind (from_numpy_copy g) (assign_grad p)); [| reflexivity].
      destruct (set_gradients gs (ps ++ rest)) as [r l].
      destruct (set_gradients gs ps) as [r' l']. simpl in *. congruence.
  - clear. induction parameters as [|p ps IH]; [reflexivity |].
    cbn [map set_gradients is_none]. rewrite IH. reflexivity.
Qed.

End ModuleGradients.

(** * Runs on the integer-array framework *)

Import IntArrays.

Lemma outcome_pair {A B} (p : A * B) (a : A) : p.1 = a -> p = (a, p.2).
Proof. destruct p. simpl. congruence. Qed.

(** Evaluation of a closed outcome or field. *)
Ltac run := vm_compute; reflexivity.

(** A closed call equals its outcome paired with the state it leaves. *)
Ltac run_call := apply outcome_pair; vm_compute; reflexivity.

(** ** The tape *)

(** C2 (counterexample). A tape is open after [base_forward]; a second
    [base_forward] made before any [base_backward] returns an embedding, no
    error, and the tape that was open is replaced. *)
Lemma second_base_forward_succeeds :
  is_Some (tape opened) /\
  (base_forward "train" false opened).1 =
    Ok (VTensor (Stack [vec [6; 8]])) /\
  tape (base_forward "train" false opened).2 <> tape opened.
Proof.
  split; [eexists; run |]. split; [run |]. vm_compute. discriminate.
Qed.

(** C2 (witness). The first [base_forward] of the partition [ready] gives
    the same result with the tape of [opened] in place. *)
Lemma base_forward_overwrites_open_tape_witness :
  base_forward "train" false ready =
    (Ok (VTensor (Stack [vec [2; 4]])),
     (base_forward "train" false ready).2) /\
  base_forward "train" false (set_tape (tape opened) ready) =
    (Ok (VTensor (Stack [vec [2; 4]])),
     (base_forward "train" false ready).2) /\
  exists data_x,
    tape (base_forward "train" false ready).2 =
    Some {| persistent := true;
            recorded :=
              [TapeCall data_x (h (base_forward "train" false ready).2)] |}.
Proof.
  assert (Hrun : base_forward "train" false ready =
                 (Ok (VTensor (Stack [vec [2; 4]])),
                  (base_forward "train" false ready).2)) by run_call.
  split; [exact Hrun |].
  exact (base_forward_overwrites_open_tape ready (tape opened) "train" false
           _ _ Hrun).
Defined.

(** C6 (witness). [base_backward] on the partition [opened]. *)
Lemma base_backward_releases_tape_witness :
  base_backward (VList [VTensor (vec [1; 1])]) false opened =
    (Ok tt, (base_backward (VList [VTensor (vec [1; 1])]) false opened).2) /\
  is_Some (tape opened) /\
  tape (base_backward (VList [VTensor (vec [1; 1])]) false opened).2 = None /\
  h (base_backward (VList [VTensor (vec [1; 1])]) false opened).2 = VNone.
Proof.
  assert (Hrun : base_backward (VList [VTensor (vec [1; 1])]) false opened =
    (Ok tt, (base_backward (VList [VTensor (vec [1; 1])]) false opened).2))
    by run_call.
  split; [exact Hrun |]. split; [eexists; run |].
  exact (base_backward_releases_tape opened _ false _ Hrun).
Defined.

(** ** Pairing *)

(** [fuse_op] on arrays: the value is the embedding, and the upstream
    gradient [[3; 4]] against the external gradient [[5; 6]] gives
    [[15; 24]] twice. *)
Example fuse_op_run :
  value (fuse_op (VTensor (vec [1; 2])) (VTensor (vec [5; 6]))) =
    VTensor (vec [1; 2]) /\
  grad (fuse_op (VTensor (vec [1; 2])) (VTensor (vec [5; 6])))
    (VTensor (vec [3; 4])) =
    Ok (VTensor (vec [15; 24]), VTensor (vec [15; 24])).
Proof. split; reflexivity. Qed.

(** The integer-array framework follows the convention of
    [tf.custom_gradient]. *)
Lemma int_one_upstream_per_output :
  @one_upstream_per_output int_tensors int_framework.
Proof.
  intros t targets m x y Hin _ Hwide.
  change (int_tape_gradient t targets m = Raise TypeError).
  unfold int_tape_gradient.
  destruct (forallb one_upstream (recorded t)) eqn:E; [| reflexivity].
  rewrite forallb_forall in E. apply list_elem_of_In in Hin.
  specialize (E _ Hin). destruct x; try (simpl in Hwide; lia).
  unfold one_upstream in E. apply negb_true_iff, Nat.leb_gt in E.
  simpl in Hwide. lia.
Qed.

(** C3 (counterexample). One gradient against the two embeddings of
    [two_outputs], whose tape is open: [base_backward] raises [TypeError]
    from [tape.gradient], the gradient is not broadcast and the base network
    is not updated. *)
Lemma single_gradient_on_two_embeddings_raises :
  h two_outputs =
    VList [VTensor (Stack [vec [2; 4]; vec [6; 8]]);
           VTensor (Stack [vec [2; 4]; vec [6; 8]])] /\
  is_Some (tape two_outputs) /\
  (base_backward (VList [VTensor (vec [1; 1])]) false two_outputs).1 =
    Raise TypeError /\
  model_base (base_backward (VList [VTensor (vec [1; 1])]) false
                two_outputs).2 =
    model_base two_outputs.
Proof.
  split; [run |]. split; [eexists; run |]. split; run.
Qed.

(** C3 (witness). Two embeddings against two gradients; the single-tensor
    embedding of [one_output], two rows long, against one gradient; two
    embeddings against one gradient. *)
Lemma base_backward_pairs_gradients_witness :
  let e := VTensor (Stack [vec [2; 4]; vec [6; 8]]) in
  let g1 := VTensor (vec [1; 1]) in
  let g2 := VTensor (vec [2; 2]) in
  let t2 := {| persistent := true;
               recorded := [TapeCall (VTuple [features; features])
                              (VList [e; e])] |} in
  let t1 := {| persistent := true; recorded := [TapeCall features e] |} in
  (tape two_outputs = Some t2 /\ model_base two_outputs = Some 2 /\
   h two_outputs = VList [e; e]) /\
  (tape one_output = Some t1 /\ model_base one_output = Some 2 /\
   py_len (h one_output) = Ok 2%nat) /\
  base_backward (VList [g1; g2]) false two_outputs =
    backward_pass (record_fuse_ops [(e, g1); (e, g2)] t2) [e; e] 2
      two_outputs /\
  (base_backward (VList [g1; g2]) false two_outputs).1 = Ok tt /\
  base_backward (VList [g1]) false one_output =
    backward_pass (record_fuse_ops [(h one_output, g1)] t1) [h one_output] 2
      one_output /\
  (base_backward (VList [g1]) false one_output).1 = Ok tt /\
  base_backward (VList [g1]) false two_outputs =
    (Raise TypeError,
     set_tape (Some (record_fuse_ops [(VList [e; e], g1)] t2)) two_outputs).
Proof.
  intros e g1 g2 t2 t1.
  assert (Ht2 : tape two_outputs = Some t2) by run.
  assert (Hm2 : model_base two_outputs = Some 2) by run.
  assert (Hh2 : h two_outputs = VList [e; e]) by run.
  assert (Ht1 : tape one_output = Some t1) by run.
  assert (Hm1 : model_base one_output = Some 2) by run.
  assert (Hn1 : py_len (h one_output) = Ok 2%nat) by run.
  split; [auto |]. split; [auto |].
  destruct (base_backward_pairs_gradients two_outputs [e; e] [g1; g2] g1
              t2 2 2%nat Ht2 Hm2) as (Hsame & _ & Hwide).
  destruct (base_backward_pairs_gradients one_output [] [] g1
              t1 2 2%nat Ht1 Hm1) as (_ & Hone & _).
  split; [exact (Hsame Hh2 eq_refl) |]. split; [run |].
  split; [apply (Hone Hn1); discriminate |]. split; [run |].
  apply (Hwide Hh2); [simpl; lia | exact int_one_upstream_per_output].
Defined.

(** ** The epoch log *)

(** C4 (witness). One validation log after one fuse step. *)
Lemma epoch_log_contents_witness :
  is_none (VInt 0) = false /\
  fuse_callbacks trained = Some [] /\
  logs trained = Some (train_logs [("loss"%string, VInt 11)]) /\
  exists final s',
    epoch_tail (VInt 0) [{[ "loss"%string := VInt 3 ]}] (VInt 0) trained =
      (Ok (Some final), s') /\
    final !! "train_loss"%string = Some (VInt 11) /\
    is_Some (final !! "val_loss"%string).
Proof.
  assert (Hcbs : fuse_callbacks trained = Some []) by run.
  assert (Hlogs : logs trained = Some (train_logs [("loss"%string, VInt 11)]))
    by run.
  split; [reflexivity |]. split; [exact Hcbs |]. split; [exact Hlogs |].
  destruct (epoch_log_contents trained (VInt 0)
              [{[ "loss"%string := VInt 3 ]}] (VInt 0)
              [("loss"%string, VInt 11)] [] eq_refl Hcbs Hlogs)
    as (final & s' & Hrun & Hsnap & Hval & _).
  exists final, s'. split; [exact Hrun |]. split.
  - apply Hsnap. run.
  - apply (Hval {[ "loss"%string := VInt 3 ]} "loss"%string).
    + apply list_elem_of_here.
    + eexists. run.
Defined.

(** ** The stored batch *)

(** C9 (counterexample). After [base_forward("eval")] the [eval] label and
    sample weight are stored; a [base_forward("train")] that succeeds leaves
    both [None]. *)
Lemma base_forward_train_clears_eval :
  eval_y evaluated = VTensor (vec [0]) /\
  eval_sample_weight evaluated = VTensor (vec [5]) /\
  (base_forward "train" false evaluated).1 =
    Ok (VTensor (Stack [vec [2; 4]])) /\
  eval_y (base_forward "train" false evaluated).2 = VNone /\
  eval_sample_weight (base_forward "train" false evaluated).2 = VNone.
Proof. repeat split; run. Qed.

(** C9 (witness). *)
Lemma base_forward_clears_both_stages_witness :
  is_Some (model_base evaluated) /\
  eval_y (base_forward "train" false evaluated).2 = VNone /\
  eval_sample_weight (base_forward "train" false evaluated).2 = VNone /\
  train_y (base_forward "eval" false evaluated).2 = VNone /\
  train_sample_weight (base_forward "eval" false evaluated).2 = VNone.
Proof.
  assert (Hm : is_Some (model_base evaluated)) by (eexists; run).
  split; [exact Hm |].
  destruct (base_forward_clears_both_stages evaluated false Hm)
    as [(_ & _ & Hy & Hw) (_ & _ & Hy' & Hw')].
  repeat split; assumption.
Defined.

(** ** Sample weights *)

(** C10 (witness). A sample weight without a label. *)
Lemma sample_weight_needs_label_witness :
  [features] <> [] /\
  arg_y unlabelled = VNone /\
  arg_s_w unlabelled = weights /\
  has_s_w (build_dataset [features] unlabelled fresh).2 = false /\
  build_dataset [features] unlabelled fresh =
    build_dataset [features] (without_s_w unlabelled) fresh /\
  train_sample_weight
    (base_forward "train" false
       (build_dataset [features] unlabelled fresh).2).2 = VNone.
Proof.
  assert (Hx : [features] <> []) by discriminate.
  split; [exact Hx |]. split; [reflexivity |]. split; [reflexivity |].
  destruct (sample_weight_needs_label fresh [features] unlabelled Hx
              (or_introl eq_refl)) as (Hflag & Hsame & Hstep).
  split; [exact Hflag |]. split; [exact Hsame |].
  apply (Hstep (ex_intro _ 2 eq_refl) "train"%string false).
Defined.

(** ** Runs that fail *)

(** C5 (the run that fails). [fuse_net] with [compress] set and a compressor
    that is not sparsity-aware does not return the compressed gradients: it
    raises [UnboundLocalError] where it reads [fuse_sparse_masks]. *)
Theorem fuse_net_dense_compressor_unbound_masks :
  (fuse_net [features] true compressing).1 =
  Raise (UnboundLocalError "fuse_sparse_masks").
Proof. run. Qed.

(** C7 (the run that fails). On a loader of one batch, the first call
    returns the batch, the second exhausts the iterator and restarts it, and
    the third raises [TypeError]: the restart has replaced the dictionary of
    iterators by one iterator. *)
Theorem get_one_batch_fails_after_restart :
  (get_batches ["train"; "train"; "train"]%string one_batch).1 =
  [Ok (features, labels); Ok (features, labels); Raise TypeError].
Proof. run. Qed.

(** With the single feature [None] the assertion of [build_dataset] passes;
    the call fails later, in [from_tensor_slices]. *)
Lemma build_dataset_none_feature_passes_assertion :
  (build_dataset [VNone] default_args fresh).1 = Raise ValueError.
Proof. run. Qed.

(** ** Runs of the further properties *)

(** X1 (witness). *)
Lemma build_dataset_illegal_stage_witness :
  stage (labelled "test") <> "train"%string /\
  stage (labelled "test") <> "eval"%string /\
  is_ok (build_dataset [features] (labelled "test") fresh).1 = false /\
  train_set (build_dataset [features] (labelled "test") fresh).2 =
    train_set fresh /\
  eval_set (build_dataset [features] (labelled "test") fresh).2 =
    eval_set fresh.
Proof.
  assert (Ht : stage (labelled "test") <> "train"%string) by discriminate.
  assert (He : stage (labelled "test") <> "eval"%string) by discriminate.
  split; [exact Ht |]. split; [exact He |].
  exact (build_dataset_illegal_stage fresh [features] (labelled "test") Ht He).
Defined.

(** X2 (witness). *)
Lemma build_dataset_installs_on_success_witness :
  stage (labelled "train") = "train"%string /\
  eval_set (build_dataset [features] (labelled "train") ready).2 =
    eval_set ready.
Proof.
  split; [reflexivity |].
  destruct (build_dataset_installs_on_success ready [features]
              (labelled "train")) as (_ & Htrain & _).
  apply Htrain. reflexivity.
Defined.

(** X3 (witness). *)
Lemma build_dataset_weight_flag_needs_label_flag_witness :
  (has_s_w fresh = true -> has_y fresh = true) /\
  has_s_w (build_dataset [features] (labelled "train") fresh).2 = true /\
  has_y (build_dataset [features] (labelled "train") fresh).2 = true.
Proof.
  assert (Hinv : has_s_w fresh = true -> has_y fresh = true) by discriminate.
  assert (Hw : has_s_w (build_dataset [features] (labelled "train") fresh).2
               = true) by run.
  split; [exact Hinv |]. split; [exact Hw |].
  exact (build_dataset_weight_flag_needs_label_flag fresh [features]
           (labelled "train") Hinv Hw).
Defined.

(** X4 (witness). *)
Lemma base_forward_invalid_stage_witness :
  is_Some (model_base ready) /\
  base_forward "test" false ready =
    (Raise (Exception "invalid stage"), (init_data ready).2) /\
  train_set (base_forward "test" false ready).2 = train_set ready.
Proof.
  assert (Hm : is_Some (model_base ready)) by (eexists; run).
  split; [exact Hm |].
  destruct (base_forward_invalid_stage ready "test" false Hm
              ltac:(discriminate) ltac:(discriminate))
    as (Hrun & _ & _ & Htrain & _).
  split; [exact Hrun | exact Htrain].
Defined.

(** X5 (witness). *)
Lemma base_forward_exhausted_witness :
  is_Some (model_base spent) /\
  train_set spent = Some [] /\
  iter_next (@nil PyVal) = (Raise StopIteration, []) /\
  (base_forward "train" false spent).1 = Raise StopIteration /\
  tape (base_forward "train" false spent).2 = tape spent.
Proof.
  assert (Hm : is_Some (model_base spent)) by (eexists; run).
  assert (Hset : train_set spent = Some []) by run.
  split; [exact Hm |]. split; [exact Hset |]. split; [reflexivity |].
  destruct (base_forward_exhausted spent false [] StopIteration [] Hm Hset
              eq_refl) as (Hrun & Htape & _).
  split; [rewrite Hrun; reflexivity | exact Htape].
Defined.

(** X6 (witness). *)
Lemma base_forward_splits_batch_witness :
  let x0 := VTensor (Stack [vec [1; 2]]) in
  let y0 := VTensor (vec [0]) in
  let w0 := VTensor (vec [5]) in
  let later : list PyVal :=
    [VTuple [VTensor (Stack [vec [3; 4]]); VTensor (vec [1]);
             VTensor (vec [7])]] in
  train_set ready = Some (VTuple ([x0] ++ [y0; w0]) :: later) /\
  has_y ready = true /\ has_s_w ready = true /\ label_dp ready = None /\
  base_forward "train" false ready =
  embed_batch x0 false
    (set_train_y y0 (set_train_sample_weight w0
       (set_train_set (Some later) (init_data ready).2))).
Proof.
  intros x0 y0 w0 later.
  assert (Hm : is_Some (model_base ready)) by (eexists; run).
  assert (Hset : train_set ready = Some (VTuple ([x0] ++ [y0; w0]) :: later))
    by run.
  assert (Hy : has_y ready = true) by run.
  assert (Hw : has_s_w ready = true) by run.
  assert (Hdp : label_dp ready = None) by run.
  split; [exact Hset |].
  split; [exact Hy |]. split; [exact Hw |]. split; [exact Hdp |].
  destruct (base_forward_splits_batch ready false
              (VTuple ([x0] ++ [y0; w0]) :: later) later [x0] y0 w0
              Hm Hset Hy Hdp) as [Hsplit _].
  apply Hsplit; [exact Hw | reflexivity].
Defined.

(** X7 (witness). *)
Lemma base_forward_missing_compressor_fails_late_witness :
  compressor ready = None /\
  base_forward "train" false ready =
    (Ok (VTensor (Stack [vec [2; 4]])),
     (base_forward "train" false ready).2) /\
  base_forward "train" true ready =
    (Raise (Exception
       "can not find compressor when compress data in base_forward"),
     (base_forward "train" false ready).2) /\
  is_Some (tape (base_forward "train" false ready).2).
Proof.
  assert (Hc : compressor ready = None) by run.
  assert (Hrun : base_forward "train" false ready =
                 (Ok (VTensor (Stack [vec [2; 4]])),
                  (base_forward "train" false ready).2)) by run_call.
  split; [exact Hc |]. split; [exact Hrun |].
  destruct (base_forward_missing_compressor_fails_late ready "train" _ _
              Hc Hrun) as (Hlate & _ & Htape).
  split; [exact Hlate | exact Htape].
Defined.

(** X8 (witness). *)
Lemma base_forward_takes_one_batch_witness :
  exists it,
    train_set ready = Some it /\
    base_forward "train" false ready =
      (Ok (VTensor (Stack [vec [2; 4]])),
       (base_forward "train" false ready).2) /\
    train_set (base_forward "train" false ready).2 = Some (iter_next it).2 /\
    eval_set (base_forward "train" false ready).2 = eval_set ready.
Proof.
  eexists.
  assert (Hset : train_set ready = Some _) by run.
  assert (Hrun : base_forward "train" false ready =
                 (Ok (VTensor (Stack [vec [2; 4]])),
                  (base_forward "train" false ready).2)) by run_call.
  split; [exact Hset |]. split; [exact Hrun |].
  destruct (base_forward_takes_one_batch ready false _ _ _ Hset Hrun)
    as (Htrain & _ & Heval).
  split; [exact Htrain | exact Heval].
Defined.

(** X9 (witness). *)
Lemma base_backward_tape_single_use_witness :
  base_backward (VList [VTensor (vec [1; 1])]) false opened =
    (Ok tt, (base_backward (VList [VTensor (vec [1; 1])]) false opened).2) /\
  base_backward (VList [VTensor (vec [1; 1])]) false
    (base_backward (VList [VTensor (vec [1; 1])]) false opened).2 =
  (Raise AttributeError,
   (base_backward (VList [VTensor (vec [1; 1])]) false opened).2).
Proof.
  assert (Hrun : base_backward (VList [VTensor (vec [1; 1])]) false opened =
    (Ok tt, (base_backward (VList [VTensor (vec [1; 1])]) false opened).2))
    by run_call.
  split; [exact Hrun |].
  exact (base_backward_tape_single_use opened _ false _ _ Hrun).
Defined.

(** X11 (witness).  Three gradients against the single-tensor embedding of
    [one_output], two rows long, and against the two embeddings of
    [two_outputs]. *)
Lemma base_backward_length_mismatch_witness :
  let e := VTensor (Stack [vec [2; 4]; vec [6; 8]]) in
  let g1 := VTensor (vec [1; 1]) in
  let g2 := VTensor (vec [2; 2]) in
  let t1 := {| persistent := true; recorded := [TapeCall features e] |} in
  let t2 := {| persistent := true;
               recorded := [TapeCall (VTuple [features; features])
                              (VList [e; e])] |} in
  (py_len (h one_output) = Ok 2%nat /\
   tape one_output = Some t1 /\ model_base one_output = Some 2) /\
  (h two_outputs = VList [e; e] /\
   tape two_outputs = Some t2 /\ model_base two_outputs = Some 2) /\
  base_backward (VList [g1; g2; g2]) false one_output =
    backward_pass (record_fuse_ops [(h one_output, g1)] t1) [h one_output] 2
      one_output /\
  (base_backward (VList [g1; g2; g2]) false one_output).1 = Ok tt /\
  base_backward (VList [g1; g2; g2]) false two_outputs =
    (Raise TypeError,
     set_tape (Some (record_fuse_ops [(VList [e; e], g1)] t2)) two_outputs) /\
  base_backward (VList []) false one_output = (Raise IndexError, one_output).
Proof.
  intros e g1 g2 t1 t2.
  assert (Hn : py_len (h one_output) = Ok 2%nat) by run.
  assert (Ht : tape one_output = Some t1) by run.
  assert (Hm : model_base one_output = Some 2) by run.
  assert (Hh2 : h two_outputs = VList [e; e]) by run.
  assert (Hn2 : py_len (h two_outputs) = Ok 2%nat) by run.
  assert (Ht2 : tape two_outputs = Some t2) by run.
  assert (Hm2 : model_base two_outputs = Some 2) by run.
  split; [auto |]. split; [auto |].
  destruct (base_backward_length_mismatch one_output 2 Hn)
    as (Hfirst & _ & Hempty).
  destruct (base_backward_length_mismatch two_outputs 2 Hn2)
    as (_ & Hwide & _).
  split; [apply (Hfirst g1 [g2; g2] t1 2 Ht Hm); discriminate |].
  split; [run |].
  split.
  - apply (Hwide [e; e] g1 [g2; g2] t2 2 Ht2 Hm2 Hh2);
      [simpl; lia | discriminate | exact int_one_upstream_per_output].
  - apply Hempty; [discriminate | eexists; run].
Defined.

(** X12 (witness). *)
Lemma flatten_hiddens_length_witness :
  flatten_hiddens [VList [features; labels]; weights] =
    Ok [features; labels; weights] /\
  length [features; labels; weights] =
    sum_list (map width [VList [features; labels]; weights]).
Proof.
  assert (Hflat : flatten_hiddens [VList [features; labels]; weights] =
                  Ok [features; labels; weights]) by reflexivity.
  split; [exact Hflat |].
  exact (flatten_hiddens_length _ _ Hflat).
Defined.

(** X14 (witness). *)
Lemma train_logs_last_wins_witness :
("loss"%string ∉ [("acc"%string, VInt 3)].*1) /\
  train_logs ([("loss"%string, VInt 1)] ++
              ("loss"%string, VInt 2) :: [("acc"%string, VInt 3)])
    !! String.append "train_" "loss" = Some (VInt 2).
Proof.
  assert (Hn : "loss"%string ∉ [("acc"%string, VInt 3)].*1).
  { intros Hin. apply elem_of_cons in Hin as [Hin | Hin];
      [discriminate | inversion Hin]. }
  split; [exact Hn |].
  exact (train_logs_last_wins [("loss"%string, VInt 1)]
           [("acc"%string, VInt 3)] "loss" (VInt 2) Hn).
Defined.

(** X16 (witness). *)
Lemma fuse_net_returns_gradients_witness :
  model_fuse fresh = Some 10 /\
  flatten_hiddens [features] = Ok [features] /\
  fuse_net [features] false fresh =
  (Ok (VList [features]),
   set_logs (Some (train_logs (model_metrics 11)))
     (set_model_fuse (Some 11) fresh)).
Proof.
  split; [reflexivity |]. split; [reflexivity |].
  exact (fuse_net_returns_gradients fresh [features] 10 [features]
           [features] 11 eq_refl eq_refl eq_refl).
Defined.

(** X17 (witness). *)
Lemma fuse_net_crashes_after_training_witness :
  compressor compressing = Some plain_compressor /\
  sparse plain_compressor = false /\
  fuse_net [features] true compressing =
  (Raise (UnboundLocalError "fuse_sparse_masks"),
   set_logs (Some (train_logs (model_metrics 11)))
     (set_model_fuse (Some 11) compressing)).
Proof.
  split; [reflexivity |]. split; [reflexivity |].
  exact (fuse_net_crashes_after_training compressing [features]
           plain_compressor 10 (VTuple [features]) [features] [features]
           [features] 11 [features] (VList [features])
           eq_refl eq_refl eq_refl eq_refl eq_refl eq_refl eq_refl eq_refl
           eq_refl).
Defined.

(** X18 (witness).  A validation before and after [on_epoch_end]: the
    second one changes the training log. *)
Lemma on_validation_overwrites_witness :
  let before : gmap string PyVal := {[ "val_loss"%string := VInt 1 ]} in
  let self := set_epoch_logs (Some before) (init_training false fresh).2 in
  epoch_logs self = Some before /\ fuse_callbacks self = Some [] /\
  exists e' s1 s2,
    on_validation {[ "loss"%string := VInt 3 ]} self =
      (Ok tt, set_epoch_logs (Some e') self) /\
    on_epoch_end (VInt 0) self = (Ok (Some before), s1) /\
    training_logs s1 = Some before /\
    on_validation {[ "loss"%string := VInt 3 ]} s1 = (Ok tt, s2) /\
    training_logs s2 = Some e' /\
    e' !! String.append "val_" "loss" = Some (VInt 3).
Proof.
  intros before self.
  assert (He : epoch_logs self = Some before) by reflexivity.
  assert (Hcbs : fuse_callbacks self = Some []) by reflexivity.
  split; [exact He |]. split; [exact Hcbs |].
  destruct (on_validation_overwrites self before
              {[ "loss"%string := VInt 3 ]} He)
    as (e' & Hrun & Hshared & Hnew & _).
  destruct (Hshared (VInt 0) [] Hcbs) as (s1 & s2 & Hend & Ht1 & Hval & _ & Ht2).
  exists e', s1, s2. split; [exact Hrun |]. split; [exact Hend |].
  split; [exact Ht1 |]. split; [exact Hval |]. split; [exact Ht2 |].
  apply Hnew. run.
Defined.

(** X19 (witness). *)
Lemma on_validation_idempotent_witness :
  let before : gmap string PyVal := {[ "val_loss"%string := VInt 1 ]} in
  let self := set_epoch_logs (Some before) fresh in
  epoch_logs self = Some before /\
  (do* on_validation {[ "loss"%string := VInt 3 ]} in
   on_validation {[ "loss"%string := VInt 3 ]}) self =
  on_validation {[ "loss"%string := VInt 3 ]} self.
Proof.
  intros before self.
  assert (He : epoch_logs self = Some before) by reflexivity.
  split; [exact He |].
  exact (on_validation_idempotent self before _ He).
Defined.

(** X20 (witness). *)
Lemma life_cycle_failures_witness :
  fuse_callbacks trained = Some [] /\
  fuse_callbacks fresh = None /\ epoch_logs fresh = None /\
  on_train_batch_end (VInt 0) (set_fuse_callbacks None trained) =
    (Raise AttributeError,
     set_logs_shared false
       (set_epoch_logs (logs trained) (set_fuse_callbacks None trained))) /\
  on_validation ∅ fresh = (Raise AttributeError, fresh) /\
  on_epoch_end (VInt 0) fresh = (Raise AttributeError, fresh).
Proof.
  split; [run |]. split; [reflexivity |]. split; [reflexivity |].
  destruct (life_cycle_failures (set_fuse_callbacks None trained)
              (VInt 0) (VInt 0) ∅) as (_ & Hend & _ & _).
  destruct (life_cycle_failures fresh (VInt 0) (VInt 0) ∅)
    as (_ & _ & Hval & Hepoch).
  split; [apply Hend; reflexivity |].
  split; [apply Hval; reflexivity | apply Hepoch; reflexivity].
Defined.

(** X21 (witness). *)
Lemma next_epoch_starts_from_step_log_witness :
  fuse_callbacks trained = Some [] /\
  logs trained = Some (train_logs [("loss"%string, VInt 11)]) /\
  exists final s1 s2,
    epoch_tail (VInt 0) [{[ "loss"%string := VInt 3 ]}] (VInt 0) trained =
      (Ok (Some final), s1) /\
    on_train_batch_end (VInt 1) s1 = (Ok tt, s2) /\
    epoch_logs s2 = Some (train_logs [("loss"%string, VInt 11)]) /\
    training_logs s2 = Some final.
Proof.
  assert (Hcbs : fuse_callbacks trained = Some []) by run.
  assert (Hlogs : logs trained = Some (train_logs [("loss"%string, VInt 11)]))
    by run.
  split; [exact Hcbs |]. split; [exact Hlogs |].
  exact (next_epoch_starts_from_step_log trained (VInt 0)
           [{[ "loss"%string := VInt 3 ]}] (VInt 0) (VInt 1) _ []
           eq_refl eq_refl Hcbs Hlogs).
Defined.

(** X22 (witness). *)
Lemma set_sample_weight_erased_by_base_forward_witness :
  let self := (build_dataset [features] weightless fresh).2 in
  is_Some (model_base self) /\ has_s_w self = false /\
  exists s1,
    set_sample_weight weights "train" self = (Ok tt, s1) /\
    train_sample_weight s1 = weights /\
    train_sample_weight (base_forward "train" false s1).2 = VNone.
Proof.
  intros self.
  assert (Hm : is_Some (model_base self)) by (eexists; run).
  assert (Hw : has_s_w self = false) by run.
  split; [exact Hm |]. split; [exact Hw |].
  destruct (set_sample_weight_erased_by_base_forward self weights "train"
              "train" false Hm Hw (or_introl eq_refl))
    as (s1 & Hset & Htrain & _ & Hnone & _).
  exists s1. split; [exact Hset |]. split; [apply Htrain; reflexivity |].
  exact Hnone.
Defined.

(** X23 (witness). *)
Lemma evaluate_compression_transparent_witness :
  let packed : PyVal := VEncoded (vec [1; 2]) in
  let plain : PyVal := VTensor (vec [1; 2]) in
  compressor packing = Some packing_compressor /\
  decompress packing_compressor (VTuple [packed]) = Ok (VTuple [plain]) /\
  evaluate [packed] true packing = evaluate [plain] false packing /\
  (evaluate [packed] true packing).1 = Ok {[ "loss"%string := VInt 110 ]}.
Proof.
  intros packed plain.
  split; [reflexivity |]. split; [reflexivity |].
  destruct (evaluate_compression_transparent packing [packed]
              packing_compressor [plain] eq_refl eq_refl) as [Heval _].
  split; [exact Heval | run].
Defined.

(** X25 (witness). *)
Lemma get_one_batch_in_order_then_restart_witness :
  (get_batches ["train"; "train"; "train"]%string two_loaders).1 =
  [Ok batch_a; Ok batch_b; Ok batch_a].
Proof.
  assert (Hname : ({[ "train"%string := [batch_a; batch_b];
                      "eval"%string := [batch_c] ]}
                   : gmap string DataLoader) !! "train"%string =
                  Some [batch_a; batch_b]) by run.
  exact (@get_one_batch_in_order_then_restart int_tensors int_torch 1 _ "train" batch_a [batch_b]
           Hname).
Defined.

(** X26 (witness). *)
Lemma get_one_batch_stages_commute_witness :
  "train"%string <> "eval"%string /\
  exists s',
    get_batches ["train"; "eval"]%string two_loaders =
      ([Ok batch_a; Ok batch_c], s') /\
    get_batches ["eval"; "train"]%string two_loaders =
      ([Ok batch_c; Ok batch_a], s').
Proof.
  assert (Hne : "train"%string <> "eval"%string) by discriminate.
  split; [exact Hne |].
  refine (get_one_batch_stages_commute two_loaders _ "train" "eval"
            batch_a [batch_b] batch_c [] eq_refl Hne _ _); run.
Defined.

(** X27 (witness). *)
Lemma get_one_batch_missing_or_empty_witness :
  get_one_batch "eval" no_batches = (Raise KeyError, no_batches) /\
  (get_batches ["train"; "eval"]%string no_batches).1 =
    [Raise StopIteration; Raise TypeError].
Proof.
  destruct (@get_one_batch_missing_or_empty int_tensors int_torch 1
              ({[ "train"%string := @nil Batch ]} : gmap string DataLoader)
              "eval" "eval") as [Hmissing _].
  destruct (@get_one_batch_missing_or_empty int_tensors int_torch 1
              ({[ "train"%string := @nil Batch ]} : gmap string DataLoader)
              "train" "eval") as [_ Hempty].
  split; [apply Hmissing; run | apply Hempty; run].
Defined.


(** X30 (witness). *)
Lemma set_gradients_short_or_none_witness :
  let g : PyVal := VTensor (vec [7]) in
  length [g] = length (take 1 three_params) /\
  (set_gradients [g] three_params).2 =
    (set_gradients [g] (take 1 three_params)).2 ++ drop 1 three_params /\
  set_gradients [VNone; VNone; VNone] three_params = (Ok tt, three_params).
Proof.
  intros g. split; [reflexivity |].
  destruct (set_gradients_short_or_none [g]
              (take 1 three_params) (drop 1 three_params) eq_refl)
    as [Hshort _].
  destruct (set_gradients_short_or_none [VNone; VNone; VNone] three_params []
              eq_refl) as [_ Hnone].
  split; [exact Hshort | exact Hnone].
Defined.
